(** * Placeholder resolution and batch action engine

    A shallow embedding of [src/action_processing.py] and of the parts of
    [src/github_utils.py] it drives, followed by the properties of the
    engine that the specification states.

    Conventions of the embedding.
    - Python [str] values are [string]s whose characters are code points
      below 256; [str.strip], [str.lower] and the regular-expression class
      [\s] are written out for that range.
    - Python values read from YAML or JSON documents are [pyval]s: [None],
      booleans, integers, strings, lists and dictionaries (an association
      list in insertion order).  Floats and dates are left out.
    - A Python exception is a value of [exn]; a call that may raise returns
      an [outcome].  [try]/[except] is a [match] on the outcome.
    - The remote host (PyGithub) is a record of operations over an abstract
      world [W]; every call threads the world.
    - The libraries the code calls ([re], [yaml], [json], [fnmatch], the
      [repr] of containers) are the fields of a [Runtime] record.
    - Calls to [logger] and [print] have no effect on results and are
      omitted. *)

From stdpp Require Import gmap strings list pretty.
From Stdlib Require Import Ascii String ZArith Lia.

Local Open Scope string_scope.
Local Open Scope list_scope.

(** ** Python strings *)

Module PyStr.

Definition code (c : ascii) : N := N_of_ascii c.

(** [str.isspace] on one character, which is also the class [\s] of [re]
    for [str] patterns: TAB..CR, FS..US, SPACE, NEL and NBSP. *)
Definition is_space (c : ascii) : bool :=
  let n := code c in
  ((9 <=? n) && (n <=? 13) || (28 <=? n) && (n <=? 32)
   || (n =? 133) || (n =? 160))%N.

Definition is_empty (s : string) : bool :=
  match s with EmptyString => true | _ => false end.

(** Truth value of a [str]: non-empty. *)
Definition truthy (s : string) : bool := negb (is_empty s).

Fixpoint lstrip (s : string) : string :=
  match s with
  | String c s' => if is_space c then lstrip s' else s
  | EmptyString => EmptyString
  end.

Fixpoint rstrip (s : string) : string :=
  match s with
  | String c s' =>
      let r := rstrip s' in
      if is_space c && is_empty r then EmptyString else String c r
  | EmptyString => EmptyString
  end.

(** [s.strip()] *)
Definition strip (s : string) : string := rstrip (lstrip s).

Fixpoint lstrip_char (x : ascii) (s : string) : string :=
  match s with
  | String c s' => if Ascii.eqb c x then lstrip_char x s' else s
  | EmptyString => EmptyString
  end.

Fixpoint rstrip_char (x : ascii) (s : string) : string :=
  match s with
  | String c s' =>
      let r := rstrip_char x s' in
      if Ascii.eqb c x && is_empty r then EmptyString else String c r
  | EmptyString => EmptyString
  end.

(** [s.strip('/')] and the like, for a one-character argument. *)
Definition strip_char (x : ascii) (s : string) : string :=
  rstrip_char x (lstrip_char x s).

Definition lower_char (c : ascii) : ascii :=
  let n := code c in
  if ((65 <=? n) && (n <=? 90)
      || (192 <=? n) && (n <=? 222) && negb (n =? 215))%N
  then ascii_of_N (n + 32) else c.

(** [s.lower()] *)
Fixpoint lower (s : string) : string :=
  match s with
  | String c s' => String (lower_char c) (lower s')
  | EmptyString => EmptyString
  end.

(** [s.split(sep)] for a one-character separator: never an empty list. *)
Fixpoint split (sep : ascii) (s : string) : list string :=
  match s with
  | EmptyString => [EmptyString]
  | String c s' =>
      if Ascii.eqb c sep then EmptyString :: split sep s'
      else match split sep s' with
           | h :: t => String c h :: t
           | [] => [String c EmptyString]
           end
  end.

(** [needle in hay] *)
Fixpoint contains (needle hay : string) : bool :=
  String.prefix needle hay
  || match hay with
     | String _ h' => contains needle h'
     | EmptyString => false
     end.

(** [s.startswith(p)] *)
Definition startswith (s p : string) : bool := String.prefix p s.

(** [s.endswith(p)] for a one-character [p]. *)
Fixpoint ends_with_char (x : ascii) (s : string) : bool :=
  match s with
  | EmptyString => false
  | String c EmptyString => Ascii.eqb c x
  | String _ s' => ends_with_char x s'
  end.

(** [sep.join(l)] *)
Fixpoint join (sep : string) (l : list string) : string :=
  match l with
  | [] => EmptyString
  | [x] => x
  | x :: t => x +:+ sep +:+ join sep t
  end.

(** [str.replace(old, new[, count])]; [limit = None] is "no count". *)
Definition limit_reached (limit : option nat) : bool :=
  match limit with Some O => true | _ => false end.

Definition limit_pred (limit : option nat) : option nat :=
  match limit with Some n => Some (Nat.pred n) | None => None end.

Fixpoint replace_empty (new : string) (limit : option nat) (s : string)
  : string :=
  if limit_reached limit then s
  else match s with
       | EmptyString => new
       | String c s' =>
           new +:+ String c (replace_empty new (limit_pred limit) s')
       end.

Fixpoint replace_go (old new : string) (limit : option nat) (skip : nat)
    (s : string) : string :=
  match s with
  | EmptyString => EmptyString
  | String c s' =>
      match skip with
      | S k => replace_go old new limit k s'
      | O =>
          if negb (limit_reached limit) && String.prefix old s
          then new +:+ replace_go old new (limit_pred limit)
                         (Nat.pred (String.length old)) s'
          else String c (replace_go old new limit 0 s')
      end
  end.

Definition replace (old new : string) (limit : option nat) (s : string)
  : string :=
  if is_empty old then replace_empty new limit s
  else replace_go old new limit 0 s.

(** [int(s)]: surrounding white space, an optional sign, decimal digits
    with single underscores between them; [None] stands for [ValueError].
    The limit of CPython on the number of digits is left out. *)
Definition digit_of (c : ascii) : option Z :=
  let n := code c in
  if ((48 <=? n) && (n <=? 57))%N then Some (Z.of_N n - 48)%Z else None.

Fixpoint digits_go (acc : Z) (after_digit : bool) (s : string) : option Z :=
  match s with
  | EmptyString => if after_digit then Some acc else None
  | String c s' =>
      match digit_of c with
      | Some d => digits_go (10 * acc + d)%Z true s'
      | None =>
          if Ascii.eqb c "_" && after_digit then digits_go acc false s'
          else None
      end
  end.

Definition parse_int (s : string) : option Z :=
  match strip s with
  | String "-" s' => Z.opp <$> digits_go 0 false s'
  | String "+" s' => digits_go 0 false s'
  | s' => digits_go 0 false s'
  end.

(** [str(n)] for an [int]. *)
Definition str_of_Z (z : Z) : string := pretty z.
Definition str_of_nat (n : nat) : string := pretty n.
Definition str_of_bool (b : bool) : string := if b then "True" else "False".

End PyStr.


(** ** Template substitution engine ([action_processing.py], lines 12-26) *)

Module Template.
Import PyStr.

(** The longest prefix of [s] whose characters satisfy [p], and the rest:
    what a greedy [p*] consumes. *)
Fixpoint span (p : ascii -> bool) (s : string) : string * string :=
  match s with
  | String c s' =>
      if p c then let '(a, b) := span p s' in (String c a, b)
      else (EmptyString, s)
  | EmptyString => (EmptyString, EmptyString)
  end.

(** The class [[^}\s]]. *)
Definition is_name_char (c : ascii) : bool :=
  negb (Ascii.eqb c "}") && negb (is_space c).

(** A match of [\{\{\s*([^}\s]+)\s*\}\}] anchored at the start of [s]:
    the matched text (group 0), the name (group 1) and what follows.  The
    classes [\s] and [[^}\s]] are disjoint and [}] is in neither, so the
    greedy choice is the only one and backtracking never finds another
    match. *)
Definition match_token (s : string) : option (string * string * string) :=
  match s with
  | String "{" (String "{" s1) =>
      let '(ws1, s2) := span is_space s1 in
      let '(name, s3) := span is_name_char s2 in
      if is_empty name then None
      else
        let '(ws2, s4) := span is_space s3 in
        match s4 with
        | String "}" (String "}" rest) =>
            Some ("{{" +:+ ws1 +:+ name +:+ ws2 +:+ "}}", name, rest)
        | _ => None
        end
  | _ => None
  end.

(** What the scan of [re.sub] cuts a text into: the characters no match
    covers, and the matches, left to right and not overlapping. *)
Inductive piece :=
| Lit (c : ascii)
| Tok (group0 name : string).

Definition piece_text (p : piece) : string :=
  match p with
  | Lit c => String c EmptyString
  | Tok g0 _ => g0
  end.

Fixpoint concat_str (l : list string) : string :=
  match l with
  | [] => EmptyString
  | x :: t => x +:+ concat_str t
  end.

(** The scan, with the number of characters still covered by the last
    match in [skip]. *)
Fixpoint scan_from (skip : nat) (s : string) : list piece :=
  match s with
  | EmptyString => []
  | String c s' =>
      match skip with
      | S k => scan_from k s'
      | O =>
          match match_token s with
          | Some (g0, name, _) =>
              Tok g0 name :: scan_from (Nat.pred (String.length g0)) s'
          | None => Lit c :: scan_from 0 s'
          end
      end
  end.

Definition tokenize (s : string) : list piece := scan_from 0 s.

(** [replace_match]: the callback given to [re.sub]. *)
Definition replace_match (resolved_placeholders : gmap string string)
    (p : piece) : string :=
  match p with
  | Lit c => String c EmptyString
  | Tok g0 name => default g0 (resolved_placeholders !! name)
  end.

Definition render (resolved_placeholders : gmap string string)
    (ps : list piece) : string :=
  concat_str (map (replace_match resolved_placeholders) ps).

(** [process_placeholders_in_string] on a [str].  The callback returns a
    [str] for every match, so [re.sub] does not raise and the [except]
    branch is not taken. *)
Definition process_placeholders_in_string (text_to_process : string)
    (resolved_placeholders : gmap string string) : string :=
  render resolved_placeholders (tokenize text_to_process).

(** The same on a value that may be [None]: anything that is not a [str]
    is returned as it is. *)
Definition process_placeholders_in_opt (text_to_process : option string)
    (resolved_placeholders : gmap string string) : option string :=
  (fun t => process_placeholders_in_string t resolved_placeholders)
    <$> text_to_process.

(** The text a list of pieces stands for. *)
Definition text_of (ps : list piece) : string :=
  concat_str (map piece_text ps).

(** The names of the tokens among the pieces, and of a text. *)
Definition names_of (ps : list piece) : list string :=
  omap (fun p => match p with Tok _ n => Some n | Lit _ => None end) ps.

Definition token_names (s : string) : list string :=
  names_of (tokenize s).

(** The token grammar of the specification: two opening braces, optional
    white space, an identifier of one or more characters that are neither
    white space nor a closing brace, optional white space, two closing
    braces. *)
Fixpoint all_chars (p : ascii -> bool) (s : string) : bool :=
  match s with
  | EmptyString => true
  | String c s' => p c && all_chars p s'
  end.

Definition is_token (g0 n : string) : Prop :=
  exists ws1 ws2,
    g0 = "{{" +:+ ws1 +:+ n +:+ ws2 +:+ "}}"
    /\ all_chars is_space ws1 = true
    /\ all_chars is_space ws2 = true
    /\ all_chars is_name_char n = true
    /\ n <> "".

(** [substitute] applied twice gives what it gives once. *)
Definition idempotent_on (T : string) (M : gmap string string) : Prop :=
  process_placeholders_in_string (process_placeholders_in_string T M) M
  = process_placeholders_in_string T M.

(** No token of [T] has a name that is a key of [M] whose value holds a
    token itself. *)
Definition no_token_in_values (T : string) (M : gmap string string) : bool :=
  forallb (fun n => match M !! n with
                    | Some v => bool_decide (token_names v = [])
                    | None => true
                    end)
          (token_names T).

End Template.

(** ** Python values and path navigation ([github_utils.py], lines 882-919) *)

Inductive pykey :=
| KStr (s : string)
| KInt (z : Z)
| KBool (b : bool)
| KNone.

#[warnings="-register-all"]
Inductive pyval :=
| PNone
| PBool (b : bool)
| PInt (z : Z)
| PStr (s : string)
| PList (l : list pyval)
| PDict (d : list (pykey * pyval)).

Module Path.
Import PyStr.

Definition is_none (v : pyval) : bool :=
  match v with PNone => true | _ => false end.

(** [key in value] and [value[key]] for a [str] key. *)
Fixpoint dict_get (d : list (pykey * pyval)) (key : string) : option pyval :=
  match d with
  | [] => None
  | (KStr k, v) :: d' => if String.eqb k key then Some v else dict_get d' key
  | _ :: d' => dict_get d' key
  end.

(** The fallback loop over [value.keys()]: the first key that is a [str]
    and equals [key] once both are lowered. *)
Fixpoint dict_get_ci (d : list (pykey * pyval)) (key : string)
  : option (string * pyval) :=
  match d with
  | [] => None
  | (KStr k_actual, v) :: d' =>
      if String.eqb (lower k_actual) (lower key) then Some (k_actual, v)
      else dict_get_ci d' key
  | _ :: d' => dict_get_ci d' key
  end.

(** One turn of the loop [for key in keys]: the next [value], or the
    error message the function returns with. *)
Definition step (path : string) (value : pyval) (key : string)
  : pyval + string :=
  match value with
  | PDict d =>
      match dict_get d key with
      | Some v => inl v
      | None =>
          match dict_get_ci d key with
          | Some (found_key, v) =>
              if truthy found_key then inl v
              else inr ("Key '" +:+ key +:+ "' not found in path '"
                        +:+ path +:+ "'")
          | None =>
              inr ("Key '" +:+ key +:+ "' not found in path '"
                   +:+ path +:+ "'")
          end
      end
  | PList l =>
      match parse_int key with
      | Some idx =>
          if ((0 <=? idx) && (idx <? Z.of_nat (List.length l)))%Z then
            match l !! Z.to_nat idx with
            | Some v => inl v
            | None => inr ("Index " +:+ str_of_Z idx
                           +:+ " out of bounds for key '" +:+ key
                           +:+ "' in path '" +:+ path +:+ "'")
            end
          else inr ("Index " +:+ str_of_Z idx +:+ " out of bounds for key '"
                    +:+ key +:+ "' in path '" +:+ path +:+ "'")
      | None =>
          inr ("Invalid index '" +:+ key +:+ "' in path '" +:+ path +:+ "'")
      end
  | _ =>
      inr ("Cannot navigate further at '" +:+ key +:+ "' in path '" +:+ path
           +:+ "'. Value is not a dict or list.")
  end.

Fixpoint walk (path : string) (value : pyval) (keys : list string)
  : pyval * option string :=
  match keys with
  | [] => (value, None)
  | key :: keys' =>
      match step path value key with
      | inl v => walk path v keys'
      | inr e => (PNone, Some e)
      end
  end.

(** [_get_value_from_path]: the value and no error, or [None] and the
    error.  Nothing in its body raises, so the outer [except] is dead. *)
Definition _get_value_from_path (data : pyval) (path : string)
  : pyval * option string :=
  walk path data (split "." path).

End Path.

(** ** Exceptions, the libraries and the remote host *)

(** A raised exception.  [GithubException] carries what the handlers read:
    whether it is the subclass [UnknownObjectException], [e.status],
    [e.data.get('message')], the list [[err.get('message', '') for err in
    e.data.get('errors', [])]] and [str(e)].  The other classes carry their
    [str(e)]; [OtherException] is any exception of another class
    (a connection error, a [TypeError], ...). *)
Inductive exn :=
| GithubException (unknown_object : bool) (status : Z)
    (data_message : option string) (data_errors : list string)
    (text : string)
| ReError (text : string)
| YAMLError (text : string)
| JSONDecodeError (text : string)
| OtherException (text : string).

Inductive outcome (A : Type) :=
| Ok (a : A)
| Raise (e : exn).
Arguments Ok {A} a.
Arguments Raise {A} e.

(** [e.data.get('message', str(e))] of a [GithubException] *)
Definition exn_message (e : exn) : string :=
  match e with
  | GithubException _ _ m _ t => default t m
  | ReError t | YAMLError t | JSONDecodeError t | OtherException t => t
  end.

(** [str(e)] *)
Definition exn_text (e : exn) : string :=
  match e with
  | GithubException _ _ _ _ t => t
  | ReError t | YAMLError t | JSONDecodeError t | OtherException t => t
  end.

Definition is_github (e : exn) : bool :=
  match e with GithubException _ _ _ _ _ => true | _ => false end.

Definition is_unknown_object (e : exn) : bool :=
  match e with GithubException u _ _ _ _ => u | _ => false end.

Definition exn_status (e : exn) : Z :=
  match e with GithubException _ st _ _ _ => st | _ => 0%Z end.

Definition exn_errors (e : exn) : list string :=
  match e with GithubException _ _ _ errs _ => errs | _ => [] end.

(** A match object of [re]: group 0 and the capture groups, [None] for a
    group that did not take part in the match. *)
Record MatchObj := {
  m_group0 : string;
  m_groups : list (option string);
}.

(** [match.group(i)] for [0 <= i <= len(match.groups())]. *)
Definition match_group (m : MatchObj) (i : Z) : option string :=
  if (i =? 0)%Z then Some (m_group0 m)
  else default None (m_groups m !! Z.to_nat (i - 1)).

(** The library functions the engine calls. *)
Record Runtime := {
  (** [re.search(pattern, text)] *)
  re_search : string -> string -> outcome (option MatchObj);
  (** [re.sub(pattern, repl, text, count=count)] *)
  re_sub : string -> string -> string -> nat -> outcome string;
  (** [json.loads(text)] *)
  json_loads : string -> outcome pyval;
  (** [yaml.safe_load(text)] *)
  yaml_safe_load : string -> outcome pyval;
  (** [fnmatch.fnmatch(name, pattern)] *)
  fnmatch : string -> string -> bool;
  (** [str(value)] of a list or dictionary. *)
  repr_container : pyval -> string;
  (** The text of a list of strings inside an f-string. *)
  repr_str_list : list string -> string;
}.

(** [str(value)] *)
Definition py_str (rt : Runtime) (v : pyval) : string :=
  match v with
  | PNone => "None"
  | PBool b => PyStr.str_of_bool b
  | PInt z => PyStr.str_of_Z z
  | PStr s => s
  | PList _ | PDict _ => repr_container rt v
  end.

(** Truth value of an [Optional[str]], and its text inside an f-string. *)
Definition otruthy (o : option string) : bool :=
  match o with Some s => PyStr.truthy s | None => false end.

Definition fmt_opt (o : option string) : string := default "None" o.

(** *** PyGithub objects *)

Record RepoObj := {
  ro_full_name : string;
  ro_owner_login : string;
  ro_default_branch : option string;
}.

(** Reading [decoded_content] of a [ContentFile]: the attribute is absent
    ([hasattr] is false), reading it raises, or it is there and
    [.decode('utf-8')] gives a text or raises. *)
Inductive decoded :=
| NoAttr
| AttrRaises (e : exn)
| Bytes (text : outcome string).

Record ContentFile := {
  cf_path : string;
  cf_sha : string;
  cf_type : string;
  cf_decoded : decoded;
}.

(** The result of [repo.get_contents]: one file, or the list of a
    directory. *)
Inductive Contents :=
| CFile (f : ContentFile)
| CDir (l : list ContentFile).

Record TreeElement := {
  te_type : string;
  te_path : string;
}.

(** [hasattr(f, 'decoded_content')] *)
Definition has_decoded (f : ContentFile) : outcome bool :=
  match cf_decoded f with
  | NoAttr => Ok false
  | AttrRaises e => Raise e
  | Bytes _ => Ok true
  end.

(** [f.decoded_content.decode('utf-8')] *)
Definition decode_content (f : ContentFile) : outcome string :=
  match cf_decoded f with
  | NoAttr => Raise (OtherException
                "'ContentFile' object has no attribute 'decoded_content'")
  | AttrRaises e => Raise e
  | Bytes t => t
  end.

(** The operations of PyGithub the engine calls, over a world [W]. *)
Record Host (W : Type) := {
  (** [g.get_repo(full_name)] *)
  h_get_repo : string -> W -> outcome RepoObj * W;
  (** [repo.get_git_ref(ref)] *)
  h_get_git_ref : RepoObj -> string -> W -> outcome unit * W;
  (** [repo.get_branch(name).commit.sha] *)
  h_get_branch : RepoObj -> string -> W -> outcome string * W;
  (** [repo.create_git_ref(ref, sha)] *)
  h_create_git_ref : RepoObj -> string -> string -> W -> outcome unit * W;
  (** [repo.get_contents(path, ref)] *)
  h_get_contents : RepoObj -> string -> string -> W -> outcome Contents * W;
  (** [repo.delete_file(path, message, sha, branch)] *)
  h_delete_file :
    RepoObj -> string -> string -> string -> string -> W -> outcome unit * W;
  (** [repo.update_file(path, message, content, sha, branch)['content'].sha] *)
  h_update_file :
    RepoObj -> string -> string -> string -> string -> string -> W ->
    outcome string * W;
  (** [repo.create_file(path, message, content, branch)['content'].sha] *)
  h_create_file :
    RepoObj -> string -> string -> string -> string -> W -> outcome string * W;
  (** [repo.get_pulls(state='open', head, base)], iterated: the
      [html_url]s. *)
  h_get_pulls : RepoObj -> string -> string -> W -> outcome (list string) * W;
  (** [repo.create_pull(title, body, head, base).html_url] *)
  h_create_pull :
    RepoObj -> string -> string -> string -> string -> W -> outcome string * W;
  (** [g.search_code(query)], iterated: the paths of the items. *)
  h_search_code : string -> W -> outcome (list string) * W;
  (** [repo.get_git_tree(sha, recursive=True).tree] *)
  h_get_git_tree : RepoObj -> string -> W -> outcome (list TreeElement) * W;
}.
Arguments h_get_repo {W}.
Arguments h_get_git_ref {W}.
Arguments h_get_branch {W}.
Arguments h_create_git_ref {W}.
Arguments h_get_contents {W}.
Arguments h_delete_file {W}.
Arguments h_update_file {W}.
Arguments h_create_file {W}.
Arguments h_get_pulls {W}.
Arguments h_create_pull {W}.
Arguments h_search_code {W}.
Arguments h_get_git_tree {W}.

(** *** Result records of [github_utils.py] (lines 21-75) *)

Record Repository := {
  name : string;
  full_name : string;
  html_url : string;
  default_branch : string;
}.

Record FileContentResult := {
  fc_content : option string;
  fc_sha : option string;
  fc_default_branch_name : option string;
  fc_error : option string;
}.

Record BranchOperationResult := {
  bo_success : bool;
  bo_message : option string;
}.

Record PullRequestResult := {
  pr_html_url : option string;
  pr_message : option string;
}.

Record FileOperationStatus := {
  fo_success : bool;
  fo_message : option string;
}.

Record FileUpdateResult := {
  fu_success : bool;
  fu_message : option string;
  fu_new_sha : option string;
}.

Record TargetFilesResult := {
  tf_files : list ContentFile;
  tf_error : option string;
}.

Record PlaceholderExtractionResult := {
  pe_value : option string;
  pe_error : option string;
}.

(** *** Placeholder definitions

    The dictionaries the form stores (ui_components.py, lines 184-219): a
    name, a file path, a method and the configuration of the method.  A key
    the dictionary does not hold reads as [None]. *)

Inductive yaml_path_config :=
| YPStr (s : string)
| YPList (l : list pyval)
| YPOther.

Record ExtractionConfig := {
  cfg_pattern : option string;
  cfg_group_index : option Z;
  cfg_jsonpath_expression : option string;
  cfg_yaml_path : yaml_path_config;
}.

Record PlaceholderDefinition := {
  ph_name : string;
  ph_file_path : string;
  ph_method : string;
  ph_config : ExtractionConfig;
}.

(** ** [github_utils.py] *)

Module GithubUtils.
Import PyStr.

Section WithHost.
Context {W : Type} (rt : Runtime) (h : Host W).

Definition error_result (default_branch_name : option string) (msg : string)
  : FileContentResult :=
  {| fc_content := None; fc_sha := None;
     fc_default_branch_name := default_branch_name; fc_error := Some msg |}.

(** The handlers of the inner [try] of [get_file_content] (lines 214-219);
    an exception of another class leaves the inner [try] and reaches the
    last handler of the outer one (lines 225-227). *)
Definition get_file_content_handler (repo_full_name file_path : string)
    (actual_branch : string) (default_branch_name : option string) (e : exn)
  : FileContentResult :=
  if is_unknown_object e then
    error_result default_branch_name
      ("File '" +:+ file_path +:+ "' not found in branch '" +:+ actual_branch
       +:+ "' of " +:+ repo_full_name +:+ ".")
  else if is_github e then
    error_result default_branch_name
      ("GitHub API error getting file '" +:+ file_path +:+ "' from '"
       +:+ actual_branch +:+ "': " +:+ exn_message e)
  else
    error_result None
      ("An unexpected error occurred while fetching file: " +:+ exn_text e).

(** [get_file_content] (lines 170-227) *)
Definition get_file_content (repo_full_name file_path : string)
    (branch : option string) (w : W) : FileContentResult * W :=
  match h_get_repo h repo_full_name w with
  | (Raise e, w) =>
      if is_unknown_object e then
        (error_result None ("Repository '" +:+ repo_full_name
                            +:+ "' not found."), w)
      else if is_github e then
        (error_result None ("GitHub API error getting repo '"
                            +:+ repo_full_name +:+ "': " +:+ exn_message e), w)
      else
        (error_result None
           ("An unexpected error occurred while fetching file: "
            +:+ exn_text e), w)
  | (Ok repo, w) =>
      let default_branch_name := ro_default_branch repo in
      let actual_branch :=
        match branch with Some b => Some b | None => default_branch_name end in
      match actual_branch with
      | None =>
          (error_result None ("Could not determine default branch for "
                              +:+ repo_full_name +:+ "."), w)
      | Some actual_branch =>
          let handler :=
            get_file_content_handler repo_full_name file_path actual_branch
              default_branch_name in
          match h_get_contents h repo file_path actual_branch w with
          | (Raise e, w) => (handler e, w)
          | (Ok (CDir _), w) =>
              (error_result default_branch_name
                 ("Path '" +:+ file_path +:+ "' is a directory, not a file. "
                  +:+ "Please provide a path to a specific file."), w)
          | (Ok (CFile content_file), w) =>
              if String.eqb (cf_type content_file) "dir" then
                (error_result default_branch_name
                   ("Path '" +:+ file_path
                    +:+ "' is a directory, not a file."), w)
              else
                match has_decoded content_file with
                | Raise e => (handler e, w)
                | Ok false =>
                    (error_result default_branch_name
                       ("The item at '" +:+ file_path +:+ "' does not have "
                        +:+ "decodable content (it might be a submodule or "
                        +:+ "an unexpected type)."), w)
                | Ok true =>
                    match decode_content content_file with
                    | Raise e => (handler e, w)
                    | Ok file_content =>
                        ({| fc_content := Some file_content;
                            fc_sha := Some (cf_sha content_file);
                            fc_default_branch_name := default_branch_name;
                            fc_error := None |}, w)
                    end
                end
          end
      end
  end.

(** The three outer handlers of [create_branch] (lines 330-345). *)
Definition create_branch_outer (repo : option RepoObj)
    (repo_full_name new_branch_name_for_log : string) (e : exn)
  : BranchOperationResult :=
  let repo_name_for_log :=
    match repo with Some r => ro_full_name r | None => repo_full_name end in
  let data_message :=
    match e with GithubException _ _ m _ _ => default "" m | _ => "" end in
  if is_unknown_object e then
    if contains "Repository not found" data_message
       || match repo with None => true | Some _ => false end
    then {| bo_success := false;
            bo_message := Some ("Repository '" +:+ repo_full_name
                                +:+ "' not found.") |}
    else {| bo_success := false;
            bo_message :=
              Some ("Unexpected UnknownObjectException for '"
                    +:+ repo_name_for_log +:+ "'. Details: "
                    +:+ exn_message e) |}
  else if is_github e then
    {| bo_success := false;
       bo_message :=
         Some ("GitHub API error during branch operation for '"
               +:+ new_branch_name_for_log +:+ "' in '" +:+ repo_name_for_log
               +:+ "'. Details: " +:+ exn_message e) |}
  else
    {| bo_success := false;
       bo_message :=
         Some ("An unexpected error occurred while operating on branch '"
               +:+ new_branch_name_for_log +:+ "' in '" +:+ repo_name_for_log
               +:+ "'.") |}.

Definition branch_fail (msg : string) : BranchOperationResult :=
  {| bo_success := false; bo_message := Some msg |}.

Definition branch_ok (msg : string) : BranchOperationResult :=
  {| bo_success := true; bo_message := Some msg |}.

(** The part of [create_branch] after the check for an existing branch
    (lines 276-328). *)
Definition create_branch_from_source (repo : RepoObj)
    (repo_full_name nb sb : string) (w : W) : BranchOperationResult * W :=
  match h_get_branch h repo sb w with
  | (Raise e, w) =>
      if is_unknown_object e then
        (branch_fail ("Source branch '" +:+ sb +:+ "' not found in '"
                      +:+ repo_full_name +:+ "'."), w)
      else if is_github e then
        (branch_fail ("GitHub API error getting source branch '" +:+ sb
                      +:+ "'."), w)
      else
        (branch_fail ("Unexpected error getting source branch '" +:+ sb
                      +:+ "'."), w)
  | (Ok source_branch_sha, w) =>
      if negb (truthy source_branch_sha) then
        (branch_fail ("Failed to obtain SHA for source branch '" +:+ sb
                      +:+ "'."), w)
      else
        match h_create_git_ref h repo ("refs/heads/" +:+ nb)
                source_branch_sha w with
        | (Ok _, w) =>
            (branch_ok ("Branch '" +:+ nb +:+ "' created successfully."), w)
        | (Raise e, w) =>
            if is_github e
               && (exn_status e =? 422)%Z
               && contains "Reference already exists"
                    match e with
                    | GithubException _ _ m _ _ => default "" m
                    | _ => ""
                    end
            then
              match h_get_branch h repo nb w with
              | (Ok _, w) =>
                  (branch_ok ("Using existing branch '" +:+ nb
                              +:+ "' (confirmed by create_git_ref failure)."),
                   w)
              | (Raise _, w) =>
                  (branch_fail ("Branch '" +:+ nb +:+ "' seems to exist but "
                                +:+ "could not be fetched after "
                                +:+ "create_git_ref reported it exists."), w)
              end
            else (create_branch_outer (Some repo) repo_full_name nb e, w)
        end
  end.

(** [create_branch] (lines 229-345) *)
Definition create_branch (repo_full_name new_branch_name
    source_branch_name : string) (w : W) : BranchOperationResult * W :=
  let nb := if truthy new_branch_name then new_branch_name
            else "[BRANCH_NAME_MISSING]" in
  let sb := if truthy source_branch_name then source_branch_name
            else "[SOURCE_BRANCH_NAME_MISSING]" in
  match h_get_repo h repo_full_name w with
  | (Raise e, w) => (create_branch_outer None repo_full_name nb e, w)
  | (Ok repo, w) =>
      match h_get_branch h repo nb w with
      | (Ok _, w) => (branch_ok ("Using existing branch '" +:+ nb +:+ "'."), w)
      | (Raise e, w) =>
          if is_unknown_object e then
            create_branch_from_source repo repo_full_name nb sb w
          else if is_github e then
            if (exn_status e =? 404)%Z then
              create_branch_from_source repo repo_full_name nb sb w
            else
              (branch_fail ("Error checking for existing branch '" +:+ nb
                            +:+ "'."), w)
          else
            (branch_fail ("Unexpected error checking for existing branch '"
                          +:+ nb +:+ "'."), w)
      end
  end.

(** [delete_file] (lines 347-382) *)
Definition delete_file (repo_full_name file_path commit_message branch_name
    sha : string) (w : W) : FileOperationStatus * W :=
  let handler (e : exn) : FileOperationStatus :=
    if is_unknown_object e then
      {| fo_success := false;
         fo_message :=
           Some ("Error deleting file '" +:+ file_path +:+ "' in '"
                 +:+ repo_full_name +:+ "' on branch '" +:+ branch_name
                 +:+ "'. Resource not found or SHA mismatch. Details: "
                 +:+ exn_message e) |}
    else if is_github e then
      {| fo_success := false;
         fo_message :=
           Some ("GitHub API error deleting file '" +:+ file_path +:+ "' in '"
                 +:+ repo_full_name +:+ "': " +:+ exn_message e
                 +:+ " (Status: " +:+ str_of_Z (exn_status e) +:+ ")") |}
    else
      {| fo_success := false;
         fo_message :=
           Some ("An unexpected error occurred while deleting file '"
                 +:+ file_path +:+ "': " +:+ exn_text e) |} in
  match h_get_repo h repo_full_name w with
  | (Raise e, w) => (handler e, w)
  | (Ok repo, w) =>
      match h_delete_file h repo file_path commit_message sha branch_name w with
      | (Raise e, w) => (handler e, w)
      | (Ok _, w) => ({| fo_success := true; fo_message := None |}, w)
      end
  end.

(** The text [error_detail] of the handler of [create_pull_request]
    (lines 433-436). *)
Definition pr_error_detail (e : exn) : string :=
  let error_detail := exn_message e in
  match exn_errors e with
  | [] => error_detail
  | error_messages => join "; " (filter (fun m => truthy m) error_messages)
  end.

Definition pr_api_error (repo_full_name head_branch base_branch : string)
    (e : exn) : PullRequestResult :=
  {| pr_html_url := None;
     pr_message :=
       Some ("GitHub API error creating pull request in '" +:+ repo_full_name
             +:+ "' (head: '" +:+ head_branch +:+ "', base: '" +:+ base_branch
             +:+ "'): " +:+ pr_error_detail e +:+ " (Status: "
             +:+ str_of_Z (exn_status e) +:+ ")") |}.

Definition pr_exists (head_branch base_branch url : string)
  : PullRequestResult :=
  {| pr_html_url := Some url;
     pr_message :=
       Some ("Pull Request already exists for branch '" +:+ head_branch
             +:+ "' targeting '" +:+ base_branch +:+ "'.") |}.

(** The handlers of [create_pull_request] (lines 432-460).  [repo] is
    [None] when [g.get_repo] itself raised: the names [repo] and
    [owner_login] are then unbound and the second look-up raises. *)
Definition create_pull_request_handler (repo : option RepoObj)
    (repo_full_name head_branch base_branch : string) (e : exn) (w : W)
  : PullRequestResult * W :=
  if is_github e then
    let error_detail := pr_error_detail e in
    if contains "No commits between" error_detail
       && contains "and" error_detail
    then
      ({| pr_html_url := None;
          pr_message :=
            Some ("No new commits in '" +:+ head_branch
                  +:+ "' to create a Pull Request against '" +:+ base_branch
                  +:+ "'. " +:+ error_detail) |}, w)
    else if contains "A pull request already exists" error_detail then
      match repo with
      | None => (pr_api_error repo_full_name head_branch base_branch e, w)
      | Some r =>
          match h_get_pulls h r (ro_owner_login r +:+ ":" +:+ head_branch)
                  base_branch w with
          | (Ok (url :: _), w) => (pr_exists head_branch base_branch url, w)
          | (Ok [], w) =>
              (pr_api_error repo_full_name head_branch base_branch e, w)
          | (Raise _, w) =>
              (pr_api_error repo_full_name head_branch base_branch e, w)
          end
      end
    else (pr_api_error repo_full_name head_branch base_branch e, w)
  else
    ({| pr_html_url := None;
        pr_message :=
          Some ("An unexpected error occurred while creating pull request in '"
                +:+ repo_full_name +:+ "': " +:+ exn_text e) |}, w).

(** [create_pull_request] (lines 384-460) *)
Definition create_pull_request (repo_full_name head_branch base_branch
    title body : string) (w : W) : PullRequestResult * W :=
  match h_get_repo h repo_full_name w with
  | (Raise e, w) =>
      create_pull_request_handler None repo_full_name head_branch
        base_branch e w
  | (Ok repo, w) =>
      let handler :=
        create_pull_request_handler (Some repo) repo_full_name head_branch
          base_branch in
      match h_get_pulls h repo (ro_owner_login repo +:+ ":" +:+ head_branch)
              base_branch w with
      | (Raise e, w) => handler e w
      | (Ok existing_pulls, w) =>
          let existing_pr_html_url := head existing_pulls in
          if otruthy existing_pr_html_url then
            (pr_exists head_branch base_branch
               (default "" existing_pr_html_url), w)
          else
            match h_create_pull h repo title body head_branch base_branch w
            with
            | (Raise e, w) => handler e w
            | (Ok url, w) =>
                ({| pr_html_url := Some url; pr_message := None |}, w)
            end
      end
  end.

Definition update_fail (msg : string) : FileUpdateResult :=
  {| fu_success := false; fu_message := Some msg; fu_new_sha := None |}.

(** The first block of [update_file] (lines 509-529): the SHA and the
    existence of the file on the target branch, or the result the function
    returns with. *)
Definition check_target_branch (repo : RepoObj) (file_path branch_name
    : string) (w : W) : (FileUpdateResult + option string * bool) * W :=
  match h_get_contents h repo file_path branch_name w with
  | (Ok (CDir _), w) =>
      (inl (update_fail ("Path '" +:+ file_path +:+ "' on target branch '"
                         +:+ branch_name +:+ "' is a directory.")), w)
  | (Ok (CFile f), w) =>
      match has_decoded f with
      | Ok true => (inr (Some (cf_sha f), true), w)
      | Ok false => (inr (None, false), w)
      | Raise e =>
          if is_unknown_object e then (inr (None, false), w)
          else if is_github e then
            (inl (update_fail ("Error checking file '" +:+ file_path
                               +:+ "' on target branch '" +:+ branch_name
                               +:+ "': " +:+ exn_message e)), w)
          else
            (inl (update_fail ("Unexpected error checking file '"
                               +:+ file_path +:+ "' on target branch '"
                               +:+ branch_name +:+ "': " +:+ exn_text e)), w)
      end
  | (Raise e, w) =>
      if is_unknown_object e then (inr (None, false), w)
      else if is_github e then
        (inl (update_fail ("Error checking file '" +:+ file_path
                           +:+ "' on target branch '" +:+ branch_name +:+ "': "
                           +:+ exn_message e)), w)
      else
        (inl (update_fail ("Unexpected error checking file '" +:+ file_path
                           +:+ "' on target branch '" +:+ branch_name +:+ "': "
                           +:+ exn_text e)), w)
  end.

(** Reading the current content on the target branch for search and
    replace (lines 570-589). *)
Definition fetch_target_content (repo : RepoObj) (file_path branch_name
    : string) (w : W) : (FileUpdateResult + string) * W :=
  let src := "target branch '" +:+ branch_name +:+ "'" in
  let handler (e : exn) : FileUpdateResult :=
    if is_unknown_object e then
      update_fail ("File '" +:+ file_path +:+ "' disappeared from " +:+ src
                   +:+ ".")
    else
      update_fail ("Error reading file '" +:+ file_path +:+ "' from " +:+ src
                   +:+ ".") in
  match h_get_contents h repo file_path branch_name w with
  | (Raise e, w) => (inl (handler e), w)
  | (Ok (CDir _), w) =>
      (inl (update_fail ("Path '" +:+ file_path +:+ "' on " +:+ src
                         +:+ " is a directory.")), w)
  | (Ok (CFile f), w) =>
      match has_decoded f with
      | Raise e => (inl (handler e), w)
      | Ok false =>
          (inl (update_fail ("Could not decode content from '" +:+ file_path
                             +:+ "' on " +:+ src +:+ ".")), w)
      | Ok true =>
          match decode_content f with
          | Raise e => (inl (handler e), w)
          | Ok text => (inr text, w)
          end
      end
  end.

(** The fallback to the default branch (lines 593-612): a result to return
    with, or the content when it could be read. *)
Definition fetch_fallback_content (repo : RepoObj) (file_path
    default_branch_for_sr_fallback : string) (w : W)
  : (FileUpdateResult + option string) * W :=
  match h_get_contents h repo file_path default_branch_for_sr_fallback w with
  | (Raise _, w) => (inr None, w)
  | (Ok (CDir _), w) =>
      (inl (update_fail ("Path '" +:+ file_path +:+ "' on default branch '"
                         +:+ default_branch_for_sr_fallback
                         +:+ "' is a directory.")), w)
  | (Ok (CFile f), w) =>
      match has_decoded f with
      | Raise _ => (inr None, w)
      | Ok false => (inr None, w)
      | Ok true =>
          match decode_content f with
          | Raise _ => (inr None, w)
          | Ok text => (inr (Some text), w)
          end
      end
  end.

(** The replacement itself (lines 624-639). *)
Definition search_replace (search_string replace_with_string
    current_content_str : string) (is_regex replace_all : bool)
  : FileUpdateResult + string :=
  if is_regex then
    let num_replacements := if replace_all then 0%nat else 1%nat in
    match re_sub rt search_string replace_with_string current_content_str
            num_replacements with
    | Ok s => inr s
    | Raise (ReError t) =>
        inl (update_fail ("Invalid regular expression: " +:+ t))
    | Raise e =>
        inl (update_fail ("Error during string replacement: " +:+ exn_text e))
    end
  else if replace_all then
    inr (replace search_string replace_with_string None current_content_str)
  else
    inr (replace search_string replace_with_string (Some 1%nat)
           current_content_str).

(** Step 2 of [update_file] in the mode "Search and replace string"
    (lines 561-639). *)
Definition content_for_search_replace (repo : RepoObj) (file_path
    branch_name : string) (file_exists_on_branch : bool)
    (search_string replace_with_string : option string)
    (is_regex replace_all : bool)
    (default_branch_for_sr_fallback : option string) (w : W)
  : (FileUpdateResult + string) * W :=
  match search_string, replace_with_string with
  | Some search_string, Some replace_with_string =>
      let '(fetched, w) :=
        if file_exists_on_branch then
          match fetch_target_content repo file_path branch_name w with
          | (inl r, w) => (inl r, w)
          | (inr text, w) => (inr (Some text), w)
          end
        else (inr None, w) in
      match fetched with
      | inl r => (inl r, w)
      | inr fetched =>
          let '(fetched, w) :=
            match fetched with
            | Some text => (inr (Some text), w)
            | None =>
                if otruthy default_branch_for_sr_fallback then
                  fetch_fallback_content repo file_path
                    (default "" default_branch_for_sr_fallback) w
                else (inr None, w)
            end in
          match fetched with
          | inl r => (inl r, w)
          | inr None =>
              (inl (update_fail ("File '" +:+ file_path +:+ "' not found or "
                                 +:+ "content inaccessible for "
                                 +:+ "Search/Replace.")), w)
          | inr (Some current_content_str) =>
              (search_replace search_string replace_with_string
                 current_content_str is_regex replace_all, w)
          end
      end
  | _, _ =>
      (inl (update_fail ("Search string and replace string must be provided "
                         +:+ "for 'Search and replace string' mode.")), w)
  end.

(** The retry of a conflict under [force_update] (lines 680-730). *)
Definition force_update_retry (repo : RepoObj) (file_path commit_message
    branch_name content_to_write_str : string)
    (actual_existing_file_sha_on_branch : option string) (w : W)
  : FileUpdateResult * W :=
  let handler (e : exn) : FileUpdateResult :=
    if is_github e then
      update_fail ("Conflict on '" +:+ file_path
                   +:+ "'. Force update attempt failed: " +:+ exn_message e)
    else
      update_fail ("Conflict on '" +:+ file_path +:+ "'. Force update attempt "
                   +:+ "failed with unexpected error: " +:+ exn_text e) in
  let no_sha :=
    "Force Update: Could not re-fetch current SHA of '" +:+ file_path
    +:+ "' for deletion after 409. Aborting force update." in
  let still_none :=
    "Force Update: SHA for deletion of '" +:+ file_path
    +:+ "' is still None after 409. Cannot proceed with delete. Aborting." in
  let '(sha_for_delete_attempt, w) :=
    if otruthy actual_existing_file_sha_on_branch then
      (inr (default "" actual_existing_file_sha_on_branch), w)
    else
      match h_get_contents h repo file_path branch_name w with
      | (Raise e, w) => (inl (handler e), w)
      | (Ok (CFile f), w) => (inr (cf_sha f), w)
      | (Ok (CDir _), w) =>
          (inl (update_fail ("Conflict on '" +:+ file_path
                             +:+ "'. Force update failed: " +:+ no_sha)), w)
      end in
  match sha_for_delete_attempt with
  | inl r => (r, w)
  | inr sha =>
      if negb (truthy sha) then
        (update_fail ("Conflict on '" +:+ file_path
                      +:+ "'. Force update failed: " +:+ still_none), w)
      else
        match h_delete_file h repo file_path
                ("Forcing update: Deleting '" +:+ file_path
                 +:+ "' before recreate") sha branch_name w with
        | (Raise e, w) => (handler e, w)
        | (Ok _, w) =>
            match h_create_file h repo file_path commit_message
                    content_to_write_str branch_name w with
            | (Raise e, w) => (handler e, w)
            | (Ok new_forced_sha, w) =>
                ({| fu_success := true;
                    fu_message :=
                      Some ("File '" +:+ file_path
                            +:+ "' force updated (deleted and recreated).");
                    fu_new_sha := Some new_forced_sha |}, w)
            end
        end
  end.

(** Step 3 of [update_file] (lines 648-735): the write and its
    handlers. *)
Definition write_file (repo : RepoObj) (file_path commit_message branch_name
    content_to_write_str : string)
    (actual_existing_file_sha_on_branch : option string)
    (update_mode : string) (force_update : bool) (w : W)
  : FileUpdateResult * W :=
  let '(written, w) :=
    if otruthy actual_existing_file_sha_on_branch then
      match h_update_file h repo file_path commit_message content_to_write_str
              (default "" actual_existing_file_sha_on_branch) branch_name w
      with
      | (Ok new_file_sha, w) =>
          (inr ({| fu_success := true;
                   fu_message := Some ("File '" +:+ file_path
                                       +:+ "' updated successfully.");
                   fu_new_sha := Some new_file_sha |}), w)
      | (Raise e, w) => (inl e, w)
      end
    else
      match h_create_file h repo file_path commit_message content_to_write_str
              branch_name w with
      | (Ok new_file_sha, w) =>
          (inr ({| fu_success := true;
                   fu_message := Some ("File '" +:+ file_path
                                       +:+ "' created successfully.");
                   fu_new_sha := Some new_file_sha |}), w)
      | (Raise e, w) => (inl e, w)
      end in
  match written with
  | inr r => (r, w)
  | inl e =>
      if is_github e then
        if (exn_status e =? 409)%Z && force_update
           && String.eqb update_mode "Search and replace string"
        then
          force_update_retry repo file_path commit_message branch_name
            content_to_write_str actual_existing_file_sha_on_branch w
        else
          (update_fail ("GitHub API error for '" +:+ file_path
                        +:+ "' (Status: " +:+ str_of_Z (exn_status e) +:+ "): "
                        +:+ exn_message e), w)
      else
        (update_fail ("Unexpected error with file '" +:+ file_path +:+ "': "
                      +:+ exn_text e), w)
  end.

(** [update_file] (lines 462-735).  The argument [current_sha_from_app]
    is not read by the body. *)
Definition update_file (repo : RepoObj) (file_path new_content_str
    commit_message branch_name : string)
    (current_sha_from_app : option string) (update_mode : string)
    (search_string replace_with_string : option string)
    (is_regex replace_all : bool)
    (default_branch_for_sr_fallback : option string) (force_update : bool)
    (w : W) : FileUpdateResult * W :=
  match check_target_branch repo file_path branch_name w with
  | (inl r, w) => (r, w)
  | (inr (actual_existing_file_sha_on_branch, file_exists_on_branch), w) =>
      let '(content, w) :=
        if String.eqb update_mode "Search and replace string" then
          content_for_search_replace repo file_path branch_name
            file_exists_on_branch search_string replace_with_string is_regex
            replace_all default_branch_for_sr_fallback w
        else if String.eqb update_mode "Replace entire content" then
          (inr new_content_str, w)
        else
          (inl (update_fail ("Invalid update mode: " +:+ update_mode)), w) in
      match content with
      | inl r => (r, w)
      | inr content_to_write_str =>
          write_file repo file_path commit_message branch_name
            content_to_write_str actual_existing_file_sha_on_branch
            update_mode force_update w
      end
  end.

Definition files_error (msg : string) : TargetFilesResult :=
  {| tf_files := []; tf_error := Some msg |}.

Definition files_found (l : list ContentFile) : TargetFilesResult :=
  {| tf_files := l; tf_error := None |}.

(** The loop over the search results (lines 818-830): [count] successful
    look-ups so far, [found] the files appended so far.  An exception that
    is not a [GithubException] leaves the loop. *)
Fixpoint search_loop (repo : RepoObj) (target_branch : string)
    (items : list string) (count : nat) (found : list ContentFile) (w : W)
  : outcome (list ContentFile) * W :=
  match items with
  | [] => (Ok found, w)
  | item_path :: items' =>
      if (100 <=? count)%nat then (Ok found, w)
      else
        match h_get_contents h repo item_path target_branch w with
        | (Ok (CFile f), w) =>
            search_loop repo target_branch items' (S count) (found ++ [f]) w
        | (Ok (CDir _), w) =>
            search_loop repo target_branch items' (S count) found w
        | (Raise e, w) =>
            if is_github e then
              search_loop repo target_branch items' count found w
            else (Raise e, w)
        end
  end.

(** The test on the path of a tree element (lines 852-855): [true] when
    the element is skipped. *)
Definition outside_search_dir (search_dir element_path : string) : bool :=
  truthy search_dir
  && negb (startswith element_path (strip_char "/" search_dir +:+ "/"))
  && negb (String.eqb (strip_char "/" search_dir) element_path)
  && negb (String.eqb search_dir ""
           && negb (contains "/" element_path)).

(** The last component of a path: [path.split('/')[-1]]. *)
Definition basename (path : string) : string :=
  default "" (last (split "/" path)).

(** The loop over the tree (lines 849-868). *)
Fixpoint tree_loop (repo : RepoObj) (target_branch search_dir
    filename_filter_input : string) (tree : list TreeElement)
    (found : list ContentFile) (w : W) : outcome (list ContentFile) * W :=
  match tree with
  | [] => (Ok found, w)
  | element :: tree' =>
      let next := tree_loop repo target_branch search_dir
                    filename_filter_input tree' in
      if String.eqb (te_type element) "blob" then
        if outside_search_dir search_dir (te_path element) then next found w
        else if fnmatch rt (basename (te_path element)) filename_filter_input
        then
          match h_get_contents h repo (te_path element) target_branch w with
          | (Ok c, w) =>
              let found := match c with
                           | CFile f => found ++ [f]
                           | CDir _ => found
                           end in
              if (200 <=? List.length found)%nat then (Ok found, w)
              else next found w
          | (Raise e, w) =>
              if is_github e then next found w else (Raise e, w)
          end
        else next found w
      else next found w
  end.

(** Scenario A of [find_target_files] (lines 771-799): the result to
    return with, [None] to go on with scenario B, or the exception that
    neither handler catches. *)
Definition direct_path_probe (repo : RepoObj) (repo_full_name target_branch
    target_path_input content_query_input : string) (w : W)
  : outcome (option TargetFilesResult) * W :=
  match h_get_contents h repo target_path_input target_branch w with
  | (Ok (CFile content_item), w) =>
      if truthy content_query_input then
        let '(file_content_res, w) :=
          get_file_content repo_full_name (cf_path content_item)
            (Some target_branch) w in
        if otruthy (fc_error file_content_res) then
          (Ok (Some (files_error
                       ("Error reading content of alleged file '"
                        +:+ cf_path content_item +:+ "': "
                        +:+ fmt_opt (fc_error file_content_res)))), w)
        else
          match fc_content file_content_res with
          | None => (Ok (Some (files_found [])), w)
          | Some content =>
              if contains content_query_input content
              then (Ok (Some (files_found [content_item])), w)
              else (Ok (Some (files_found [])), w)
          end
      else (Ok (Some (files_found [content_item])), w)
  | (Ok (CDir _), w) => (Ok None, w)
  | (Raise e, w) =>
      if is_unknown_object e then (Ok None, w)
      else if is_github e then
        (Ok (Some (files_error ("GitHub API error checking path '"
                                +:+ target_path_input +:+ "': "
                                +:+ exn_message e))), w)
      else (Raise e, w)
  end.

(** Scenario B with a content query (lines 805-838). *)
Definition find_by_content (repo : RepoObj) (repo_full_name target_branch
    search_dir filename_filter_input content_query_input : string) (w : W)
  : TargetFilesResult * W :=
  let query_parts :=
    [content_query_input; "repo:" +:+ repo_full_name]
    ++ (if truthy search_dir then ["path:" +:+ search_dir] else [])
    ++ (if truthy filename_filter_input
        then ["filename:" +:+ filename_filter_input] else []) in
  let final_query := join " " query_parts in
  let handler (e : exn) : TargetFilesResult :=
    if is_github e then
      let err_msg_detail :=
        match exn_errors e with
        | [] => exn_message e
        | errs => join "; " errs
        end in
      files_error ("GitHub API error (search_code): " +:+ err_msg_detail
                   +:+ " (Query: " +:+ final_query +:+ ")")
    else
      files_error ("Unexpected error (search_code): " +:+ exn_text e
                   +:+ " (Query: " +:+ final_query +:+ ")") in
  match h_search_code h final_query w with
  | (Raise e, w) => (handler e, w)
  | (Ok results, w) =>
      match search_loop repo target_branch results 0 [] w with
      | (Ok found, w) => (files_found found, w)
      | (Raise e, w) => (handler e, w)
      end
  end.

(** Scenario B with a filename filter only (lines 840-873). *)
Definition find_by_name (repo : RepoObj) (target_branch search_dir
    filename_filter_input : string) (w : W) : TargetFilesResult * W :=
  let handler (e : exn) : TargetFilesResult :=
    if is_github e then
      files_error ("GitHub API error getting git tree: " +:+ exn_message e)
    else
      files_error ("Unexpected error getting git tree: " +:+ exn_text e) in
  match h_get_branch h repo target_branch w with
  | (Raise e, w) => (handler e, w)
  | (Ok branch_commit_sha, w) =>
      match h_get_git_tree h repo branch_commit_sha w with
      | (Raise e, w) => (handler e, w)
      | (Ok [], w) =>
          (files_error ("Could not retrieve file tree for the "
                        +:+ "repository/branch."), w)
      | (Ok tree, w) =>
          match tree_loop repo target_branch search_dir filename_filter_input
                  tree [] w with
          | (Ok found, w) => (files_found found, w)
          | (Raise e, w) => (handler e, w)
          end
      end
  end.

(** [find_target_files] (lines 737-879).  The three inputs are [str]s, as
    the caller passes them. *)
Definition find_target_files (repo_full_name target_branch target_path_input
    filename_filter_input content_query_input : string) (w : W)
  : outcome TargetFilesResult * W :=
  match h_get_repo h repo_full_name w with
  | (Raise e, w) =>
      if is_unknown_object e then
        (Ok (files_error ("Repository '" +:+ repo_full_name
                          +:+ "' not found.")), w)
      else if is_github e then
        (Ok (files_error ("GitHub API error getting repo '" +:+ repo_full_name
                          +:+ "': " +:+ exn_message e)), w)
      else
        (Ok (files_error ("Unexpected error getting repo '" +:+ repo_full_name
                          +:+ "': " +:+ exn_text e)), w)
  | (Ok repo, w) =>
      let '(probe, w) :=
        if truthy target_path_input
           && negb (ends_with_char "/" target_path_input)
        then direct_path_probe repo repo_full_name target_branch
               target_path_input content_query_input w
        else (Ok None, w) in
      match probe with
      | Raise e => (Raise e, w)
      | Ok (Some r) => (Ok r, w)
      | Ok None =>
          let search_dir :=
            if truthy target_path_input then strip_char "/" target_path_input
            else "" in
          if truthy content_query_input then
            let '(r, w) :=
              find_by_content repo repo_full_name target_branch search_dir
                filename_filter_input content_query_input w in
            (Ok r, w)
          else if truthy filename_filter_input then
            let '(r, w) :=
              find_by_name repo target_branch search_dir
                filename_filter_input w in
            (Ok r, w)
          else
            (Ok (files_error ("Insufficient criteria: Please specify a "
                              +:+ "filename filter or content to search, "
                              +:+ "or an exact file path.")), w)
      end
  end.

(** The extraction proper (lines 968-1066): the extracted value and the
    text of [error_during_extraction_logic]. *)
Definition extract_regex (file_path file_content_str : string)
    (extraction_config : ExtractionConfig) : outcome (pyval * option string) :=
  let pattern := cfg_pattern extraction_config in
  let group_index := default 0%Z (cfg_group_index extraction_config) in
  if negb (otruthy pattern) then
    Ok (PNone, Some "Regex pattern not provided in config.")
  else
    let pattern := default "" pattern in
    match re_search rt pattern file_content_str with
    | Raise e => Raise e
    | Ok (Some m) =>
        if ((group_index <? 0)
            || (Z.of_nat (List.length (m_groups m)) <? group_index))%Z
        then Ok (PNone, Some ("Regex group_index " +:+ str_of_Z group_index
                              +:+ " is out of bounds."))
        else
          Ok (match match_group m group_index with
              | Some s => PStr s
              | None => PNone
              end, None)
    | Ok None =>
        Ok (PNone, Some ("Regex pattern '" +:+ pattern
                         +:+ "' did not match in file '" +:+ file_path
                         +:+ "'."))
    end.

Definition extract_json (file_path file_content_str : string)
    (extraction_config : ExtractionConfig) : outcome (pyval * option string) :=
  let jsonpath_expression := cfg_jsonpath_expression extraction_config in
  if negb (otruthy jsonpath_expression) then
    Ok (PNone, Some "JSONPath expression not provided in config.")
  else
    match json_loads rt file_content_str with
    | Ok data =>
        Ok (Path._get_value_from_path data (default "" jsonpath_expression))
    | Raise (JSONDecodeError t) =>
        Ok (PNone, Some ("Failed to parse JSON from '" +:+ file_path +:+ "': "
                         +:+ t))
    | Raise e => Raise e
    end.

(** The list of candidate paths (lines 1007-1014). *)
Definition yaml_path_list (yaml_path_config : yaml_path_config)
  : list string :=
  match yaml_path_config with
  | YPStr s => if truthy (strip s) then [strip s] else []
  | YPList l =>
      omap (fun p => match p with
                     | PStr s => if truthy (strip s) then Some s else None
                     | _ => None
                     end) l
  | YPOther => []
  end.

(** The loop over the candidate paths (lines 1026-1044): the value of
    [extracted_value] and the list [path_specific_errors] when it ends. *)
Fixpoint yaml_try_paths (data : pyval) (paths : list string)
    (path_specific_errors : list string) : pyval * list string :=
  match paths with
  | [] => (PNone, path_specific_errors)
  | path_expression :: paths' =>
      let '(current_value, path_err) :=
        Path._get_value_from_path data path_expression in
      let path_specific_errors :=
        if otruthy path_err
        then path_specific_errors
             ++ ["Path '" +:+ path_expression +:+ "': " +:+ fmt_opt path_err]
        else path_specific_errors in
      if negb (Path.is_none current_value) && negb (otruthy path_err)
      then (current_value, path_specific_errors)
      else yaml_try_paths data paths' path_specific_errors
  end.

Definition is_dict_or_list (v : pyval) : bool :=
  match v with PDict _ | PList _ => true | _ => false end.

Definition extract_yaml (file_path file_content_str : string)
    (extraction_config : ExtractionConfig) : outcome (pyval * option string) :=
  let list_of_yaml_paths :=
    yaml_path_list (cfg_yaml_path extraction_config) in
  match list_of_yaml_paths with
  | [] => Ok (PNone, Some "YAML Path list not provided or is empty in config.")
  | _ =>
      match yaml_safe_load rt file_content_str with
      | Ok data =>
          if negb (is_dict_or_list data) then
            Ok (PNone,
                Some ("YAML content in '" +:+ file_path +:+ "' is not a valid "
                      +:+ "mapping or sequence (e.g. JSON object or array)."))
          else
            let '(extracted_value, path_specific_errors) :=
              yaml_try_paths data list_of_yaml_paths [] in
            if Path.is_none extracted_value
               && negb (bool_decide (path_specific_errors = []))
               && (List.length path_specific_errors
                   =? List.length list_of_yaml_paths)%nat
            then
              Ok (extracted_value,
                  Some ("All YAML paths failed. Errors: ["
                        +:+ join "; " path_specific_errors +:+ "]"))
            else if Path.is_none extracted_value then
              Ok (extracted_value,
                  Some ("None of the provided YAML paths yielded a non-null "
                        +:+ "value from '" +:+ file_path +:+ "'. Tried: "
                        +:+ repr_str_list rt list_of_yaml_paths))
            else Ok (extracted_value, None)
      | Raise (YAMLError t) =>
          Ok (PNone, Some ("Failed to parse YAML from '" +:+ file_path
                           +:+ "': " +:+ t))
      | Raise e => Raise e
      end
  end.

Definition extraction_error (msg : string) : PlaceholderExtractionResult :=
  {| pe_value := None; pe_error := Some msg |}.

(** [extract_placeholder_value] (lines 921-1078) *)
Definition extract_placeholder_value (repo_full_name branch file_path
    extraction_method : string) (extraction_config : ExtractionConfig)
    (w : W) : PlaceholderExtractionResult * W :=
  let '(file_content_result, w) :=
    get_file_content repo_full_name file_path (Some branch) w in
  if otruthy (fc_error file_content_result) then
    (extraction_error ("Failed to get file '" +:+ file_path +:+ "': "
                       +:+ fmt_opt (fc_error file_content_result)), w)
  else
    match fc_content file_content_result with
    | None =>
        (extraction_error ("File '" +:+ file_path
                           +:+ "' content is None (or could not be decoded)."),
         w)
    | Some file_content_str =>
        let extracted :=
          if String.eqb extraction_method "Regex" then
            extract_regex file_path file_content_str extraction_config
          else if String.eqb extraction_method "JSON Path" then
            extract_json file_path file_content_str extraction_config
          else if String.eqb extraction_method "YAML Path" then
            extract_yaml file_path file_content_str extraction_config
          else
            Ok (PNone, Some ("Unsupported extraction method: '"
                             +:+ extraction_method +:+ "'.")) in
        let '(extracted_value, error_during_extraction_logic) :=
          match extracted with
          | Ok r => r
          | Raise e_general =>
              (PNone, Some ("Unexpected error during value extraction: "
                            +:+ exn_text e_general))
          end in
        if otruthy error_during_extraction_logic then
          ({| pe_value := None; pe_error := error_during_extraction_logic |},
           w)
        else if Path.is_none extracted_value then
          ({| pe_value := None; pe_error := None |}, w)
        else
          ({| pe_value := Some (py_str rt extracted_value);
              pe_error := None |}, w)
    end.

End WithHost.
End GithubUtils.

(** ** [action_processing.py] *)

(** One entry of the list an executor returns: the dictionary with the
    keys [repo], [success], [message] and [pr_url]; [ar_pr_url] is [None]
    both when the key is absent and when it holds [None]. *)
Record ActionResult := {
  ar_repo : string;
  ar_success : bool;
  ar_message : string;
  ar_pr_url : option string;
}.

(** The values the forms hand to the executors (ui_components.py, lines
    367-373, 480-502 and 522-529): every key is present and holds a [str]
    or a [bool]. *)
Record RemoveForm := {
  rf_file_path : string;
  rf_branch_name : string;
  rf_commit_message : string;
  rf_pr_title : string;
  rf_pr_body : string;
}.

Record UpdateForm := {
  uf_file_path_input : string;
  uf_update_mode : string;
  uf_file_content_area : string;
  uf_search_string_input : string;
  uf_replace_with_string_input : string;
  uf_is_regex_checkbox : bool;
  uf_replace_all_checkbox : bool;
  uf_target_path_input : string;
  uf_filename_filter_input : string;
  uf_content_query_input : string;
  uf_branch_name_input : string;
  uf_commit_message_input : string;
  uf_pr_title_input : string;
  uf_pr_body_input : string;
  uc_force_update : bool;
}.

Record AddForm := {
  anf_file_path_input : string;
  anf_file_content_area : string;
  anf_branch_name_input : string;
  anf_commit_message_input : string;
  anf_pr_title_input : string;
  anf_pr_body_input : string;
}.

Module ActionProcessing.
Import PyStr Template GithubUtils.

Definition nl : string := String (ascii_of_nat 10) EmptyString.

(** ["\n".join(action_log_for_repo)] *)
Definition join_log (log : list string) : string := join nl log.

Definition failure (repo_info : Repository) (log : list string)
  : ActionResult :=
  {| ar_repo := name repo_info; ar_success := false;
     ar_message := join_log log; ar_pr_url := None |}.

(** The dictionary [resolved_placeholders] as first built (lines 42-47). *)
Definition builtin_placeholders (repo_info : Repository)
    (timestamp_str : string) : gmap string string :=
  <["timestamp" := timestamp_str]>
    (<["repo_default_branch" := default_branch repo_info]>
       (<["repo_full_name" := full_name repo_info]>
          (<["repo_name" := name repo_info]> ∅))).

Definition reserved_keys : list string :=
  ["repo_name"; "repo_full_name"; "repo_default_branch"; "timestamp"].

(** [f"{{{{{ph_name}}}}}"] *)
Definition braces (ph_name : string) : string := "{{" +:+ ph_name +:+ "}}".

Section WithHost.
Context {W : Type} (rt : Runtime) (h : Host W).

(** The loop of [_resolve_all_placeholders_for_repo] (lines 50-80).
    [extract_placeholder_value] returns a result for every input, so the
    handler of lines 75-80 is not reached. *)
Fixpoint resolve_loop (repo_info : Repository)
    (defined_placeholders : list PlaceholderDefinition)
    (resolved_placeholders : gmap string string) (action_log : list string)
    (w : W) : (gmap string string * list string * bool) * W :=
  match defined_placeholders with
  | [] => ((resolved_placeholders, action_log, true), w)
  | ph_def :: rest =>
      let ph_name := ph_name ph_def in
      let ph_file_path := ph_file_path ph_def in
      let ph_method := ph_method ph_def in
      if negb (truthy ph_name) || negb (truthy ph_file_path)
         || negb (truthy ph_method)
      then
        let msg :=
          "- WARNING: Invalid placeholder definition skipped: Name='"
          +:+ ph_name +:+ "', Path='" +:+ ph_file_path +:+ "', Method='"
          +:+ ph_method +:+ "'" in
        resolve_loop repo_info rest resolved_placeholders
          (action_log ++ [msg]) w
      else
        let '(placeholder_extraction_result, w) :=
          extract_placeholder_value rt h (full_name repo_info)
            (default_branch repo_info) ph_file_path ph_method
            (ph_config ph_def) w in
        if otruthy (pe_error placeholder_extraction_result) then
          let err_msg :=
            "Could not resolve placeholder '" +:+ braces ph_name +:+ "' from '"
            +:+ ph_file_path +:+ "': "
            +:+ fmt_opt (pe_error placeholder_extraction_result)
            +:+ ". This repository will be skipped." in
          ((resolved_placeholders, action_log ++ ["- ERROR: " +:+ err_msg],
            false), w)
        else
          let value :=
            match pe_value placeholder_extraction_result with
            | Some v => v
            | None => ""
            end in
          resolve_loop repo_info rest
            (<[ph_name := value]> resolved_placeholders)
            (action_log
             ++ ["- INFO: Placeholder '" +:+ braces ph_name +:+ "' (from '"
                 +:+ ph_file_path +:+ "') resolved to: '" +:+ value +:+ "'"])
            w
  end.

(** [_resolve_all_placeholders_for_repo] (lines 30-82) *)
Definition _resolve_all_placeholders_for_repo (repo_info : Repository)
    (defined_placeholders : list PlaceholderDefinition)
    (timestamp_str : string) (w : W)
  : (gmap string string * list string * bool) * W :=
  resolve_loop repo_info defined_placeholders
    (builtin_placeholders repo_info timestamp_str) [] w.

End WithHost.

(** *** [_process_action_params] (lines 85-134)

    The parameters are a dictionary from [str] to [str], kept as an
    association list in insertion order. *)

Fixpoint params_get (params : list (string * string)) (key : string)
  : option string :=
  match params with
  | [] => None
  | (k, v) :: params' =>
      if String.eqb k key then Some v else params_get params' key
  end.

Fixpoint params_set (params : list (string * string)) (key value : string)
  : list (string * string) :=
  match params with
  | [] => []
  | (k, v) :: params' =>
      if String.eqb k key then (k, value) :: params'
      else (k, v) :: params_set params' key value
  end.

(** The names of line 101. *)
Definition defined_ph_names_for_logging
    (resolved_placeholders : gmap string string) : list string :=
  filter (fun n => n ∉ ["repo_name"; "repo_full_name"; "repo_default_branch";
                        "timestamp"; "file_path"])
         (elements (dom resolved_placeholders)).

(** Phase 1 (lines 103-111). *)
Fixpoint phase1 (resolved_placeholders : gmap string string)
    (params : list (string * string)) (processing_log : list string)
  : list (string * string) * list string :=
  match params with
  | [] => ([], processing_log)
  | (key, original_value) :: params' =>
      let processed :=
        process_placeholders_in_string original_value resolved_placeholders in
      let processing_log :=
        if negb (String.eqb original_value processed) then
          processing_log
          ++ ["- INFO: Param (Phase 1) '" +:+ key +:+ "' ('"
              +:+ original_value +:+ "') processed to: '" +:+ processed
              +:+ "'"]
        else if existsb (fun n => contains (braces n) original_value)
                  (defined_ph_names_for_logging resolved_placeholders)
        then
          processing_log
          ++ ["- WARNING: Param (Phase 1) '" +:+ key +:+ "' ('"
              +:+ original_value +:+ "') might contain an unresolved or "
              +:+ "mistyped user-defined placeholder."]
        else processing_log in
      let '(rest, processing_log) :=
        phase1 resolved_placeholders params' processing_log in
      ((key, processed) :: rest, processing_log)
  end.

(** Phase 2 (lines 126-132). *)
Fixpoint phase2 (resolved_placeholders : gmap string string)
    (keys : list string) (processed_params : list (string * string))
    (processing_log : list string)
  : list (string * string) * list string :=
  match keys with
  | [] => (processed_params, processing_log)
  | key :: keys' =>
      match params_get processed_params key with
      | None => phase2 resolved_placeholders keys' processed_params
                  processing_log
      | Some original_value =>
          let processed :=
            process_placeholders_in_string original_value
              resolved_placeholders in
          phase2 resolved_placeholders keys'
            (params_set processed_params key processed)
            (if negb (String.eqb original_value processed) then
               processing_log
               ++ ["- INFO: Param (Phase 2) '" +:+ key +:+ "' ('"
                   +:+ original_value +:+ "') re-processed to: '"
                   +:+ processed +:+ "'"]
             else processing_log)
      end
  end.

(** [_process_action_params]: the processed parameters and the log; the
    third component is the dictionary [resolved_placeholders] as the call
    leaves it, with [file_path] written. *)
Definition _process_action_params
    (action_params_from_form : list (string * string))
    (resolved_placeholders : gmap string string)
    (param_keys_for_phase2_reprocessing : list string)
  : list (string * string) * list string * gmap string string :=
  let '(processed_params, processing_log) :=
    phase1 resolved_placeholders action_params_from_form [] in
  let processed_file_path_for_messages :=
    match params_get processed_params "file_path" with
    | Some v => v
    | None => default "" (params_get processed_params "target_file_path")
    end in
  let original_file_path_placeholder_value :=
    resolved_placeholders !! "file_path" in
  let resolved_placeholders :=
    <["file_path" := processed_file_path_for_messages]>
      resolved_placeholders in
  let processing_log :=
    if bool_decide (original_file_path_placeholder_value
                    = Some processed_file_path_for_messages)
    then processing_log
    else processing_log
         ++ ["- INFO: Built-in placeholder '{{file_path}}' (for messages) "
             +:+ "set to: '" +:+ processed_file_path_for_messages +:+ "'"] in
  let '(processed_params, processing_log) :=
    phase2 resolved_placeholders param_keys_for_phase2_reprocessing
      processed_params processing_log in
  (processed_params, processing_log, resolved_placeholders).

(** *** The executors

    [batch] is the list [batch_action_results]; each way out of the body
    of the loop over the repositories appends to it and goes on with the
    next repository ([continue], or the end of the body).  An exception
    that no handler catches leaves the executor. *)

Definition append_result (batch : list ActionResult) (r : ActionResult)
  : list ActionResult := batch ++ [r].

Section Executors.
Context {W : Type} (rt : Runtime) (h : Host W).

(** [for repo_info in selected_repo_infos: body] *)
Fixpoint for_each_repo
    (body : Repository -> list ActionResult -> W ->
            outcome (list ActionResult) * W)
    (selected_repo_infos : list Repository) (batch : list ActionResult)
    (w : W) : outcome (list ActionResult) * W :=
  match selected_repo_infos with
  | [] => (Ok batch, w)
  | repo_info :: rest =>
      match body repo_info batch w with
      | (Ok batch, w) => for_each_repo body rest batch w
      | (Raise e, w) => (Raise e, w)
      end
  end.

(** The two log lines and the call of the handler for a missing branch
    (lines 205-207, 430-432 and 641-646). *)
Definition create_missing_branch (repo_info : Repository)
    (target_branch_for_action : string) (log : list string) (w : W)
  : (list string * bool) * W :=
  let log :=
    log ++ ["- INFO: Branch '" +:+ target_branch_for_action
            +:+ "' does not exist. Attempting to create it from '"
            +:+ default_branch repo_info +:+ "'."] in
  let '(branch_op_result, w) :=
    create_branch h (full_name repo_info) target_branch_for_action
      (default_branch repo_info) w in
  ((log ++ ["- INFO: Branch creation op: "
            +:+ fmt_opt (bo_message branch_op_result)],
    bo_success branch_op_result), w).

(** The end of the body of [execute_remove_file_action] (lines 235-248). *)
Definition remove_finalize (repo_info : Repository) (log : list string)
    (pr_result : PullRequestResult) : ActionResult :=
  let log := log ++ ["- INFO: PR creation: "
                     +:+ fmt_opt (pr_message pr_result)] in
  if otruthy (pr_html_url pr_result) then
    {| ar_repo := name repo_info; ar_success := true;
       ar_message := join_log log; ar_pr_url := pr_html_url pr_result |}
  else
    let final_message :=
      if otruthy (pr_message pr_result) then
        join_log log +:+ nl +:+ "- PR Status: "
        +:+ fmt_opt (pr_message pr_result)
      else
        join_log log +:+ nl +:+ "- WARNING: File operation successful, but "
        +:+ "PR status unclear (no URL and no message)." in
    {| ar_repo := name repo_info; ar_success := true;
       ar_message := final_message; ar_pr_url := None |}.

(** Lines 217-248: the file is looked up on the branch, deleted, and the
    pull request is made. *)
Definition remove_on_branch (repo_info : Repository)
    (processed_params : list (string * string))
    (target_file_path branch_to_operate_on : string) (log : list string)
    (batch : list ActionResult) (w : W) : outcome (list ActionResult) * W :=
  let log :=
    log ++ ["- INFO: Attempting to get SHA for file '" +:+ target_file_path
            +:+ "' on branch '" +:+ branch_to_operate_on +:+ "'."] in
  let '(file_content_res, w) :=
    get_file_content h (full_name repo_info) target_file_path
      (Some branch_to_operate_on) w in
  if otruthy (fc_error file_content_res)
     || negb (otruthy (fc_sha file_content_res))
  then
    let err_msg :=
      "Could not get SHA for file '" +:+ target_file_path +:+ "': "
      +:+ (if otruthy (fc_error file_content_res)
           then fmt_opt (fc_error file_content_res) else "SHA not found")
      +:+ ". File may not exist on branch '" +:+ branch_to_operate_on
      +:+ "' or path is a directory." in
    (Ok (append_result batch
           (failure repo_info (log ++ ["- ERROR: " +:+ err_msg]))), w)
  else
    let sha := default "" (fc_sha file_content_res) in
    let log :=
      log ++ ["- INFO: SHA for '" +:+ target_file_path +:+ "' is '" +:+ sha
              +:+ "'. Proceeding with deletion."] in
    let '(delete_status, w) :=
      delete_file h (full_name repo_info) target_file_path
        (default "" (params_get processed_params "commit_message"))
        branch_to_operate_on sha w in
    let log :=
      log ++ ["- INFO: File deletion result: "
              +:+ (if otruthy (fo_message delete_status)
                   then fmt_opt (fo_message delete_status)
                   else if fo_success delete_status
                        then "Successfully deleted" else "Failed")] in
    if negb (fo_success delete_status) then
      (Ok (append_result batch (failure repo_info log)), w)
    else
      let '(pr_result, w) :=
        create_pull_request h (full_name repo_info) branch_to_operate_on
          (default_branch repo_info)
          (default "" (params_get processed_params "pr_title"))
          (default "" (params_get processed_params "pr_body")) w in
      (Ok (append_result batch (remove_finalize repo_info log pr_result)), w).

(** The body of the loop of [execute_remove_file_action] (lines 162-248). *)
Definition remove_body (defined_placeholders : list PlaceholderDefinition)
    (action_config_from_form : RemoveForm) (timestamp_str : string)
    (repo_info : Repository) (batch : list ActionResult) (w : W)
  : outcome (list ActionResult) * W :=
  let default_branch_name_template := rf_branch_name action_config_from_form in
  let log :=
    ["Action: Remove File on repo " +:+ full_name repo_info
     +:+ " (default branch: " +:+ default_branch repo_info +:+ ")"] in
  let '(resolved_ph, ph_log, ph_ok, w) :=
    _resolve_all_placeholders_for_repo rt h repo_info defined_placeholders
      timestamp_str w in
  let log := log ++ ph_log in
  if negb ph_ok then (Ok (append_result batch (failure repo_info log)), w)
  else
    let current_action_params_for_processing :=
      [("file_path", rf_file_path action_config_from_form);
       ("branch_name", default_branch_name_template);
       ("commit_message", rf_commit_message action_config_from_form);
       ("pr_title", rf_pr_title action_config_from_form);
       ("pr_body", rf_pr_body action_config_from_form)] in
    let params_to_reprocess_phase2 :=
      ["branch_name"; "commit_message"; "pr_title"; "pr_body"] in
    let '(processed_params, params_log, _) :=
      _process_action_params current_action_params_for_processing resolved_ph
        params_to_reprocess_phase2 in
    let log := log ++ params_log in
    let target_file_path :=
      default "" (params_get processed_params "file_path") in
    if negb (truthy target_file_path) then
      (Ok (append_result batch
             (failure repo_info
                (log ++ ["- ERROR: Processed file path is empty. "
                         +:+ "Skipping repo."]))), w)
    else
      let target_branch_for_action :=
        default "" (params_get processed_params "branch_name") in
      let '(target_branch_for_action, log) :=
        if negb (truthy target_branch_for_action)
           || negb (truthy (strip target_branch_for_action))
        then
          let fallback := "remove-file-fallback-" +:+ timestamp_str in
          (fallback,
           log ++ ["- INFO: Target branch name was empty or invalid, "
                   +:+ "defaulted to '" +:+ fallback +:+ "'."])
        else (target_branch_for_action, log) in
      let branch_to_operate_on := target_branch_for_action in
      let '(checked, w) :=
        match h_get_repo h (full_name repo_info) w with
        | (Raise e, w) => (Raise e, w)
        | (Ok repo_api, w) =>
            h_get_git_ref h repo_api
              ("heads/" +:+ target_branch_for_action) w
        end in
      match checked with
      | Ok _ =>
          remove_on_branch repo_info processed_params target_file_path
            branch_to_operate_on
            (log ++ ["- INFO: Using existing branch '"
                     +:+ target_branch_for_action +:+ "'."]) batch w
      | Raise e =>
          if is_unknown_object e then
            let '(log, created, w) :=
              create_missing_branch repo_info target_branch_for_action log w
            in
            if negb created then
              (Ok (append_result batch (failure repo_info log)), w)
            else
              remove_on_branch repo_info processed_params target_file_path
                branch_to_operate_on log batch w
          else
            (Ok (append_result batch
                   (failure repo_info
                      (log ++ ["- ERROR: Could not check/create branch '"
                               +:+ target_branch_for_action +:+ "': "
                               +:+ exn_text e]))), w)
      end.

(** [execute_remove_file_action] (lines 138-250); [timestamp_str] is the
    clock read of line 157. *)
Definition execute_remove_file_action
    (selected_repo_infos : list Repository)
    (defined_placeholders : list PlaceholderDefinition)
    (action_config_from_form : RemoveForm) (timestamp_str : string) (w : W)
  : outcome (list ActionResult) * W :=
  for_each_repo
    (remove_body defined_placeholders action_config_from_form timestamp_str)
    selected_repo_infos [] w.

(** The log line and the result of lines 695-711 and 546-565: the pull
    request step of the Add and Update executors. *)
Definition pr_log_line (pr_result : PullRequestResult) : string :=
  "- INFO: PR creation: "
  +:+ (if otruthy (pr_message pr_result) then fmt_opt (pr_message pr_result)
       else if otruthy (pr_html_url pr_result) then "Success"
            else "Failed/Already Exists with no new URL").

(** Lines 660-711: the file is written and the pull request is made.
    [repo_api] is bound on every way here, so the block of lines 663-669 is
    not taken; the file was added when the pull request is made, so neither
    is the branch of lines 700-702. *)
Definition add_on_branch (repo_info : Repository) (repo_api : RepoObj)
    (processed_params : list (string * string))
    (target_file_path new_file_content branch_to_operate_on : string)
    (log : list string) (batch : list ActionResult) (w : W)
  : outcome (list ActionResult) * W :=
  let log :=
    log ++ ["- INFO: Attempting to add file '" +:+ target_file_path
            +:+ "' on branch '" +:+ branch_to_operate_on +:+ "'."] in
  let '(add_file_result, w) :=
    update_file rt h repo_api target_file_path new_file_content
      (default "" (params_get processed_params "commit_message"))
      branch_to_operate_on None "Replace entire content" None None false true
      None false w in
  if negb (fu_success add_file_result) then
    (Ok (append_result batch
           (failure repo_info
              (log ++ ["- ERROR: Failed to add file '" +:+ target_file_path
                       +:+ "': " +:+ fmt_opt (fu_message add_file_result)]))),
     w)
  else
    let log :=
      log ++ ["- SUCCESS: File '" +:+ target_file_path +:+ "' added. "
              +:+ fmt_opt (fu_message add_file_result) +:+ " New SHA: "
              +:+ fmt_opt (fu_new_sha add_file_result)] in
    let '(pr_result, w) :=
      create_pull_request h (full_name repo_info) branch_to_operate_on
        (default_branch repo_info)
        (default "" (params_get processed_params "pr_title"))
        (default "" (params_get processed_params "pr_body")) w in
    let log := log ++ [pr_log_line pr_result] in
    let final_repo_message := join_log log in
    let repo_overall_success :=
      fu_success add_file_result && otruthy (pr_html_url pr_result) in
    let final_repo_message :=
      if negb (otruthy (pr_html_url pr_result))
         && otruthy (pr_message pr_result)
      then final_repo_message +:+ nl
           +:+ "- WARNING: File add successful, but PR issue: "
           +:+ fmt_opt (pr_message pr_result)
      else final_repo_message in
    (Ok (append_result batch
           {| ar_repo := name repo_info; ar_success := repo_overall_success;
              ar_message := final_repo_message;
              ar_pr_url := pr_html_url pr_result |}), w).

(** The body of the loop of [execute_add_new_file_action] (lines
    594-711). *)
Definition add_body (defined_placeholders : list PlaceholderDefinition)
    (action_config_from_form : AddForm) (timestamp_str : string)
    (repo_info : Repository) (batch : list ActionResult) (w : W)
  : outcome (list ActionResult) * W :=
  let default_branch_name_template :=
    anf_branch_name_input action_config_from_form in
  let log :=
    ["Action: Add New File on repo " +:+ full_name repo_info
     +:+ " (default branch: " +:+ default_branch repo_info +:+ ")"] in
  let '(resolved_ph, ph_log, ph_ok, w) :=
    _resolve_all_placeholders_for_repo rt h repo_info defined_placeholders
      timestamp_str w in
  let log := log ++ ph_log in
  if negb ph_ok then (Ok (append_result batch (failure repo_info log)), w)
  else
    let current_action_params_for_processing :=
      [("file_path", anf_file_path_input action_config_from_form);
       ("file_content", anf_file_content_area action_config_from_form);
       ("branch_name", default_branch_name_template);
       ("commit_message", anf_commit_message_input action_config_from_form);
       ("pr_title", anf_pr_title_input action_config_from_form);
       ("pr_body", anf_pr_body_input action_config_from_form)] in
    let params_to_reprocess_phase2 :=
      ["file_path"; "file_content"; "branch_name"; "commit_message";
       "pr_title"; "pr_body"] in
    let '(processed_params, params_log, _) :=
      _process_action_params current_action_params_for_processing resolved_ph
        params_to_reprocess_phase2 in
    let log := log ++ params_log in
    let target_file_path :=
      default "" (params_get processed_params "file_path") in
    let new_file_content :=
      default "" (params_get processed_params "file_content") in
    let target_branch_for_action :=
      default default_branch_name_template
        (params_get processed_params "branch_name") in
    let '(target_branch_for_action, log) :=
      if negb (truthy target_branch_for_action)
         || negb (truthy (strip target_branch_for_action))
      then
        let fallback := "add-file-fallback-" +:+ timestamp_str in
        (fallback,
         log ++ ["- INFO: Target branch name was empty or invalid, "
                 +:+ "defaulted to '" +:+ fallback +:+ "'."])
      else (target_branch_for_action, log) in
    let branch_to_operate_on := target_branch_for_action in
    if negb (truthy target_file_path) then
      (Ok (append_result batch
             (failure repo_info
                (log ++ ["- ERROR: Processed file path is empty. "
                         +:+ "Skipping repo."]))), w)
    else
      match h_get_repo h (full_name repo_info) w with
      | (Ok repo_api, w) =>
          match h_get_git_ref h repo_api
                  ("heads/" +:+ target_branch_for_action) w with
          | (Ok _, w) =>
              add_on_branch repo_info repo_api processed_params
                target_file_path new_file_content branch_to_operate_on
                (log ++ ["- INFO: Using existing branch '"
                         +:+ target_branch_for_action +:+ "'."]) batch w
          | (Raise e, w) =>
              if is_unknown_object e then
                let '(log, created, w) :=
                  create_missing_branch repo_info target_branch_for_action
                    log w in
                if negb created then
                  (Ok (append_result batch (failure repo_info log)), w)
                else
                  add_on_branch repo_info repo_api processed_params
                    target_file_path new_file_content branch_to_operate_on
                    log batch w
              else
                (Ok (append_result batch
                       (failure repo_info
                          (log ++ ["- ERROR: Could not check/create branch '"
                                   +:+ target_branch_for_action +:+ "': "
                                   +:+ exn_text e]))), w)
          end
      | (Raise e, w) =>
          if is_unknown_object e then
            (* lines 641-644: inside the handler, [repo_api] is still
               [None] and [g.get_repo] is called again; what it raises is
               raised from within the handler and leaves the executor *)
            let log :=
              log ++ ["- INFO: Branch '" +:+ target_branch_for_action
                      +:+ "' does not exist. Attempting to create it from '"
                      +:+ default_branch repo_info +:+ "'."] in
            match h_get_repo h (full_name repo_info) w with
            | (Raise e', w) => (Raise e', w)
            | (Ok repo_api, w) =>
                let '(branch_op_result, w) :=
                  create_branch h (full_name repo_info)
                    target_branch_for_action (default_branch repo_info) w in
                let log :=
                  log ++ ["- INFO: Branch creation op: "
                          +:+ fmt_opt (bo_message branch_op_result)] in
                if negb (bo_success branch_op_result) then
                  (Ok (append_result batch (failure repo_info log)), w)
                else
                  add_on_branch repo_info repo_api processed_params
                    target_file_path new_file_content branch_to_operate_on
                    log batch w
            end
          else
            (Ok (append_result batch
                   (failure repo_info
                      (log ++ ["- ERROR: Could not get repository object for "
                               +:+ "branch check. Original error: "
                               +:+ exn_text e]))), w)
      end.

(** [execute_add_new_file_action] (lines 570-713) *)
Definition execute_add_new_file_action
    (selected_repo_infos : list Repository)
    (defined_placeholders : list PlaceholderDefinition)
    (action_config_from_form : AddForm) (timestamp_str : string) (w : W)
  : outcome (list ActionResult) * W :=
  for_each_repo
    (add_body defined_placeholders action_config_from_form timestamp_str)
    selected_repo_infos [] w.

(** A target of the Update executor: a [ContentFile] the locator found,
    or one of the stand-in objects of lines 348-366. *)
Record TargetFile := {
  tgt_path : string;
  tgt_sha : option string;
}.

Definition target_of_content_file (f : ContentFile) : TargetFile :=
  {| tgt_path := cf_path f; tgt_sha := Some (cf_sha f) |}.

(** What the loop over the target files carries from one file to the
    next (lines 444-445 and 454). *)
Record FileLoopState := {
  fl_log : list string;
  any_file_updated_in_repo : bool;
  all_file_ops_successful_in_repo : bool;
  per_file_resolved_ph : gmap string string;
}.

(** The body of the loop over the target files (lines 447-523). *)
Definition update_one_file (action_config_from_form : UpdateForm)
    (repo_info : Repository) (repo_api : RepoObj)
    (resolved_ph : gmap string string) (branch_to_operate_on : string)
    (target_file_obj : TargetFile) (st : FileLoopState) (w : W)
  : FileLoopState * W :=
  let current_file_path := tgt_path target_file_obj in
  let log :=
    fl_log st
    ++ ["---";
        "- INFO: Processing file: '" +:+ current_file_path +:+ "' on branch '"
        +:+ branch_to_operate_on +:+ "'"] in
  let per_file := <["file_path" := current_file_path]> resolved_ph in
  let final_commit_msg :=
    process_placeholders_in_string
      (uf_commit_message_input action_config_from_form) per_file in
  let update_mode := uf_update_mode action_config_from_form in
  let prepared :=
    if String.eqb update_mode "Replace entire content" then
      let content_for_update_str :=
        process_placeholders_in_string
          (uf_file_content_area action_config_from_form) per_file in
      Some (content_for_update_str, None, None,
            log ++ ["- INFO: Update Mode: Replace entire content. "
                    +:+ "Processed content length: "
                    +:+ str_of_nat (String.length content_for_update_str)
                    +:+ " chars."])
    else if String.eqb update_mode "Search and replace string" then
      let search_str :=
        process_placeholders_in_string
          (uf_search_string_input action_config_from_form) per_file in
      let replace_str :=
        process_placeholders_in_string
          (uf_replace_with_string_input action_config_from_form) per_file in
      Some ("", Some search_str, Some replace_str,
            log ++ ["- INFO: Update Mode: Search/Replace. Search: '"
                    +:+ search_str +:+ "', Replace: '" +:+ replace_str
                    +:+ "', Regex: "
                    +:+ str_of_bool
                          (uf_is_regex_checkbox action_config_from_form)
                    +:+ ", All: "
                    +:+ str_of_bool
                          (uf_replace_all_checkbox action_config_from_form);
                    "- INFO: Force update on conflict: "
                    +:+ str_of_bool (uc_force_update action_config_from_form)])
    else None in
  match prepared with
  | None =>
      ({| fl_log :=
            log ++ ["- ERROR: Unknown update mode '" +:+ update_mode
                    +:+ "' for file '" +:+ current_file_path
                    +:+ "'. Skipping this file."];
          any_file_updated_in_repo := any_file_updated_in_repo st;
          all_file_ops_successful_in_repo := false;
          per_file_resolved_ph := per_file |}, w)
  | Some (content_for_update_str, search_str, replace_str, log) =>
      let sha_for_update := tgt_sha target_file_obj in
      let log :=
        log ++ ["- INFO: SHA for '" +:+ current_file_path
                +:+ "' (before update on '" +:+ branch_to_operate_on +:+ "'): "
                +:+ (if otruthy sha_for_update then fmt_opt sha_for_update
                     else "None (will be fetched/created)")] in
      let '(update_result, w) :=
        update_file rt h repo_api current_file_path content_for_update_str
          final_commit_msg branch_to_operate_on sha_for_update update_mode
          search_str replace_str
          (uf_is_regex_checkbox action_config_from_form)
          (uf_replace_all_checkbox action_config_from_form)
          (Some (default_branch repo_info))
          (if String.eqb update_mode "Search and replace string"
           then uc_force_update action_config_from_form else false) w in
      if fu_success update_result then
        ({| fl_log :=
              log ++ ["- SUCCESS: File '" +:+ current_file_path
                      +:+ "' processed. " +:+ fmt_opt (fu_message update_result)
                      +:+ " New SHA: " +:+ fmt_opt (fu_new_sha update_result)];
            any_file_updated_in_repo := true;
            all_file_ops_successful_in_repo :=
              all_file_ops_successful_in_repo st;
            per_file_resolved_ph := per_file |}, w)
      else
        ({| fl_log :=
              log ++ ["- ERROR: Failed to process file '" +:+ current_file_path
                      +:+ "': " +:+ fmt_opt (fu_message update_result)];
            any_file_updated_in_repo := any_file_updated_in_repo st;
            all_file_ops_successful_in_repo := false;
            per_file_resolved_ph := per_file |}, w)
  end.

(** [for target_file_obj in target_files_to_process: ...] *)
Fixpoint update_files (action_config_from_form : UpdateForm)
    (repo_info : Repository) (repo_api : RepoObj)
    (resolved_ph : gmap string string) (branch_to_operate_on : string)
    (target_files_to_process : list TargetFile) (st : FileLoopState) (w : W)
  : FileLoopState * W :=
  match target_files_to_process with
  | [] => (st, w)
  | target_file_obj :: rest =>
      let '(st, w) :=
        update_one_file action_config_from_form repo_info repo_api resolved_ph
          branch_to_operate_on target_file_obj st w in
      update_files action_config_from_form repo_info repo_api resolved_ph
        branch_to_operate_on rest st w
  end.

(** Lines 525-565: what follows the loop over the files. *)
Definition update_finalize (action_config_from_form : UpdateForm)
    (repo_info : Repository) (branch_to_operate_on : string)
    (st : FileLoopState) (batch : list ActionResult) (w : W)
  : outcome (list ActionResult) * W :=
  let log := fl_log st ++ ["---"] in
  if negb (any_file_updated_in_repo st) then
    (Ok (append_result batch
           {| ar_repo := name repo_info;
              ar_success := all_file_ops_successful_in_repo st;
              ar_message :=
                join_log
                  (log ++ ["- INFO: No files were actually changed in this "
                           +:+ "repository. No PR will be created."]);
              ar_pr_url := None |}), w)
  else
    let final_pr_title :=
      process_placeholders_in_string
        (uf_pr_title_input action_config_from_form)
        (per_file_resolved_ph st) in
    let final_pr_body :=
      process_placeholders_in_string
        (uf_pr_body_input action_config_from_form)
        (per_file_resolved_ph st) in
    let log :=
      log ++ ["- INFO: Attempting to create PR from '" +:+ branch_to_operate_on
              +:+ "' to '" +:+ default_branch repo_info +:+ "'. Title: '"
              +:+ final_pr_title +:+ "'"] in
    let '(pr_result, w) :=
      create_pull_request h (full_name repo_info) branch_to_operate_on
        (default_branch repo_info) final_pr_title final_pr_body w in
    let log := log ++ [pr_log_line pr_result] in
    let repo_overall_success :=
      all_file_ops_successful_in_repo st
      && otruthy (pr_html_url pr_result) in
    let final_repo_message := join_log log in
    let '(final_repo_message, repo_overall_success) :=
      if negb (all_file_ops_successful_in_repo st) then
        (final_repo_message +:+ nl
         +:+ "- WARNING: One or more file operations failed. See logs above.",
         false)
      else if negb (otruthy (pr_html_url pr_result))
              && otruthy (pr_message pr_result)
      then
        (final_repo_message +:+ nl
         +:+ "- WARNING: File operations successful, but PR issue: "
         +:+ fmt_opt (pr_message pr_result), repo_overall_success)
      else (final_repo_message, repo_overall_success) in
    (Ok (append_result batch
           {| ar_repo := name repo_info; ar_success := repo_overall_success;
              ar_message := final_repo_message;
              ar_pr_url := pr_html_url pr_result |}), w).

(** Lines 403-565: the branch, the files and the pull request, once the
    targets are known.  Both ways of finding the targets hand over a list
    that is not empty, so the test of lines 397-401 is not taken. *)
Definition update_on_targets (action_config_from_form : UpdateForm)
    (timestamp_str base_branch_name_action_part : string)
    (repo_info : Repository) (repo_api : RepoObj)
    (resolved_ph : gmap string string)
    (target_files_to_process : list TargetFile) (log : list string)
    (batch : list ActionResult) (w : W) : outcome (list ActionResult) * W :=
  let default_branch_name_template :=
    uf_branch_name_input action_config_from_form in
  let branch_name_params := [("branch_name", default_branch_name_template)] in
  let resolved_branch_ph_copy := delete "file_path" resolved_ph in
  let '(processed_branch_name_param, bn_log, _) :=
    _process_action_params branch_name_params resolved_branch_ph_copy
      ["branch_name"] in
  let log := log ++ bn_log in
  let target_branch_for_action :=
    default default_branch_name_template
      (params_get processed_branch_name_param "branch_name") in
  let '(target_branch_for_action, log) :=
    if negb (truthy (strip target_branch_for_action)) then
      let fallback :=
        base_branch_name_action_part +:+ "-fallback-" +:+ timestamp_str in
      (fallback,
       log ++ ["- INFO: Target branch name resolved to empty, defaulted to '"
               +:+ fallback +:+ "'."])
    else (target_branch_for_action, log) in
  let branch_to_operate_on := target_branch_for_action in
  let start (log : list string) : FileLoopState :=
    {| fl_log := log; any_file_updated_in_repo := false;
       all_file_ops_successful_in_repo := true;
       per_file_resolved_ph := resolved_ph |} in
  let go (log : list string) (w : W) :=
    let '(st, w) :=
      update_files action_config_from_form repo_info repo_api resolved_ph
        branch_to_operate_on target_files_to_process (start log) w in
    update_finalize action_config_from_form repo_info branch_to_operate_on
      st batch w in
  match h_get_git_ref h repo_api ("heads/" +:+ target_branch_for_action) w
  with
  | (Ok _, w) =>
      go (log ++ ["- INFO: Using existing branch '"
                  +:+ target_branch_for_action +:+ "'."]) w
  | (Raise e, w) =>
      if is_unknown_object e then
        let '(log, created, w) :=
          create_missing_branch repo_info target_branch_for_action log w in
        if negb created then
          (Ok (append_result batch (failure repo_info log)), w)
        else go log w
      else
        (Ok (append_result batch
               (failure repo_info
                  (log ++ ["- ERROR: Could not check/create branch '"
                           +:+ target_branch_for_action +:+ "': "
                           +:+ exn_text e]))), w)
  end.

(** Lines 329-366: one explicit file path. *)
Definition single_file_target (repo_info : Repository)
    (resolved_ph : gmap string string) (specific_file_path_from_form : string)
    (log : list string) (w : W)
  : (list string * option (list TargetFile)) * W :=
  let resolved_specific_file_path :=
    process_placeholders_in_string specific_file_path_from_form resolved_ph in
  let log :=
    log ++ ["- INFO: Specific target file path from form '"
            +:+ specific_file_path_from_form +:+ "' resolved to '"
            +:+ resolved_specific_file_path +:+ "'."] in
  if negb (truthy resolved_specific_file_path) then
    ((log ++ ["- ERROR: Resolved specific file path is empty. Skipping repo."],
      None), w)
  else
    let '(file_content_check_result, w) :=
      get_file_content h (full_name repo_info) resolved_specific_file_path
        (Some (default_branch repo_info)) w in
    let error := fc_error file_content_check_result in
    if otruthy error && negb (contains "not found" (lower (fmt_opt error)))
    then
      ((log ++ ["- WARNING: Could not get initial content/SHA for '"
                +:+ resolved_specific_file_path +:+ "' (branch: "
                +:+ default_branch repo_info +:+ "): " +:+ fmt_opt error
                +:+ ". Will proceed assuming creation or targeted branch "
                +:+ "later."],
        Some [{| tgt_path := resolved_specific_file_path;
                 tgt_sha := fc_sha file_content_check_result |}]), w)
    else if otruthy (fc_sha file_content_check_result) then
      ((log ++ ["- INFO: Confirmed '" +:+ resolved_specific_file_path
                +:+ "' exists on default branch. SHA: "
                +:+ fmt_opt (fc_sha file_content_check_result)
                +:+ ". Update will use target branch."],
        Some [{| tgt_path := resolved_specific_file_path;
                 tgt_sha := fc_sha file_content_check_result |}]), w)
    else
      ((log ++ ["- INFO: File '" +:+ resolved_specific_file_path
                +:+ "' not found on default branch or no SHA. Will be "
                +:+ "treated as new/update on target branch."],
        Some [{| tgt_path := resolved_specific_file_path;
                 tgt_sha := None |}]), w).

(** The body of the loop of [execute_update_file_action] (lines
    293-565). *)
Definition update_body (defined_placeholders : list PlaceholderDefinition)
    (action_config_from_form : UpdateForm) (timestamp_str : string)
    (repo_info : Repository) (batch : list ActionResult) (w : W)
  : outcome (list ActionResult) * W :=
  let is_single_file_mode :=
    truthy (strip (uf_file_path_input action_config_from_form)) in
  let base_branch_name_action_part :=
    if is_single_file_mode then "update-file" else "update-files" in
  let log :=
    ["Action: Update/Create File(s) on repo " +:+ full_name repo_info
     +:+ " (default branch: " +:+ default_branch repo_info +:+ ")"] in
  match h_get_repo h (full_name repo_info) w with
  | (Raise e_get_repo, w) =>
      (Ok (append_result batch
             (failure repo_info
                (log ++ ["- ERROR: Could not get repository object: "
                         +:+ exn_text e_get_repo]))), w)
  | (Ok repo_api, w) =>
      let '(resolved_ph, ph_log, ph_ok, w) :=
        _resolve_all_placeholders_for_repo rt h repo_info defined_placeholders
          timestamp_str w in
      let log := log ++ ph_log in
      if negb ph_ok then (Ok (append_result batch (failure repo_info log)), w)
      else
        let continue_with := update_on_targets action_config_from_form
                               timestamp_str base_branch_name_action_part
                               repo_info repo_api resolved_ph in
        let specific_file_path_from_form :=
          strip (uf_file_path_input action_config_from_form) in
        if truthy specific_file_path_from_form then
          match single_file_target repo_info resolved_ph
                  specific_file_path_from_form log w with
          | ((log, None), w) =>
              (Ok (append_result batch (failure repo_info log)), w)
          | ((log, Some target_files_to_process), w) =>
              continue_with target_files_to_process log batch w
          end
        else
          let find_files_target_path :=
            process_placeholders_in_string
              (uf_target_path_input action_config_from_form) resolved_ph in
          let find_files_filename_filter :=
            process_placeholders_in_string
              (uf_filename_filter_input action_config_from_form) resolved_ph in
          let find_files_content_query :=
            process_placeholders_in_string
              (uf_content_query_input action_config_from_form) resolved_ph in
          let log :=
            log ++ ["- INFO: Finding target files. Path: '"
                    +:+ find_files_target_path +:+ "', Filter: '"
                    +:+ find_files_filename_filter +:+ "', Content Query: '"
                    +:+ find_files_content_query +:+ "'."] in
          if negb (truthy find_files_filename_filter)
             && negb (truthy find_files_content_query)
             && negb (truthy (strip_char "/" find_files_target_path))
          then
            (Ok (append_result batch
                   (failure repo_info
                      (log ++ ["- ERROR: For multiple file updates, you must "
                               +:+ "specify at least a target path, a filename "
                               +:+ "filter, or a content query. "
                               +:+ "Skipping repo."]))), w)
          else
            match find_target_files rt h (full_name repo_info)
                    (default_branch repo_info) find_files_target_path
                    find_files_filename_filter find_files_content_query w with
            | (Raise e, w) => (Raise e, w)
            | (Ok target_files_result, w) =>
                if otruthy (tf_error target_files_result) then
                  (Ok (append_result batch
                         (failure repo_info
                            (log ++ ["- ERROR: Failed to find target files: "
                                     +:+ fmt_opt (tf_error target_files_result)
                                     +:+ ". Skipping repo."]))), w)
                else
                  match tf_files target_files_result with
                  | [] =>
                      (Ok (append_result batch
                             {| ar_repo := name repo_info; ar_success := true;
                                ar_message :=
                                  join_log
                                    (log ++ ["- INFO: No files found matching "
                                             +:+ "criteria. Skipping repo."]);
                                ar_pr_url := None |}), w)
                  | files =>
                      let target_files_to_process :=
                        map target_of_content_file files in
                      continue_with target_files_to_process
                        (log ++ ["- INFO: Found "
                                 +:+ str_of_nat (List.length files)
                                 +:+ " file(s) to update: "
                                 +:+ repr_str_list rt (map cf_path files)])
                        batch w
                  end
            end
  end.

(** [execute_update_file_action] (lines 253-567) *)
Definition execute_update_file_action
    (selected_repo_infos : list Repository)
    (defined_placeholders : list PlaceholderDefinition)
    (action_config_from_form : UpdateForm) (timestamp_str : string) (w : W)
  : outcome (list ActionResult) * W :=
  for_each_repo
    (update_body defined_placeholders action_config_from_form timestamp_str)
    selected_repo_infos [] w.

End Executors.

End ActionProcessing.

(** ** A small host and runtime to run the engine on

    An in-memory stand-in for the remote host, enough to evaluate the
    executors on concrete batches: repositories with branches, files on
    each branch, the commits of each branch and the open pull requests. *)

Module Fixture.
Import PyStr.

Record FakeBranch := {
  fb_repo : string;
  fb_name : string;
  fb_files : list (string * string);
  fb_commits : list string;
}.

Record FakePull := {
  fp_repo : string;
  fp_head : string;
  fp_base : string;
  fp_url : string;
}.

Record FakeWorld := {
  fw_branches : list FakeBranch;
  fw_pulls : list FakePull;
  (** repositories the host answers 404 for *)
  fw_missing : list string;
  (** the calls that change the host, oldest first *)
  fw_calls : list string;
}.

Definition not_found : exn :=
  GithubException true 404 (Some "Not Found") [] "404 Not Found".

Definition conflict : exn :=
  GithubException false 409 (Some "is at a different sha") []
    "409 Conflict".

Definition validation_failed (errors : list string) : exn :=
  GithubException false 422 (Some "Validation Failed") errors
    "422 Validation Failed".

Definition in_list (x : string) (l : list string) : bool :=
  existsb (String.eqb x) l.

Fixpoint assoc (k : string) (l : list (string * string)) : option string :=
  match l with
  | [] => None
  | (k', v) :: l' => if String.eqb k k' then Some v else assoc k l'
  end.

Definition find_branch (repo branch : string) (w : FakeWorld)
  : option FakeBranch :=
  find (fun b => String.eqb (fb_repo b) repo && String.eqb (fb_name b) branch)
       (fw_branches w).

Definition set_branch (b : FakeBranch) (w : FakeWorld) : list FakeBranch :=
  map (fun b' => if String.eqb (fb_repo b') (fb_repo b)
                    && String.eqb (fb_name b') (fb_name b)
                 then b else b') (fw_branches w).

Definition record_call (call : string) (branches : list FakeBranch)
    (pulls : list FakePull) (w : FakeWorld) : FakeWorld :=
  {| fw_branches := branches; fw_pulls := pulls; fw_missing := fw_missing w;
     fw_calls := fw_calls w ++ [call] |}.

Definition blob_sha (content : string) : string := "blob-" +:+ content.
Definition commit_sha (branch : string) : string := "head-of-" +:+ branch.

(** The text after a prefix, when the text starts with it. *)
Fixpoint after_prefix (p s : string) : option string :=
  match p, s with
  | EmptyString, _ => Some s
  | String a p', String b s' =>
      if Ascii.eqb a b then after_prefix p' s' else None
  | _, _ => None
  end.

Definition fake_get_repo (n : string) (w : FakeWorld)
  : outcome RepoObj * FakeWorld :=
  if in_list n (fw_missing w) then (Raise not_found, w)
  else (Ok {| ro_full_name := n;
              ro_owner_login := default "" (head (split "/" n));
              ro_default_branch := Some "main" |}, w).

Definition fake_get_git_ref (r : RepoObj) (ref : string) (w : FakeWorld)
  : outcome unit * FakeWorld :=
  match after_prefix "heads/" ref with
  | Some b =>
      match find_branch (ro_full_name r) b w with
      | Some _ => (Ok tt, w)
      | None => (Raise not_found, w)
      end
  | None => (Raise not_found, w)
  end.

Definition fake_get_branch (r : RepoObj) (b : string) (w : FakeWorld)
  : outcome string * FakeWorld :=
  match find_branch (ro_full_name r) b w with
  | Some _ => (Ok (commit_sha b), w)
  | None => (Raise not_found, w)
  end.

Definition fake_create_git_ref (r : RepoObj) (ref sha : string)
    (w : FakeWorld) : outcome unit * FakeWorld :=
  match after_prefix "refs/heads/" ref, after_prefix "head-of-" sha with
  | Some nb, Some src =>
      match find_branch (ro_full_name r) nb w,
            find_branch (ro_full_name r) src w with
      | Some _, _ =>
          (Raise (GithubException false 422 (Some "Reference already exists")
                    [] "422 Reference already exists"), w)
      | None, Some s =>
          (Ok tt,
           record_call ("create_git_ref " +:+ ref)
             (fw_branches w
              ++ [{| fb_repo := ro_full_name r; fb_name := nb;
                     fb_files := fb_files s; fb_commits := fb_commits s |}])
             (fw_pulls w) w)
      | None, None => (Raise not_found, w)
      end
  | _, _ => (Raise not_found, w)
  end.

Definition fake_get_contents (r : RepoObj) (path ref : string) (w : FakeWorld)
  : outcome Contents * FakeWorld :=
  match find_branch (ro_full_name r) ref w with
  | Some b =>
      match assoc path (fb_files b) with
      | Some content =>
          (Ok (CFile {| cf_path := path; cf_sha := blob_sha content;
                        cf_type := "file";
                        cf_decoded := Bytes (Ok content) |}), w)
      | None => (Raise not_found, w)
      end
  | None => (Raise not_found, w)
  end.

Definition commit (b : FakeBranch) (files : list (string * string))
    (message : string) : FakeBranch :=
  {| fb_repo := fb_repo b; fb_name := fb_name b; fb_files := files;
     fb_commits :=
       fb_commits b
       ++ [fb_name b +:+ "#" +:+ str_of_nat (List.length (fb_commits b))
           +:+ " " +:+ message] |}.

Definition fake_delete_file (r : RepoObj) (path message sha branch : string)
    (w : FakeWorld) : outcome unit * FakeWorld :=
  match find_branch (ro_full_name r) branch w with
  | Some b =>
      match assoc path (fb_files b) with
      | Some content =>
          if String.eqb sha (blob_sha content) then
            (Ok tt,
             record_call ("delete_file " +:+ path +:+ " on " +:+ branch)
               (set_branch
                  (commit b (filter (fun kv => negb (String.eqb (fst kv) path))
                               (fb_files b)) message) w)
               (fw_pulls w) w)
          else (Raise conflict, w)
      | None => (Raise not_found, w)
      end
  | None => (Raise not_found, w)
  end.

Definition fake_update_file (r : RepoObj) (path message content sha
    branch : string) (w : FakeWorld) : outcome string * FakeWorld :=
  match find_branch (ro_full_name r) branch w with
  | Some b =>
      match assoc path (fb_files b) with
      | Some old =>
          if String.eqb sha (blob_sha old) then
            (Ok (blob_sha content),
             record_call ("update_file " +:+ path +:+ " on " +:+ branch)
               (set_branch
                  (commit b (map (fun kv => if String.eqb (fst kv) path
                                            then (path, content) else kv)
                               (fb_files b)) message) w)
               (fw_pulls w) w)
          else (Raise conflict, w)
      | None => (Raise not_found, w)
      end
  | None => (Raise not_found, w)
  end.

Definition fake_create_file (r : RepoObj) (path message content
    branch : string) (w : FakeWorld) : outcome string * FakeWorld :=
  match find_branch (ro_full_name r) branch w with
  | Some b =>
      match assoc path (fb_files b) with
      | Some _ =>
          (Raise (GithubException false 422
                    (Some "Invalid request. sha was not supplied.") []
                    "422 Invalid request"), w)
      | None =>
          (Ok (blob_sha content),
           record_call ("create_file " +:+ path +:+ " on " +:+ branch)
             (set_branch (commit b (fb_files b ++ [(path, content)]) message)
                w)
             (fw_pulls w) w)
      end
  | None => (Raise not_found, w)
  end.

Definition fake_get_pulls (r : RepoObj) (head base : string) (w : FakeWorld)
  : outcome (list string) * FakeWorld :=
  (Ok (map fp_url
         (filter (fun p => String.eqb (fp_repo p) (ro_full_name r)
                           && String.eqb (ro_owner_login r +:+ ":"
                                          +:+ fp_head p) head
                           && String.eqb (fp_base p) base)
                 (fw_pulls w))), w).

(** The host refuses a pull request whose head has no commit that the base
    lacks, and a second one for the same head and base. *)
Definition fake_create_pull (r : RepoObj) (title body head base : string)
    (w : FakeWorld) : outcome string * FakeWorld :=
  match find_branch (ro_full_name r) head w,
        find_branch (ro_full_name r) base w with
  | Some hb, Some bb =>
      if forallb (fun c => in_list c (fb_commits bb)) (fb_commits hb) then
        (Raise (validation_failed
                  ["No commits between " +:+ base +:+ " and " +:+ head]), w)
      else if existsb (fun p => String.eqb (fp_repo p) (ro_full_name r)
                                && String.eqb (fp_head p) head
                                && String.eqb (fp_base p) base) (fw_pulls w)
      then
        (Raise (validation_failed
                  ["A pull request already exists for "
                   +:+ ro_owner_login r +:+ ":" +:+ head +:+ "."]), w)
      else
        let url :=
          "https://github.com/" +:+ ro_full_name r +:+ "/pull/"
          +:+ str_of_nat (S (List.length (fw_pulls w))) in
        (Ok url,
         record_call ("create_pull " +:+ head +:+ " -> " +:+ base)
           (fw_branches w)
           (fw_pulls w
            ++ [{| fp_repo := ro_full_name r; fp_head := head;
                   fp_base := base; fp_url := url |}]) w)
  | _, _ => (Raise (validation_failed ["head or base is invalid"]), w)
  end.

Definition fake_search_code (query : string) (w : FakeWorld)
  : outcome (list string) * FakeWorld := (Ok [], w).

Definition fake_get_git_tree (r : RepoObj) (sha : string) (w : FakeWorld)
  : outcome (list TreeElement) * FakeWorld :=
  match after_prefix "head-of-" sha with
  | Some b =>
      match find_branch (ro_full_name r) b w with
      | Some fb =>
          (Ok (map (fun kv => {| te_type := "blob"; te_path := fst kv |})
                 (fb_files fb)), w)
      | None => (Raise not_found, w)
      end
  | None => (Raise not_found, w)
  end.

Definition fake_host : Host FakeWorld :=
  {| h_get_repo := fake_get_repo;
     h_get_git_ref := fake_get_git_ref;
     h_get_branch := fake_get_branch;
     h_create_git_ref := fake_create_git_ref;
     h_get_contents := fake_get_contents;
     h_delete_file := fake_delete_file;
     h_update_file := fake_update_file;
     h_create_file := fake_create_file;
     h_get_pulls := fake_get_pulls;
     h_create_pull := fake_create_pull;
     h_search_code := fake_search_code;
     h_get_git_tree := fake_get_git_tree |}.

(** A repository with one branch [main] holding the given files. *)
Definition one_repo (full_name : string) (files : list (string * string))
  : FakeBranch :=
  {| fb_repo := full_name; fb_name := "main"; fb_files := files;
     fb_commits := ["main#0 initial"] |}.

Definition world (branches : list FakeBranch) (missing : list string)
  : FakeWorld :=
  {| fw_branches := branches; fw_pulls := []; fw_missing := missing;
     fw_calls := [] |}.

(** The runtime: parsers and the regular-expression search are tables of
    the documents and patterns of the examples; [fnmatch] knows the
    patterns [*suffix] and plain names. *)
Fixpoint lookup_doc (text : string) (docs : list (string * pyval))
  : option pyval :=
  match docs with
  | [] => None
  | (t, v) :: docs' => if String.eqb t text then Some v else lookup_doc text docs'
  end.

Fixpoint lookup_match (pattern text : string)
    (table : list (string * string * option MatchObj))
  : option (option MatchObj) :=
  match table with
  | [] => None
  | (p, t, m) :: table' =>
      if String.eqb p pattern && String.eqb t text then Some m
      else lookup_match pattern text table'
  end.

Fixpoint ends_with (suffix s : string) : bool :=
  String.eqb suffix s
  || match s with
     | String _ s' => ends_with suffix s'
     | EmptyString => false
     end.

Definition fake_fnmatch (name pattern : string) : bool :=
  match pattern with
  | String "*" suffix => ends_with suffix name
  | _ => String.eqb name pattern
  end.

Definition runtime (docs : list (string * pyval))
    (matches : list (string * string * option MatchObj)) : Runtime :=
  {| re_search := fun pattern text =>
       match lookup_match pattern text matches with
       | Some m => Ok m
       | None => Raise (ReError "pattern not in the table")
       end;
     re_sub := fun _ _ text _ => Ok text;
     json_loads := fun text =>
       match lookup_doc text docs with
       | Some v => Ok v
       | None => Raise (JSONDecodeError "document not in the table")
       end;
     yaml_safe_load := fun text =>
       match lookup_doc text docs with
       | Some v => Ok v
       | None => Raise (YAMLError "document not in the table")
       end;
     fnmatch := fake_fnmatch;
     repr_container := fun _ => "<container>";
     repr_str_list := fun l =>
       "[" +:+ join ", " (map (fun s => "'" +:+ s +:+ "'") l) +:+ "]" |}.

End Fixture.

(** ** Notions used in the statements *)

Module Notions.
Import PyStr GithubUtils ActionProcessing.

(** What the loop over the candidate paths adds to
    [path_specific_errors] for the candidates of [paths]. *)
Definition errors_of (data : pyval) (paths : list string) : list string :=
  flat_map (fun q =>
              let r := Path._get_value_from_path data q in
              if otruthy (snd r)
              then ["Path '" +:+ q +:+ "': " +:+ fmt_opt (snd r)] else [])
           paths.

(** A candidate the loop passes over: it gave an error, or [None]. *)
Definition passed_over (data : pyval) (q : string) : bool :=
  let r := Path._get_value_from_path data q in
  Path.is_none (fst r) || otruthy (snd r).

(** A definition the resolver does not skip (line 56). *)
Definition is_valid (d : PlaceholderDefinition) : bool :=
  truthy (ph_name d) && truthy (ph_file_path d) && truthy (ph_method d).

(** The log lines of the resolver (lines 57, 68-70 and 74). *)
Definition warning_line (d : PlaceholderDefinition) : string :=
  "- WARNING: Invalid placeholder definition skipped: Name='"
  +:+ ph_name d +:+ "', Path='" +:+ ph_file_path d +:+ "', Method='"
  +:+ ph_method d +:+ "'".

Definition error_line (d : PlaceholderDefinition)
    (r : PlaceholderExtractionResult) : string :=
  "- ERROR: "
  +:+ ("Could not resolve placeholder '" +:+ braces (ph_name d) +:+ "' from '"
       +:+ ph_file_path d +:+ "': " +:+ fmt_opt (pe_error r)
       +:+ ". This repository will be skipped.").

Definition stored_value (r : PlaceholderExtractionResult) : string :=
  match pe_value r with Some v => v | None => "" end.

Definition info_line (d : PlaceholderDefinition)
    (r : PlaceholderExtractionResult) : string :=
  "- INFO: Placeholder '" +:+ braces (ph_name d) +:+ "' (from '"
  +:+ ph_file_path d +:+ "') resolved to: '" +:+ stored_value r +:+ "'".

(** The call of the extractor for a definition (lines 63-66). *)
Definition extract_for {W : Type} (rt : Runtime) (h : Host W)
    (repo_info : Repository) (d : PlaceholderDefinition) (w : W)
  : PlaceholderExtractionResult * W :=
  extract_placeholder_value rt h (full_name repo_info)
    (default_branch repo_info) (ph_file_path d) (ph_method d) (ph_config d) w.

End Notions.

(** ** Concrete inputs *)

Module Examples.
Import Fixture.

Definition repo_r : Repository :=
  {| name := "r"; full_name := "o/r"; html_url := "https://github.com/o/r";
     default_branch := "main" |}.

Definition repo_s : Repository :=
  {| name := "s"; full_name := "o/s"; html_url := "https://github.com/o/s";
     default_branch := "main" |}.

Definition regex_config (pattern : string) (group_index : Z)
  : ExtractionConfig :=
  {| cfg_pattern := Some pattern; cfg_group_index := Some group_index;
     cfg_jsonpath_expression := None; cfg_yaml_path := YPOther |}.

Definition yaml_config (paths : list string) : ExtractionConfig :=
  {| cfg_pattern := None; cfg_group_index := None;
     cfg_jsonpath_expression := None;
     cfg_yaml_path := YPList (map PStr paths) |}.

(** The file [VERSION] holds [v12]; the pattern [v(\d+)(-rc)?] matches it
    with the second group left out. *)
Definition version_runtime : Runtime :=
  runtime []
    [("v(\d+)(-rc)?", "v12",
      Some {| m_group0 := "v12"; m_groups := [Some "12"; None] |})].

Definition version_world : FakeWorld :=
  world [one_repo "o/r" [("VERSION", "v12")];
         one_repo "o/s" [("VERSION", "v12")]] [].

Definition ph_version (ph_name : string) (group_index : Z)
  : PlaceholderDefinition :=
  {| ph_name := ph_name; ph_file_path := "VERSION"; ph_method := "Regex";
     ph_config := regex_config "v(\d+)(-rc)?" group_index |}.

(** A definition whose source file is not in the repository. *)
Definition ph_missing_file : PlaceholderDefinition :=
  {| ph_name := "owner"; ph_file_path := "CODEOWNERS"; ph_method := "Regex";
     ph_config := regex_config "(.*)" 1 |}.

(** A definition with an empty file path. *)
Definition ph_no_path : PlaceholderDefinition :=
  {| ph_name := "x"; ph_file_path := ""; ph_method := "Regex";
     ph_config := regex_config "(.*)" 1 |}.

End Examples.

(** *** Batches for the executors *)

Module Batches.
Import Fixture Examples.

(** One repository [o/r] whose branch [main] holds [README.md]. *)
Definition readme_world : FakeWorld :=
  world [one_repo "o/r" [("README.md", "hello")]] [].

(** Two repositories; the host answers 404 for the first. *)
Definition gone_then_present_world : FakeWorld :=
  world [one_repo "o/s" [("README.md", "hello")]] ["o/r"].

Definition no_runtime : Runtime := runtime [] [].

(** The action works on the default branch itself, so the pull request
    would go from [main] to [main]. *)
Definition remove_on_main : RemoveForm :=
  {| rf_file_path := "README.md"; rf_branch_name := "main";
     rf_commit_message := "Remove {{file_path}}";
     rf_pr_title := "Remove {{file_path}}";
     rf_pr_body := "This PR removes `{{file_path}}`." |}.

Definition update_form (file_path update_mode content search replace
    filename_filter branch : string) : UpdateForm :=
  {| uf_file_path_input := file_path;
     uf_update_mode := update_mode;
     uf_file_content_area := content;
     uf_search_string_input := search;
     uf_replace_with_string_input := replace;
     uf_is_regex_checkbox := false;
     uf_replace_all_checkbox := true;
     uf_target_path_input := "";
     uf_filename_filter_input := filename_filter;
     uf_content_query_input := "";
     uf_branch_name_input := branch;
     uf_commit_message_input := "Update {{file_path}}";
     uf_pr_title_input := "Update {{file_path}}";
     uf_pr_body_input := "This PR updates `{{file_path}}`.";
     uc_force_update := false |}.

Definition update_on_main : UpdateForm :=
  update_form "README.md" "Replace entire content" "bye" "" "" "" "main".

(** Multi-file mode: every [*.md] file, a search string that occurs in
    none of them. *)
Definition replace_absent_string : UpdateForm :=
  update_form "" "Search and replace string" "" "absent" "present" "*.md"
    "fix/typo".

Definition add_form (branch : string) : AddForm :=
  {| anf_file_path_input := "NEW.md";
     anf_file_content_area := "new";
     anf_branch_name_input := branch;
     anf_commit_message_input := "Add {{file_path}}";
     anf_pr_title_input := "Add {{file_path}}";
     anf_pr_body_input := "This PR adds `{{file_path}}`." |}.

(** What a batch report shows of a result. *)
Definition outcome_of (r : ActionResult) : string * bool * option string :=
  (ar_repo r, ar_success r, ar_pr_url r).

Definition report {W : Type} (res : outcome (list ActionResult) * W)
  : outcome (list (string * bool * option string)) :=
  match fst res with
  | Ok l => Ok (map outcome_of l)
  | Raise e => Raise e
  end.

End Batches.

(** *** Notions for the batch *)

Module BatchNotions.

(** The body of the loop appended exactly one result, for the repository
    at hand. *)
Definition appends_one {W : Type} (repo_info : Repository)
    (batch : list ActionResult) (res : outcome (list ActionResult) * W)
  : Prop :=
  exists r, fst res = Ok (batch ++ [r]) /\ ar_repo r = name repo_info.

(** The same, unless an exception left the body. *)
Definition appends_one_or_raises {W : Type} (repo_info : Repository)
    (batch : list ActionResult) (res : outcome (list ActionResult) * W)
  : Prop :=
  (exists e, fst res = Raise e) \/ appends_one repo_info batch res.

End BatchNotions.

(** A host on which reading one path fails with an exception that is not
    a [GithubException] (a dropped connection, a time-out). *)
Module Flaky.
Import Fixture.

Definition flaky_get_contents (bad_path : string) (r : RepoObj)
    (path ref : string) (w : FakeWorld) : outcome Contents * FakeWorld :=
  if String.eqb path bad_path
  then (Raise (OtherException "Connection aborted."), w)
  else fake_get_contents r path ref w.

Definition flaky_host (bad_path : string) : Host FakeWorld :=
  {| h_get_repo := fake_get_repo;
     h_get_git_ref := fake_get_git_ref;
     h_get_branch := fake_get_branch;
     h_create_git_ref := fake_create_git_ref;
     h_get_contents := flaky_get_contents bad_path;
     h_delete_file := fake_delete_file;
     h_update_file := fake_update_file;
     h_create_file := fake_create_file;
     h_get_pulls := fake_get_pulls;
     h_create_pull := fake_create_pull;
     h_search_code := fake_search_code;
     h_get_git_tree := fake_get_git_tree |}.

(** Multi-file mode under the directory [docs]. *)
Definition update_under_docs : UpdateForm :=
  {| uf_file_path_input := "";
     uf_update_mode := "Replace entire content";
     uf_file_content_area := "bye";
     uf_search_string_input := "";
     uf_replace_with_string_input := "";
     uf_is_regex_checkbox := false;
     uf_replace_all_checkbox := true;
     uf_target_path_input := "docs";
     uf_filename_filter_input := "*.md";
     uf_content_query_input := "";
     uf_branch_name_input := "docs-update";
     uf_commit_message_input := "Update {{file_path}}";
     uf_pr_title_input := "Update docs";
     uf_pr_body_input := "";
     uc_force_update := false |}.

Definition docs_world : FakeWorld :=
  world [one_repo "o/r" [("docs/a.md", "hello")];
         one_repo "o/s" [("docs/a.md", "hello")]] [].

End Flaky.

(** ** Notions used in the further properties *)

Module MoreNotions.

(** Any character but the opening brace. *)
Definition not_brace (c : ascii) : bool := negb (Ascii.eqb c "{").

(** Any character but the dot that separates the keys of a path. *)
Definition not_dot (c : ascii) : bool := negb (Ascii.eqb c ".").

(** A decimal digit. *)
Definition is_digit (c : ascii) : bool :=
  match PyStr.digit_of c with Some _ => true | None => false end.

(** What every result of [update_file] looks like: a message that is not
    empty, and a new SHA exactly when the write succeeded. *)
Definition well_formed_update (r : FileUpdateResult) : Prop :=
  otruthy (fu_message r) = true
  /\ if fu_success r then is_Some (fu_new_sha r) else fu_new_sha r = None.

End MoreNotions.

(** ** What an operation leaves untouched

    [obs] is anything one may look at in the world: the files of a branch,
    the list of pull requests, the whole world.  An operation keeps it
    when the world after the operation shows what the world before it
    showed.  A function that calls the host only through operations that
    keep [obs] keeps it too; that a function keeps every [obs] its reads
    keep says that it calls nothing but these reads. *)

Module Frame.

Definition keeps {W O A : Type} (obs : W -> O) (op : W -> A * W) : Prop :=
  forall w, obs (op w).2 = obs w.

End Frame.

(** The body of the loop over the repositories appended one result with
    the property [P], unless an exception left it. *)

Module MoreBatchNotions.

Definition appends_such {W : Type} (P : ActionResult -> Prop)
    (batch : list ActionResult) (res : outcome (list ActionResult) * W)
  : Prop :=
  match res.1 with
  | Ok l => exists x, l = batch ++ [x] /\ P x
  | Raise _ => True
  end.

(** A result reports success exactly when it carries the URL of a pull
    request. *)
Definition success_means_url (x : ActionResult) : Prop :=
  ar_success x = otruthy (ar_pr_url x).

End MoreBatchNotions.

(** What the small host has been asked to change, by kind of call. *)

Module Calls.
Import Fixture.

Definition calls_of (kind : string) (w : FakeWorld) : list string :=
  List.filter (fun call => String.prefix kind call) (fw_calls w).

Definition deletions (w : FakeWorld) : list string :=
  calls_of "delete_file " w.

Definition content_writes (w : FakeWorld) : list string :=
  calls_of "update_file " w ++ calls_of "create_file " w.

End Calls.

(** ** Listing the repositories ([github_utils.py], lines 87-168)

    [D] is the type of the time stamps PyGithub hands over and [strftime]
    their text in the format ['%Y-%m-%d %H:%M:%S'].  The list a call of
    [get_repos] stands for is read page by page while the function iterates
    over it; the call and the iteration sit in the one [try] block and
    nothing is done in between, so one outcome stands for both. *)

Module Listing.
Import PyStr.

(** A repository as PyGithub hands it over: the attributes the function
    reads.  Reading [default_branch] may raise; [private], [fork] and
    [archived] may be [None]; [owner] may be missing. *)
Record RawRepo (D : Type) := {
  raw_name : string;
  raw_full_name : string;
  raw_html_url : string;
  raw_updated_at : option D;
  raw_default_branch : outcome string;
  raw_description : option string;
  raw_private : option bool;
  raw_fork : option bool;
  raw_archived : option bool;
  raw_created_at : option D;
  raw_pushed_at : option D;
  raw_owner_login : option string;
}.
Arguments raw_name {D}.
Arguments raw_full_name {D}.
Arguments raw_html_url {D}.
Arguments raw_updated_at {D}.
Arguments raw_default_branch {D}.
Arguments raw_description {D}.
Arguments raw_private {D}.
Arguments raw_fork {D}.
Arguments raw_archived {D}.
Arguments raw_created_at {D}.
Arguments raw_pushed_at {D}.
Arguments raw_owner_login {D}.

(** The dataclass [Repository] with all its fields (lines 21-35). *)
Record Repository := {
  name : string;
  full_name : string;
  html_url : string;
  updated_at : string;
  default_branch : string;
  description : string;
  private : bool;
  fork : bool;
  archived : bool;
  created_at : string;
  pushed_at : string;
  owner_login : string;
}.

(** The calls on PyGithub, over a world [W]. *)
Record Account (W D : Type) := {
  (** [g.get_user().login] *)
  a_user_login : W -> outcome string * W;
  (** [g.get_organization(org).get_repos(sort="updated",
      direction="desc")], iterated *)
  a_org_repos : string -> W -> outcome (list (RawRepo D)) * W;
  (** [g.get_user().get_repos(affiliation='owner', sort="updated",
      direction="desc")], iterated *)
  a_user_repos : W -> outcome (list (RawRepo D)) * W;
}.
Arguments a_user_login {W D}.
Arguments a_org_repos {W D}.
Arguments a_user_repos {W D}.

Section WithAccount.
Context {W D : Type} (strftime : D -> string) (g : Account W D).

(** [bool(x)] of an [Optional[bool]] *)
Definition bool_of (x : option bool) : bool := default false x.

(** [x.strftime(...) if x else "N/A"] *)
Definition time_text (x : option D) : string :=
  match x with Some t => strftime t | None => "N/A" end.

(** The body of the loop of lines 136-160 for one item: the row, or the
    exception that leaves the loop. *)
Definition to_row (item : RawRepo D) : outcome Repository :=
  let default_branch_name :=
    match raw_default_branch item with
    | Ok b => Ok b
    | Raise e_branch => if is_github e_branch then Ok "main" else Raise e_branch
    end in
  match default_branch_name with
  | Raise e => Raise e
  | Ok default_branch_name =>
      Ok {| name := raw_name item;
            full_name := raw_full_name item;
            html_url := raw_html_url item;
            updated_at := time_text (raw_updated_at item);
            default_branch := default_branch_name;
            description := if otruthy (raw_description item)
                           then fmt_opt (raw_description item) else "";
            private := bool_of (raw_private item);
            fork := bool_of (raw_fork item);
            archived := bool_of (raw_archived item);
            created_at := time_text (raw_created_at item);
            pushed_at := time_text (raw_pushed_at item);
            owner_login := default "N/A" (raw_owner_login item) |}
  end.

(** [for item in pygithub_repos: ...] *)
Fixpoint to_rows (items : list (RawRepo D)) : outcome (list Repository) :=
  match items with
  | [] => Ok []
  | item :: items' =>
      match to_row item with
      | Raise e => Raise e
      | Ok row =>
          match to_rows items' with
          | Raise e => Raise e
          | Ok rows => Ok (row :: rows)
          end
      end
  end.

(** Lines 125-133: the filter on the name. *)
Definition select_by_name (search_query : option string)
    (fetched_repos_raw : list (RawRepo D)) : list (RawRepo D) :=
  if otruthy search_query && truthy (strip (default "" search_query)) then
    let search_lower := lower (strip (default "" search_query)) in
    List.filter (fun repo_raw => contains search_lower (lower (raw_name repo_raw)))
      fetched_repos_raw
  else fetched_repos_raw.

(** Lines 99-121: the login of the user, which the text of the query
    needs whatever the owner (the query itself is only logged), and the
    repositories of the organisation or of the user. *)
Definition list_repos (org_name : option string) (w : W)
  : outcome (list (RawRepo D)) * W :=
  match a_user_login g w with
  | (Raise e, w) => (Raise e, w)
  | (Ok _, w) =>
      if otruthy org_name && truthy (strip (default "" org_name))
      then a_org_repos g (strip (default "" org_name)) w
      else a_user_repos g w
  end.

(** The two handlers (lines 163-168). *)
Definition fetch_handler (e : exn)
  : option (list Repository) * option string :=
  if is_github e then (None, Some ("GitHub API Error: " +:+ exn_message e))
  else (None, Some ("An unexpected error occurred: " +:+ exn_text e)).

(** [fetch_repositories] (lines 87-168) *)
Definition fetch_repositories (search_query org_name : option string)
    (w : W) : (option (list Repository) * option string) * W :=
  match list_repos org_name w with
  | (Raise e, w) => (fetch_handler e, w)
  | (Ok fetched_repos_raw, w) =>
      match to_rows (select_by_name search_query fetched_repos_raw) with
      | Raise e => (fetch_handler e, w)
      | Ok repositories_data => ((Some repositories_data, None), w)
      end
  end.

End WithAccount.

End Listing.

(** An account to list: the user [o] owns [Api-Server], whose default
    branch cannot be read, and [docs]. *)

Module ListingExamples.
Import Listing.

Definition raw (n : string) (default_branch : outcome string)
  : RawRepo string :=
  {| raw_name := n; raw_full_name := "o/" +:+ n;
     raw_html_url := "https://github.com/o/" +:+ n;
     raw_updated_at := Some "2024-05-01 10:00:00";
     raw_default_branch := default_branch;
     raw_description := None; raw_private := Some false;
     raw_fork := None; raw_archived := Some false;
     raw_created_at := None; raw_pushed_at := None;
     raw_owner_login := Some "o" |}.

Definition api_server : RawRepo string :=
  raw "Api-Server"
    (Raise (GithubException false 409 (Some "Git Repository is empty.") []
              "409 Conflict")).

Definition docs : RawRepo string := raw "docs" (Ok "trunk").

Definition account : Account unit string :=
  {| a_user_login := fun w => (Ok "o", w);
     a_org_repos := fun org w =>
       (Raise (GithubException true 404 (Some "Not Found") [] "404"), w);
     a_user_repos := fun w => (Ok [api_server; docs], w) |}.

End ListingExamples.

(** ** The paths of the form ([ui_components.py])

    The text area of the method "YAML Path" holds one path per line. *)

Module Forms.
Import PyStr.

Definition newline : ascii := ascii_of_nat 10.

(** [[path.strip() for path in text.split('\n') if path.strip()]]
    (lines 132 and 206): the list the form stores. *)
Definition yaml_paths_of_text (yaml_path_input_str : string) : list string :=
  omap (fun path => if truthy (strip path) then Some (strip path) else None)
       (split newline yaml_path_input_str).

(** ["\n".join(yaml_path_to_load)] (line 70): the text the form shows
    when a stored definition is edited. *)
Definition text_of_yaml_paths (yaml_path_to_load : list string) : string :=
  join (String newline EmptyString) yaml_path_to_load.

End Forms.
(** * Properties *)

(** ** Strings *)

Module StrFacts.

Lemma app_cons (c : ascii) (s1 s2 : string) :
  String c s1 +:+ s2 = String c (s1 +:+ s2).
Proof. reflexivity. Qed.

Lemma app_nil_l (s : string) : "" +:+ s = s.
Proof. reflexivity. Qed.

Lemma app_assoc (s1 s2 s3 : string) :
  (s1 +:+ s2) +:+ s3 = s1 +:+ (s2 +:+ s3).
Proof.
  induction s1 as [|c s1 IH]; [done|]. by rewrite !app_cons, IH.
Qed.

Lemma app_nil_r (s : string) : s +:+ "" = s.
Proof. induction s as [|c s IH]; [done|]. by rewrite app_cons, IH. Qed.

Lemma length_app (s1 s2 : string) :
  String.length (s1 +:+ s2) = (String.length s1 + String.length s2)%nat.
Proof.
  induction s1 as [|c s1 IH]; [done|]. rewrite app_cons. simpl. by rewrite IH.
Qed.

End StrFacts.

(** ** The scan of the template engine *)

Module TemplateFacts.
Import PyStr Template StrFacts.

Lemma span_app (p : ascii -> bool) (s a b : string) :
  span p s = (a, b) -> s = a +:+ b.
Proof.
  revert a b. induction s as [|c s IH]; simpl; intros a b H.
  - by inversion H.
  - destruct (p c).
    + destruct (span p s) as [a' b'] eqn:E. inversion H; subst.
      rewrite app_cons. f_equal. by apply IH.
    + by inversion H.
Qed.

(** A match is a prefix of the text, and it starts with two braces. *)
Lemma match_token_app (s g0 n rest : string) :
  match_token s = Some (g0, n, rest) ->
  s = g0 +:+ rest /\ exists g0', g0 = String "{" g0'.
Proof.
  unfold match_token. intros H.
  destruct s as [|c1 s]; [done|].
  destruct (ascii_dec c1 "{") as [->|Hc1]; last first.
  { destruct c1 as [[] [] [] [] [] [] [] []]; try done. }
  destruct s as [|c2 s]; [done|].
  destruct (ascii_dec c2 "{") as [->|Hc2]; last first.
  { destruct c2 as [[] [] [] [] [] [] [] []]; try done. }
  destruct (span is_space s) as [ws1 s2] eqn:E1.
  destruct (span is_name_char s2) as [nm s3] eqn:E2.
  destruct (is_empty nm); [done|].
  destruct (span is_space s3) as [ws2 s4] eqn:E3.
  destruct s4 as [|d1 s4]; [done|].
  destruct (ascii_dec d1 "}") as [->|Hd1]; last first.
  { destruct d1 as [[] [] [] [] [] [] [] []]; try done. }
  destruct s4 as [|d2 s4]; [done|].
  destruct (ascii_dec d2 "}") as [->|Hd2]; last first.
  { destruct d2 as [[] [] [] [] [] [] [] []]; try done. }
  inversion H; subst. split; [|by eexists].
  apply span_app in E1, E2, E3. subst.
  rewrite !app_cons, !app_nil_l. do 2 f_equal. by rewrite !app_assoc.
Qed.

Lemma span_all (p : ascii -> bool) (s a b : string) :
  span p s = (a, b) -> all_chars p a = true.
Proof.
  revert a b. induction s as [|c s IH]; simpl; intros a b H.
  - by inversion H.
  - destruct (p c) eqn:Hc.
    + destruct (span p s) as [a' b'] eqn:E. inversion H; subst.
      simpl. rewrite Hc. by eapply IH.
    + by inversion H.
Qed.

(** A greedy run stops exactly where the class stops. *)
Lemma span_exact (p : ascii -> bool) (a b : string) :
  all_chars p a = true ->
  match b with String c _ => p c = false | EmptyString => True end ->
  span p (a +:+ b) = (a, b).
Proof.
  intros Ha Hb. induction a as [|c a IH].
  - rewrite app_nil_l. destruct b as [|c b]; [done|]. simpl. by rewrite Hb.
  - simpl in Ha. apply andb_prop in Ha as [Hc Ha].
    rewrite app_cons. simpl. rewrite Hc, (IH Ha). done.
Qed.

(** The anchored match of the engine is the token grammar: what it
    matches is a token and what follows it, and every token at the start
    of a text is matched, with that name. *)
Lemma match_token_is_token (s g0 n rest : string) :
  match_token s = Some (g0, n, rest) <-> s = g0 +:+ rest /\ is_token g0 n.
Proof.
  split.
  - intros H. split; [by apply (match_token_app _ _ _ _ H)|].
    unfold match_token in H.
    destruct s as [|c1 s]; [done|].
    destruct (ascii_dec c1 "{") as [->|Hc1]; last first.
    { destruct c1 as [[] [] [] [] [] [] [] []]; try done. }
    destruct s as [|c2 s]; [done|].
    destruct (ascii_dec c2 "{") as [->|Hc2]; last first.
    { destruct c2 as [[] [] [] [] [] [] [] []]; try done. }
    destruct (span is_space s) as [ws1 s2] eqn:E1.
    destruct (span is_name_char s2) as [nm s3] eqn:E2.
    destruct (is_empty nm) eqn:Hnm; [done|].
    destruct (span is_space s3) as [ws2 s4] eqn:E3.
    destruct s4 as [|d1 s4]; [done|].
    destruct (ascii_dec d1 "}") as [->|Hd1]; last first.
    { destruct d1 as [[] [] [] [] [] [] [] []]; try done. }
    destruct s4 as [|d2 s4]; [done|].
    destruct (ascii_dec d2 "}") as [->|Hd2]; last first.
    { destruct d2 as [[] [] [] [] [] [] [] []]; try done. }
    inversion H; subst. exists ws1, ws2.
    repeat split; eauto using span_all. by destruct n.
  - intros [-> (ws1 & ws2 & -> & H1 & H2 & Hn & Hne)].
    destruct n as [|c n]; [done|]. simpl in Hn.
    apply andb_prop in Hn as [Hc Hn].
    assert (Hcs : is_space c = false).
    { unfold is_name_char in Hc. apply andb_prop in Hc as [_ Hc].
      by apply negb_true_iff in Hc. }
    rewrite !app_assoc, !app_cons, !app_nil_l. unfold match_token.
    rewrite (span_exact is_space ws1 _ H1) by exact Hcs.
    rewrite <- (app_cons c n).
    rewrite (span_exact is_name_char (String c n)); first last.
    { destruct ws2 as [|d ws2].
      - by rewrite app_nil_l.
      - rewrite app_cons. simpl in H2. apply andb_prop in H2 as [Hd _].
        unfold is_name_char. rewrite Hd. by rewrite andb_false_r. }
    { simpl. by rewrite Hc, Hn. }
    simpl is_empty. cbv iota.
    rewrite (span_exact is_space ws2 _ H2) by done.
    by rewrite !app_cons, !app_nil_l.
Qed.

Lemma scan_from_skip (pre s : string) :
  scan_from (String.length pre) (pre +:+ s) = scan_from 0 s.
Proof. induction pre as [|c pre IH]; [done|]. by rewrite app_cons. Qed.

Lemma tokenize_nil : tokenize "" = [].
Proof. done. Qed.

Lemma scan_from_0 (c : ascii) (s : string) :
  scan_from 0 (String c s)
  = match match_token (String c s) with
    | Some (g0, n, _) => Tok g0 n :: scan_from (Nat.pred (String.length g0)) s
    | None => Lit c :: scan_from 0 s
    end.
Proof. reflexivity. Qed.

Lemma tokenize_match (s g0 n rest : string) :
  match_token s = Some (g0, n, rest) ->
  tokenize s = Tok g0 n :: tokenize rest.
Proof.
  intros H. destruct (match_token_app _ _ _ _ H) as [Heq [g0' ->]].
  subst s. unfold tokenize. rewrite app_cons in H |- *.
  rewrite scan_from_0, H. f_equal. apply scan_from_skip.
Qed.

Lemma tokenize_nomatch (c : ascii) (s : string) :
  match_token (String c s) = None ->
  tokenize (String c s) = Lit c :: tokenize s.
Proof. intros H. unfold tokenize. by rewrite scan_from_0, H. Qed.

(** Induction along the scan. *)
Lemma scan_ind (P : string -> Prop) :
  P "" ->
  (forall c s, match_token (String c s) = None -> P s -> P (String c s)) ->
  (forall s g0 n rest,
      match_token s = Some (g0, n, rest) -> P rest -> P s) ->
  forall s, P s.
Proof.
  intros Hnil Hlit Htok s.
  remember (String.length s) as k eqn:Hk.
  revert s Hk. induction k as [k IH] using lt_wf_ind. intros s Hk.
  destruct s as [|c s]; [done|].
  destruct (match_token (String c s)) as [[[g0 n] rest]|] eqn:E.
  - apply (Htok _ _ _ _ E).
    destruct (match_token_app _ _ _ _ E) as [Heq [g0' ->]].
    apply (IH (String.length rest)); [|done].
    rewrite Hk, Heq. simpl. rewrite length_app. lia.
  - apply Hlit; [done|]. apply (IH (String.length s)); [|done].
    rewrite Hk. simpl. lia.
Qed.

(** Every token the scan finds is a token of the grammar. *)
Lemma scanned_token_is_token (T g0 n : string) :
  Tok g0 n ∈ tokenize T -> is_token g0 n.
Proof.
  induction T as [|c s Hm IH|s h0 m rest Hm IH] using scan_ind.
  - rewrite tokenize_nil. by intros ?%elem_of_nil.
  - rewrite (tokenize_nomatch _ _ Hm).
    intros [?|?]%elem_of_cons; [done | auto].
  - rewrite (tokenize_match _ _ _ _ Hm).
    intros [Heq|?]%elem_of_cons; [|auto].
    inversion Heq; subst.
    by destruct (proj1 (match_token_is_token _ _ _ _) Hm) as [_ ?].
Qed.

Lemma concat_str_app (l1 l2 : list string) :
  concat_str (l1 ++ l2) = concat_str l1 +:+ concat_str l2.
Proof.
  induction l1 as [|x l1 IH]; simpl; [done|]. by rewrite IH, app_assoc.
Qed.

(** The pieces of the scan, put end to end, are the text. *)
Lemma tokenize_text (s : string) : text_of (tokenize s) = s.
Proof.
  unfold text_of. induction s as [|c s Hm IH|s g0 n rest Hm IH] using scan_ind.
  - done.
  - rewrite (tokenize_nomatch _ _ Hm). simpl. by rewrite IH.
  - rewrite (tokenize_match _ _ _ _ Hm). simpl. rewrite IH.
    by destruct (match_token_app _ _ _ _ Hm) as [-> _].
Qed.

Lemma render_app (M : gmap string string) (l1 l2 : list piece) :
  render M (l1 ++ l2) = render M l1 +:+ render M l2.
Proof. unfold render. by rewrite map_app, concat_str_app. Qed.

(** Pieces none of whose names is a key are rendered as they are. *)
Lemma render_unknown (M : gmap string string) (ps : list piece) :
  (forall n, n ∈ names_of ps -> M !! n = None) ->
  render M ps = text_of ps.
Proof.
  unfold render, text_of. induction ps as [|p ps IH]; intros H; [done|].
  simpl. rewrite IH.
  - f_equal. destruct p as [c|g0 n]; [done|]. simpl.
    rewrite (H n); [done|]. simpl. left.
  - intros n Hn. apply H. destruct p; simpl; [done|]. by right.
Qed.

(** A text with no token whose name is a key is left as it is. *)
Lemma process_unknown (T : string) (M : gmap string string) :
  (forall n, n ∈ token_names T -> M !! n = None) ->
  process_placeholders_in_string T M = T.
Proof.
  intros H. unfold process_placeholders_in_string.
  rewrite render_unknown; [apply tokenize_text | exact H].
Qed.




(** The same text and map, evaluated: the known token is replaced, the
    unknown one stays. *)
Example substitute_example :
  process_placeholders_in_string "a {{ x }} {{y}}b" {[ "y" := "1" ]}
  = "a {{ x }} 1b".
Proof. vm_compute. reflexivity. Qed.

(** C6, as stated, fails in both directions.  With [M = {a: "{", b: "Z"}]
    no value holds a token, yet ["{{a}}{b}}"] becomes ["{{b}}"] and then
    ["Z"].  With [M = {a: "{{b}}"}] the value of [a] holds a token, yet
    ["{{a}}"] becomes ["{{b}}"] and stays so. *)
Lemma idempotent_iff_counterexample :
  (no_token_in_values "{{a}}{b}}" (<["a" := "{"]> {[ "b" := "Z" ]}) = true
   /\ ~ idempotent_on "{{a}}{b}}" (<["a" := "{"]> {[ "b" := "Z" ]}))
  /\ (idempotent_on "{{a}}" {[ "a" := "{{b}}" ]}
      /\ no_token_in_values "{{a}}" {[ "a" := "{{b}}" ]} = false).
Proof.
  split; split.
  - vm_compute. reflexivity.
  - unfold idempotent_on. vm_compute. discriminate.
  - unfold idempotent_on. vm_compute. reflexivity.
  - vm_compute. reflexivity.
Qed.

(** C6, amended: substituting twice gives what substituting once gives
    whenever the text substituted once holds no token whose name is a key
    of the map. *)
Theorem idempotent_when_result_has_no_known_token (T : string)
    (M : gmap string string) :
  (forall n, n ∈ token_names (process_placeholders_in_string T M) ->
             M !! n = None) ->
  idempotent_on T M.
Proof. intros H. unfold idempotent_on. by apply process_unknown. Qed.

Lemma idempotent_when_result_has_no_known_token_witness :
  idempotent_on "{{a}} and {{c}}" {[ "a" := "{{b}}" ]}.
Proof.
  apply idempotent_when_result_has_no_known_token.
  intros n Hn. vm_compute in Hn.
  apply list_elem_of_In in Hn. simpl in Hn.
  destruct Hn as [<-|[<-|[]]]; vm_compute; reflexivity.
Defined.

End TemplateFacts.

(** ** The placeholder extractor *)

Module ExtractFacts.
Import PyStr GithubUtils Notions.

Lemma yaml_try_paths_skip (data : pyval) (pre rest errs : list string) :
  Forall (fun q => passed_over data q = true) pre ->
  yaml_try_paths data (pre ++ rest) errs
  = yaml_try_paths data rest (errs ++ errors_of data pre).
Proof.
  revert errs. induction pre as [|q pre IH]; intros errs H.
  - simpl. by rewrite app_nil_r.
  - inversion H as [|? ? Hq Hpre]; subst. simpl.
    unfold passed_over in Hq.
    destruct (Path._get_value_from_path data q) as [cv err] eqn:E.
    simpl in *.
    destruct (Path.is_none cv) eqn:Hn, (otruthy err) eqn:He;
      simpl in *; try done;
      rewrite IH by done; by rewrite <- ?app_assoc, ?app_nil_r.
Qed.


Lemma yaml_try_paths_all_passed (data : pyval) (paths errs : list string) :
  Forall (fun q => passed_over data q = true) paths ->
  yaml_try_paths data paths errs = (PNone, errs ++ errors_of data paths).
Proof.
  intros H. rewrite <- (app_nil_r paths) at 1.
  by rewrite yaml_try_paths_skip.
Qed.

Section WithHost.
Context {W : Type} (rt : Runtime) (h : Host W).

(** The extractor once the file is read: the method decides. *)
Lemma extract_placeholder_value_read (repo_full_name branch file_path
    method : string) (cfg : ExtractionConfig) (w w' : W)
    (fc : FileContentResult) (content : string) :
  get_file_content h repo_full_name file_path (Some branch) w = (fc, w') ->
  otruthy (fc_error fc) = false ->
  fc_content fc = Some content ->
  extract_placeholder_value rt h repo_full_name branch file_path method cfg w
  = (let extracted :=
       if String.eqb method "Regex" then
         extract_regex rt file_path content cfg
       else if String.eqb method "JSON Path" then
         extract_json rt file_path content cfg
       else if String.eqb method "YAML Path" then
         extract_yaml rt file_path content cfg
       else Ok (PNone, Some ("Unsupported extraction method: '" +:+ method
                             +:+ "'.")) in
     let '(extracted_value, err) :=
       match extracted with
       | Ok r => r
       | Raise e => (PNone, Some ("Unexpected error during value extraction: "
                                  +:+ exn_text e))
       end in
     if otruthy err then {| pe_value := None; pe_error := err |}
     else if Path.is_none extracted_value
          then {| pe_value := None; pe_error := None |}
          else {| pe_value := Some (py_str rt extracted_value);
                  pe_error := None |}, w').
Proof.
  intros Hget Herr Hc. unfold extract_placeholder_value.
  rewrite Hget, Herr, Hc. cbv zeta.
  destruct (if String.eqb method "Regex" then _ else _) as [[ev er]|e];
    [|destruct (otruthy _); done].
  destruct (otruthy er); [done|]. by destruct (Path.is_none ev).
Qed.


(** C4, on the code: when every candidate resolves and every value is
    [None], the result is an error, not the result without a value. *)
Theorem yaml_all_null_is_an_error (repo_full_name branch file_path : string)
    (cfg : ExtractionConfig) (w w' : W) (fc : FileContentResult)
    (content : string) (data : pyval) :
  get_file_content h repo_full_name file_path (Some branch) w = (fc, w') ->
  otruthy (fc_error fc) = false ->
  fc_content fc = Some content ->
  yaml_safe_load rt content = Ok data ->
  is_dict_or_list data = true ->
  yaml_path_list (cfg_yaml_path cfg) <> [] ->
  Forall (fun q => Path._get_value_from_path data q = (PNone, None))
         (yaml_path_list (cfg_yaml_path cfg)) ->
  extract_placeholder_value rt h repo_full_name branch file_path "YAML Path"
    cfg w
  = ({| pe_value := None;
        pe_error :=
          Some ("None of the provided YAML paths yielded a non-null value "
                +:+ "from '" +:+ file_path +:+ "'. Tried: "
                +:+ repr_str_list rt (yaml_path_list (cfg_yaml_path cfg))) |},
     w').
Proof.
  intros Hget Herr Hc Hload Hroot Hne Hall.
  rewrite (extract_placeholder_value_read _ _ _ _ _ _ _ _ _ Hget Herr Hc).
  change (String.eqb "YAML Path" "Regex") with false.
  change (String.eqb "YAML Path" "JSON Path") with false.
  change (String.eqb "YAML Path" "YAML Path") with true.
  cbv iota. unfold extract_yaml.
  destruct (yaml_path_list (cfg_yaml_path cfg)) as [|x l] eqn:E; [done|].
  rewrite Hload, Hroot. simpl negb. cbv iota.
  rewrite yaml_try_paths_all_passed; last first.
  { eapply Forall_impl; [exact Hall|]. intros q Hq.
    unfold passed_over. by rewrite Hq. }
  assert (errors_of data (x :: l) = []) as ->.
  { clear -Hall. induction Hall as [|q qs Hq _ IH]; [done|].
    unfold errors_of in *. simpl. rewrite Hq. simpl. exact IH. }
  simpl. done.
Qed.

(** The aggregated message is what the extractor gives when every
    candidate gave an error. *)
Lemma errors_of_all_failed (data : pyval) (paths : list string) :
  Forall (fun q => otruthy (snd (Path._get_value_from_path data q)) = true)
         paths ->
  List.length (errors_of data paths) = List.length paths.
Proof.
  induction 1 as [|q qs Hq _ IH]; [done|].
  unfold errors_of in *. simpl. rewrite Hq. simpl. by rewrite IH.
Qed.

Lemma yaml_all_failed_is_aggregated (file_path content : string)
    (cfg : ExtractionConfig) (data : pyval) :
  yaml_safe_load rt content = Ok data ->
  is_dict_or_list data = true ->
  yaml_path_list (cfg_yaml_path cfg) <> [] ->
  Forall (fun q => otruthy (snd (Path._get_value_from_path data q)) = true)
         (yaml_path_list (cfg_yaml_path cfg)) ->
  extract_yaml rt file_path content cfg
  = Ok (PNone,
        Some ("All YAML paths failed. Errors: ["
              +:+ join "; "
                    (errors_of data (yaml_path_list (cfg_yaml_path cfg)))
              +:+ "]")).
Proof.
  intros Hload Hroot Hne Hall. unfold extract_yaml.
  pose proof (errors_of_all_failed _ _ Hall) as Hlen.
  destruct (yaml_path_list (cfg_yaml_path cfg)) as [|x l] eqn:E; [done|].
  rewrite Hload, Hroot. simpl negb. cbv iota.
  rewrite yaml_try_paths_all_passed; last first.
  { eapply Forall_impl; [exact Hall|]. intros q Hq.
    unfold passed_over. rewrite Hq. by rewrite orb_true_r. }
  rewrite app_nil_l.
  destruct (errors_of data (x :: l)) as [|e es] eqn:Ee; [done|].
  simpl Path.is_none. simpl negb at 1.
  rewrite Hlen, Nat.eqb_refl. done.
Qed.

(** The Regex method once the pattern has matched with the chosen group
    within bounds: the group decides. *)
Lemma extract_regex_matched (file_path content pattern : string)
    (cfg : ExtractionConfig) (m : MatchObj) :
  cfg_pattern cfg = Some pattern ->
  truthy pattern = true ->
  re_search rt pattern content = Ok (Some m) ->
  (0 <= default 0 (cfg_group_index cfg)
   <= Z.of_nat (List.length (m_groups m)))%Z ->
  extract_regex rt file_path content cfg
  = Ok (match match_group m (default 0%Z (cfg_group_index cfg)) with
        | Some s => PStr s
        | None => PNone
        end, None).
Proof.
  intros Hp Ht Hm Hb. unfold extract_regex. rewrite Hp. simpl otruthy.
  rewrite Ht. simpl. rewrite Hm.
  destruct (Z.ltb_spec (default 0%Z (cfg_group_index cfg)) 0); [lia|].
  destruct (Z.ltb_spec (Z.of_nat (List.length (m_groups m)))
              (default 0%Z (cfg_group_index cfg))); [lia|].
  done.
Qed.

End WithHost.


(** The input on which C4 fails: the one path [a] against [{a: null}]. *)
Lemma yaml_all_null_is_an_error_witness :
  let rt := Fixture.runtime [("a: null", PDict [(KStr "a", PNone)])] [] in
  let w := Fixture.world [Fixture.one_repo "o/r" [("cfg.yaml", "a: null")]]
             [] in
  extract_placeholder_value rt Fixture.fake_host "o/r" "main" "cfg.yaml"
    "YAML Path"
    {| cfg_pattern := None; cfg_group_index := None;
       cfg_jsonpath_expression := None;
       cfg_yaml_path := YPList [PStr "a"] |} w
  = ({| pe_value := None;
        pe_error :=
          Some ("None of the provided YAML paths yielded a non-null value "
                +:+ "from 'cfg.yaml'. Tried: ['a']") |}, w).
Proof.
  intros rt w.
  refine (eq_trans
            (yaml_all_null_is_an_error rt Fixture.fake_host "o/r" "main"
               "cfg.yaml" _ w w _ "a: null" (PDict [(KStr "a", PNone)])
               _ _ _ _ _ _ _) _).
  - vm_compute. reflexivity.
  - vm_compute. reflexivity.
  - vm_compute. reflexivity.
  - vm_compute. reflexivity.
  - vm_compute. reflexivity.
  - vm_compute. discriminate.
  - constructor; [vm_compute; reflexivity | constructor].
  - vm_compute. reflexivity.
Defined.

(** One candidate gives an error and one resolves to [null]: the
    message is the one about no value, not the aggregated one. *)
Example yaml_error_and_null :
  let rt := Fixture.runtime [("a: null", PDict [(KStr "a", PNone)])] [] in
  let w := Fixture.world [Fixture.one_repo "o/r" [("cfg.yaml", "a: null")]]
             [] in
  extract_placeholder_value rt Fixture.fake_host "o/r" "main" "cfg.yaml"
    "YAML Path"
    {| cfg_pattern := None; cfg_group_index := None;
       cfg_jsonpath_expression := None;
       cfg_yaml_path := YPList [PStr "b"; PStr "a"] |} w
  = ({| pe_value := None;
        pe_error :=
          Some ("None of the provided YAML paths yielded a non-null value "
                +:+ "from 'cfg.yaml'. Tried: ['b', 'a']") |}, w).
Proof. vm_compute. reflexivity. Qed.

(** The sibling method: a JSON path that resolves to [null] gives the
    result without a value and without an error. *)
Example json_null_is_no_value :
  let rt := Fixture.runtime [("[null]", PList [PNone])] [] in
  let w := Fixture.world [Fixture.one_repo "o/r" [("cfg.json", "[null]")]] []
  in
  extract_placeholder_value rt Fixture.fake_host "o/r" "main" "cfg.json"
    "JSON Path"
    {| cfg_pattern := None; cfg_group_index := None;
       cfg_jsonpath_expression := Some "0"; cfg_yaml_path := YPOther |} w
  = ({| pe_value := None; pe_error := None |}, w).
Proof. vm_compute. reflexivity. Qed.

End ExtractFacts.

(** ** The placeholder resolver *)

Module ResolverFacts.
Import PyStr GithubUtils ActionProcessing Notions.

Section WithHost.
Context {W : Type} (rt : Runtime) (h : Host W).

Lemma resolve_loop_skip (repo_info : Repository) (d : PlaceholderDefinition)
    (rest : list PlaceholderDefinition) (m : gmap string string)
    (log : list string) (w : W) :
  is_valid d = false ->
  resolve_loop rt h repo_info (d :: rest) m log w
  = resolve_loop rt h repo_info rest m (log ++ [warning_line d]) w.
Proof.
  unfold is_valid. intros Hv. simpl.
  destruct (truthy (ph_name d)), (truthy (ph_file_path d)),
    (truthy (ph_method d)); simpl in *; done.
Qed.

Lemma resolve_loop_error (repo_info : Repository) (d : PlaceholderDefinition)
    (rest : list PlaceholderDefinition) (m : gmap string string)
    (log : list string) (w w' : W) (r : PlaceholderExtractionResult) :
  is_valid d = true ->
  extract_for rt h repo_info d w = (r, w') ->
  otruthy (pe_error r) = true ->
  resolve_loop rt h repo_info (d :: rest) m log w
  = ((m, log ++ [error_line d r], false), w').
Proof.
  unfold is_valid, extract_for. intros Hv He Herr. simpl.
  destruct (truthy (ph_name d)), (truthy (ph_file_path d)),
    (truthy (ph_method d)); simpl in *; try done.
  rewrite He, Herr. done.
Qed.

Lemma resolve_loop_store (repo_info : Repository) (d : PlaceholderDefinition)
    (rest : list PlaceholderDefinition) (m : gmap string string)
    (log : list string) (w w' : W) (r : PlaceholderExtractionResult) :
  is_valid d = true ->
  extract_for rt h repo_info d w = (r, w') ->
  otruthy (pe_error r) = false ->
  resolve_loop rt h repo_info (d :: rest) m log w
  = resolve_loop rt h repo_info rest (<[ph_name d := stored_value r]> m)
      (log ++ [info_line d r]) w'.
Proof.
  unfold is_valid, extract_for. intros Hv He Herr. simpl.
  destruct (truthy (ph_name d)), (truthy (ph_file_path d)),
    (truthy (ph_method d)); simpl in *; try done.
  rewrite He, Herr. done.
Qed.

(** The loop on a list in two parts: the second part runs from where the
    first one ends, unless the first one failed. *)
Lemma resolve_loop_app (repo_info : Repository)
    (pre rest : list PlaceholderDefinition) (m : gmap string string)
    (log : list string) (w : W) :
  resolve_loop rt h repo_info (pre ++ rest) m log w
  = match resolve_loop rt h repo_info pre m log w with
    | ((m1, log1, true), w1) => resolve_loop rt h repo_info rest m1 log1 w1
    | res => res
    end.
Proof.
  revert m log w. induction pre as [|d pre IH]; intros m log w; [done|].
  destruct (is_valid d) eqn:Hv.
  - destruct (extract_for rt h repo_info d w) as [r w'] eqn:He.
    destruct (otruthy (pe_error r)) eqn:Herr.
    + change ((d :: pre) ++ rest) with (d :: (pre ++ rest)).
      by rewrite !(resolve_loop_error _ _ _ _ _ _ _ _ Hv He Herr).
    + change ((d :: pre) ++ rest) with (d :: (pre ++ rest)).
      rewrite !(resolve_loop_store _ _ _ _ _ _ _ _ Hv He Herr). apply IH.
  - change ((d :: pre) ++ rest) with (d :: (pre ++ rest)).
    rewrite !(resolve_loop_skip _ _ _ _ _ _ Hv). apply IH.
Qed.

(** A key that no definition bears is left as it was. *)
Lemma resolve_loop_other_key (repo_info : Repository)
    (defs : list PlaceholderDefinition) (m m' : gmap string string)
    (log log' : list string) (ok : bool) (w w' : W) (k : string) :
  Forall (fun d => ph_name d <> k) defs ->
  resolve_loop rt h repo_info defs m log w = ((m', log', ok), w') ->
  m' !! k = m !! k.
Proof.
  revert m log w. induction defs as [|d defs IH]; intros m log w Hk Hres.
  - simpl in Hres. by inversion Hres.
  - inversion Hk as [|? ? Hd Hdefs]; subst.
    destruct (is_valid d) eqn:Hv.
    + destruct (extract_for rt h repo_info d w) as [r w1] eqn:He.
      destruct (otruthy (pe_error r)) eqn:Herr.
      * rewrite (resolve_loop_error _ _ _ _ _ _ _ _ Hv He Herr) in Hres.
        by inversion Hres.
      * rewrite (resolve_loop_store _ _ _ _ _ _ _ _ Hv He Herr) in Hres.
        rewrite (IH _ _ _ Hdefs Hres). by rewrite lookup_insert_ne.
    + rewrite (resolve_loop_skip _ _ _ _ _ _ Hv) in Hres.
      by apply (IH _ _ _ Hdefs Hres).
Qed.

(** C8: the first extractor error ends the resolution for the repository:
    the result is a failure, it holds what the definitions before the
    failing one left, and neither the result nor the host depends on the
    definitions after it; a definition with an empty name, file path or
    method is passed over with a warning and the resolution goes on. *)
Theorem first_extractor_error_aborts (repo_info : Repository)
    (pre post : list PlaceholderDefinition) (d : PlaceholderDefinition)
    (timestamp_str : string) (m1 : gmap string string) (log1 : list string)
    (w0 w1 : W) :
  _resolve_all_placeholders_for_repo rt h repo_info pre timestamp_str w0
  = ((m1, log1, true), w1) ->
  (forall r w2,
      is_valid d = true ->
      extract_for rt h repo_info d w1 = (r, w2) ->
      otruthy (pe_error r) = true ->
      _resolve_all_placeholders_for_repo rt h repo_info (pre ++ d :: post)
        timestamp_str w0
      = ((m1, log1 ++ [error_line d r], false), w2))
  /\ (is_valid d = false ->
      _resolve_all_placeholders_for_repo rt h repo_info (pre ++ d :: post)
        timestamp_str w0
      = resolve_loop rt h repo_info post m1 (log1 ++ [warning_line d]) w1).
Proof.
  unfold _resolve_all_placeholders_for_repo. intros Hpre. split.
  - intros r w2 Hv He Herr. rewrite resolve_loop_app, Hpre.
    by apply resolve_loop_error.
  - intros Hv. rewrite resolve_loop_app, Hpre. by apply resolve_loop_skip.
Qed.

(** C1, amended: a reserved key holds its built-in value as long as no
    definition bears its name, and a successfully resolved definition
    stores its value under its name, whatever the name is. *)
Theorem reserved_key_kept_unless_redefined (repo_info : Repository)
    (timestamp_str : string) :
  (forall defs k m log ok w w',
      k ∈ reserved_keys ->
      Forall (fun d => ph_name d <> k) defs ->
      _resolve_all_placeholders_for_repo rt h repo_info defs timestamp_str w
      = ((m, log, ok), w') ->
      m !! k = builtin_placeholders repo_info timestamp_str !! k)
  /\ (forall pre d m1 log1 w0 w1 r w2,
        _resolve_all_placeholders_for_repo rt h repo_info pre timestamp_str w0
        = ((m1, log1, true), w1) ->
        is_valid d = true ->
        extract_for rt h repo_info d w1 = (r, w2) ->
        otruthy (pe_error r) = false ->
        _resolve_all_placeholders_for_repo rt h repo_info (pre ++ [d])
          timestamp_str w0
        = ((<[ph_name d := stored_value r]> m1, log1 ++ [info_line d r],
            true), w2)).
Proof.
  unfold _resolve_all_placeholders_for_repo. split.
  - intros defs k m log ok w w' _ Hk Hres.
    by apply (resolve_loop_other_key _ _ _ _ _ _ _ _ _ _ Hk Hres).
  - intros pre d m1 log1 w0 w1 r w2 Hpre Hv He Herr.
    rewrite resolve_loop_app, Hpre.
    by rewrite (resolve_loop_store _ _ _ _ _ _ _ _ Hv He Herr).
Qed.

End WithHost.
Section UnmatchedGroup.
Context {W : Type} (rt : Runtime) (h : Host W).

(** C10: when the pattern matches and the chosen group, within bounds,
    took no part in the match, the extractor returns neither a value nor
    an error, and the resolver stores the empty string for the
    placeholder. *)
Theorem unmatched_group_gives_empty_placeholder (repo_info : Repository)
    (d : PlaceholderDefinition) (pattern content timestamp_str : string)
    (m : MatchObj) (fc : FileContentResult) (w w' : W) :
  is_valid d = true ->
  ph_method d = "Regex" ->
  get_file_content h (full_name repo_info) (ph_file_path d)
    (Some (default_branch repo_info)) w = (fc, w') ->
  otruthy (fc_error fc) = false ->
  fc_content fc = Some content ->
  cfg_pattern (ph_config d) = Some pattern ->
  truthy pattern = true ->
  re_search rt pattern content = Ok (Some m) ->
  (0 <= default 0 (cfg_group_index (ph_config d))
   <= Z.of_nat (List.length (m_groups m)))%Z ->
  match_group m (default 0%Z (cfg_group_index (ph_config d))) = None ->
  extract_for rt h repo_info d w
  = ({| pe_value := None; pe_error := None |}, w')
  /\ _resolve_all_placeholders_for_repo rt h repo_info [d] timestamp_str w
     = ((<[ph_name d := ""]> (builtin_placeholders repo_info timestamp_str),
         ["- INFO: Placeholder '" +:+ braces (ph_name d) +:+ "' (from '"
          +:+ ph_file_path d +:+ "') resolved to: ''"], true), w').
Proof.
  intros Hv Hmeth Hget Herr Hc Hp Ht Hm Hb Hg.
  assert (He : extract_for rt h repo_info d w
               = ({| pe_value := None; pe_error := None |}, w')).
  { unfold extract_for.
    rewrite (ExtractFacts.extract_placeholder_value_read rt h _ _ _ _ _ _ _ _
               _ Hget Herr Hc).
    rewrite Hmeth. change (String.eqb "Regex" "Regex") with true. cbv iota.
    rewrite (ExtractFacts.extract_regex_matched rt _ _ _ _ _ Hp Ht Hm Hb).
    rewrite Hg. done. }
  split; [exact He|].
  unfold _resolve_all_placeholders_for_repo.
  rewrite (resolve_loop_store rt h _ _ _ _ _ _ _ _ Hv He eq_refl). done.
Qed.

End UnmatchedGroup.

Import Examples.

Lemma unmatched_group_gives_empty_placeholder_witness :
  extract_for version_runtime Fixture.fake_host repo_r (ph_version "rc" 2)
    version_world
  = ({| pe_value := None; pe_error := None |}, version_world)
  /\ _resolve_all_placeholders_for_repo version_runtime Fixture.fake_host
       repo_r [ph_version "rc" 2] "20240101-000000" version_world
     = ((<["rc" := ""]> (builtin_placeholders repo_r "20240101-000000"),
         ["- INFO: Placeholder '{{rc}}' (from 'VERSION') resolved to: ''"],
         true), version_world).
Proof.
  eapply (unmatched_group_gives_empty_placeholder version_runtime
            Fixture.fake_host repo_r (ph_version "rc" 2) "v(\d+)(-rc)?" "v12"
            "20240101-000000"
            {| m_group0 := "v12"; m_groups := [Some "12"; None] |}).
  - vm_compute. reflexivity.
  - vm_compute. reflexivity.
  - vm_compute. reflexivity.
  - vm_compute. reflexivity.
  - vm_compute. reflexivity.
  - vm_compute. reflexivity.
  - vm_compute. reflexivity.
  - vm_compute. reflexivity.
  - vm_compute. split; discriminate.
  - vm_compute. reflexivity.
Defined.

Lemma first_extractor_error_aborts_witness :
  _resolve_all_placeholders_for_repo version_runtime Fixture.fake_host repo_r
    ([ph_version "version" 1] ++ ph_missing_file :: [ph_version "rc" 2])
    "20240101-000000" version_world
  = ((<["version" := "12"]>
        (builtin_placeholders repo_r "20240101-000000"),
      ["- INFO: Placeholder '{{version}}' (from 'VERSION') resolved to: '12'";
       "- ERROR: Could not resolve placeholder '{{owner}}' from 'CODEOWNERS': "
       +:+ "Failed to get file 'CODEOWNERS': File 'CODEOWNERS' not found in "
       +:+ "branch 'main' of o/r.. This repository will be skipped."],
      false), version_world)
  /\ _resolve_all_placeholders_for_repo version_runtime Fixture.fake_host
       repo_r ([ph_version "version" 1] ++ ph_no_path :: [ph_version "n" 1])
       "20240101-000000" version_world
     = resolve_loop version_runtime Fixture.fake_host repo_r
         [ph_version "n" 1]
         (<["version" := "12"]>
            (builtin_placeholders repo_r "20240101-000000"))
         (["- INFO: Placeholder '{{version}}' (from 'VERSION') resolved to: "
           +:+ "'12'"] ++ [warning_line ph_no_path])
         version_world.
Proof.
  assert (Hpre :
    _resolve_all_placeholders_for_repo version_runtime Fixture.fake_host
      repo_r [ph_version "version" 1] "20240101-000000" version_world
    = ((<["version" := "12"]>
          (builtin_placeholders repo_r "20240101-000000"),
        ["- INFO: Placeholder '{{version}}' (from 'VERSION') resolved to: "
         +:+ "'12'"], true), version_world)).
  { vm_compute. reflexivity. }
  split.
  - destruct (first_extractor_error_aborts version_runtime Fixture.fake_host
                repo_r [ph_version "version" 1] [ph_version "rc" 2]
                ph_missing_file "20240101-000000" _ _ _ _ Hpre)
      as [Habort _].
    refine (eq_trans (Habort _ _ _ _ _) _).
    + vm_compute. reflexivity.
    + vm_compute. reflexivity.
    + vm_compute. reflexivity.
    + vm_compute. reflexivity.
  - destruct (first_extractor_error_aborts version_runtime Fixture.fake_host
                repo_r [ph_version "version" 1] [ph_version "n" 1]
                ph_no_path "20240101-000000" _ _ _ _ Hpre)
      as [_ Hskip].
    apply Hskip. vm_compute. reflexivity.
Defined.

(** The resolution goes on after the definition that was passed over. *)
Example skipped_definition_does_not_abort :
  let '(_, _, ok, _) :=
    _resolve_all_placeholders_for_repo version_runtime Fixture.fake_host
      repo_r ([ph_version "version" 1] ++ ph_no_path :: [ph_version "n" 1])
      "20240101-000000" version_world in
  ok = true.
Proof. vm_compute. reflexivity. Qed.

(** C1, as stated, fails: a placeholder named [repo_name] that resolves
    replaces the name of the repository. *)
Lemma reserved_key_overridden_counterexample :
  let '(m, _, ok, _) :=
    _resolve_all_placeholders_for_repo version_runtime Fixture.fake_host
      repo_r [ph_version "repo_name" 1] "20240101-000000" version_world in
  ok = true
  /\ builtin_placeholders repo_r "20240101-000000" !! "repo_name" = Some "r"
  /\ m !! "repo_name" = Some "12".
Proof. vm_compute. repeat split; reflexivity. Qed.

Lemma reserved_key_kept_unless_redefined_witness :
  (fst (fst (fst (_resolve_all_placeholders_for_repo version_runtime
                    Fixture.fake_host repo_r [ph_version "version" 1]
                    "20240101-000000" version_world)))) !! "repo_name"
  = Some "r"
  /\ _resolve_all_placeholders_for_repo version_runtime Fixture.fake_host
       repo_r ([] ++ [ph_version "repo_name" 1]) "20240101-000000"
       version_world
     = ((<["repo_name" := "12"]>
           (builtin_placeholders repo_r "20240101-000000"),
         [] ++ [info_line (ph_version "repo_name" 1)
                  {| pe_value := Some "12"; pe_error := None |}], true),
        version_world).
Proof.
  destruct (reserved_key_kept_unless_redefined version_runtime
              Fixture.fake_host repo_r "20240101-000000") as [Hkept Hset].
  split.
  - destruct (_resolve_all_placeholders_for_repo version_runtime
                Fixture.fake_host repo_r [ph_version "version" 1]
                "20240101-000000" version_world)
      as [[[m log] ok] w'] eqn:E.
    simpl. rewrite (Hkept [ph_version "version" 1] "repo_name" m log ok
                      version_world w').
    + vm_compute. reflexivity.
    + vm_compute. left.
    + repeat constructor. discriminate.
    + exact E.
  - apply (Hset [] (ph_version "repo_name" 1) _ [] version_world version_world
             {| pe_value := Some "12"; pe_error := None |} version_world).
    + vm_compute. reflexivity.
    + vm_compute. reflexivity.
    + vm_compute. reflexivity.
    + vm_compute. reflexivity.
Defined.

End ResolverFacts.

(** ** The executors *)

Module ExecutorFacts.
Import PyStr GithubUtils ActionProcessing Notions BatchNotions.

Section WithHost.
Context {W : Type} (rt : Runtime) (h : Host W).

Lemma appends_one_intro (repo_info : Repository) (batch : list ActionResult)
    (r : ActionResult) (w : W) :
  ar_repo r = name repo_info ->
  appends_one repo_info batch (Ok (append_result batch r), w).
Proof. intros H. exists r. done. Qed.

Lemma appends_one_weaken (repo_info : Repository) (batch : list ActionResult)
    (res : outcome (list ActionResult) * W) :
  appends_one repo_info batch res -> appends_one_or_raises repo_info batch res.
Proof. intros H. by right. Qed.

Lemma raises_intro (repo_info : Repository) (batch : list ActionResult)
    (e : exn) (w : W) :
  appends_one_or_raises repo_info batch (Raise e, w).
Proof. left. by exists e. Qed.


(** Whatever the pull-request step answers, Remove reports success. *)
Lemma remove_finalize_success (repo_info : Repository) (log : list string)
    (pr : PullRequestResult) :
  ar_success (remove_finalize repo_info log pr) = true.
Proof. unfold remove_finalize. by case_match. Qed.



Lemma add_on_branch_appends (repo_info : Repository) (repo_api : RepoObj)
    (params : list (string * string)) (path content branch : string)
    (log : list string) (batch : list ActionResult) (w : W) :
  appends_one repo_info batch
    (add_on_branch rt h repo_info repo_api params path content branch log
       batch w).
Proof.
  unfold add_on_branch.
  repeat first [ apply appends_one_intro; reflexivity | case_match ].
Qed.

Lemma add_body_appends_or_raises (defs : list PlaceholderDefinition)
    (form : AddForm) (ts : string) (repo_info : Repository)
    (batch : list ActionResult) (w : W) :
  appends_one_or_raises repo_info batch
    (add_body rt h defs form ts repo_info batch w).
Proof.
  unfold add_body.
  repeat first
    [ apply raises_intro
    | apply appends_one_weaken, appends_one_intro; reflexivity
    | apply appends_one_weaken, add_on_branch_appends
    | case_match ].
Qed.

Lemma update_finalize_appends (form : UpdateForm) (repo_info : Repository)
    (branch : string) (st : FileLoopState) (batch : list ActionResult)
    (w : W) :
  appends_one repo_info batch
    (update_finalize h form repo_info branch st batch w).
Proof.
  unfold update_finalize.
  repeat first [ apply appends_one_intro; reflexivity | case_match ].
Qed.

Lemma update_on_targets_appends (form : UpdateForm) (ts part : string)
    (repo_info : Repository) (repo_api : RepoObj)
    (resolved_ph : gmap string string) (targets : list TargetFile)
    (log : list string) (batch : list ActionResult) (w : W) :
  appends_one repo_info batch
    (update_on_targets rt h form ts part repo_info repo_api resolved_ph
       targets log batch w).
Proof.
  unfold update_on_targets.
  repeat first
    [ apply appends_one_intro; reflexivity
    | apply update_finalize_appends
    | case_match ].
Qed.

Lemma update_body_appends_or_raises (defs : list PlaceholderDefinition)
    (form : UpdateForm) (ts : string) (repo_info : Repository)
    (batch : list ActionResult) (w : W) :
  appends_one_or_raises repo_info batch
    (update_body rt h defs form ts repo_info batch w).
Proof.
  unfold update_body.
  repeat first
    [ apply raises_intro
    | apply appends_one_weaken, appends_one_intro; reflexivity
    | apply appends_one_weaken, update_on_targets_appends
    | case_match ].
Qed.


Lemma for_each_repo_partial
    (body : Repository -> list ActionResult -> W ->
            outcome (list ActionResult) * W)
    (repos : list Repository) (batch l : list ActionResult) (w w' : W) :
  (forall r b w, appends_one_or_raises r b (body r b w)) ->
  for_each_repo body repos batch w = (Ok l, w') ->
  exists results,
    l = batch ++ results /\ map ar_repo results = map name repos.
Proof.
  intros Hbody. revert batch w.
  induction repos as [|repo repos IH]; intros batch w Hrun.
  - simpl in Hrun. inversion Hrun; subst. exists []. by rewrite app_nil_r.
  - simpl in Hrun.
    destruct (Hbody repo batch w) as [[e He]|[r [Hr Hname]]];
      destruct (body repo batch w) as [o w1]; simpl in *; subst o; [done|].
    destruct (IH _ _ Hrun) as [results [-> Hnames]].
    exists (r :: results). split.
    + by rewrite <- app_assoc.
    + simpl. by rewrite Hname, Hnames.
Qed.


(** Add and Update do so whenever they return. *)
Theorem add_one_result_per_repository_if_it_returns
    (repos : list Repository) (defs : list PlaceholderDefinition)
    (form : AddForm) (ts : string) (w w' : W) (results : list ActionResult) :
  execute_add_new_file_action rt h repos defs form ts w = (Ok results, w') ->
  map ar_repo results = map name repos.
Proof.
  unfold execute_add_new_file_action. intros Hrun.
  destruct (for_each_repo_partial _ _ _ _ _ _
              (add_body_appends_or_raises defs form ts) Hrun)
    as [rs [-> Hnames]].
  done.
Qed.

Theorem update_one_result_per_repository_if_it_returns
    (repos : list Repository) (defs : list PlaceholderDefinition)
    (form : UpdateForm) (ts : string) (w w' : W)
    (results : list ActionResult) :
  execute_update_file_action rt h repos defs form ts w = (Ok results, w') ->
  map ar_repo results = map name repos.
Proof.
  unfold execute_update_file_action. intros Hrun.
  destruct (for_each_repo_partial _ _ _ _ _ _
              (update_body_appends_or_raises defs form ts) Hrun)
    as [rs [-> Hnames]].
  done.
Qed.

(** One file of the loop over the targets either counts as updated or
    marks the repository as failed; neither mark is ever taken back. *)
Lemma update_one_file_marks (form : UpdateForm) (repo_info : Repository)
    (repo_api : RepoObj) (resolved_ph : gmap string string) (branch : string)
    (target : TargetFile) (st st' : FileLoopState) (w w' : W) :
  update_one_file rt h form repo_info repo_api resolved_ph branch target st w
  = (st', w') ->
  (any_file_updated_in_repo st' = true
   \/ all_file_ops_successful_in_repo st' = false)
  /\ (all_file_ops_successful_in_repo st = false ->
      all_file_ops_successful_in_repo st' = false).
Proof.
  unfold update_one_file. intros H.
  repeat case_match; inversion H; subst; simpl; split; auto.
Qed.

Lemma update_files_failed_stays (form : UpdateForm) (repo_info : Repository)
    (repo_api : RepoObj) (resolved_ph : gmap string string) (branch : string)
    (targets : list TargetFile) (st st' : FileLoopState) (w w' : W) :
  update_files rt h form repo_info repo_api resolved_ph branch targets st w
  = (st', w') ->
  all_file_ops_successful_in_repo st = false ->
  all_file_ops_successful_in_repo st' = false.
Proof.
  revert st w. induction targets as [|t targets IH]; intros st w H Hst.
  - simpl in H. by inversion H; subst.
  - simpl in H.
    destruct (update_one_file rt h form repo_info repo_api resolved_ph branch
                t st w) as [st1 w1] eqn:E.
    apply (IH _ _ H).
    by apply (update_one_file_marks _ _ _ _ _ _ _ _ _ _ E).
Qed.

Lemma update_files_updated_stays (form : UpdateForm) (repo_info : Repository)
    (repo_api : RepoObj) (resolved_ph : gmap string string) (branch : string)
    (targets : list TargetFile) (st st' : FileLoopState) (w w' : W) :
  update_files rt h form repo_info repo_api resolved_ph branch targets st w
  = (st', w') ->
  any_file_updated_in_repo st = true ->
  any_file_updated_in_repo st' = true.
Proof.
  revert st w. induction targets as [|t targets IH]; intros st w H Hst.
  - simpl in H. by inversion H; subst.
  - simpl in H.
    destruct (update_one_file rt h form repo_info repo_api resolved_ph branch
                t st w) as [st1 w1] eqn:E.
    apply (IH _ _ H). revert E. unfold update_one_file. intros E.
    repeat case_match; inversion E; subst; simpl; auto.
Qed.

(** When the loop over a non-empty list of targets ends with no file
    counted as updated, the repository is marked as failed: the branch
    that makes no pull request never reports a success. *)
Lemma no_file_updated_is_a_failure (form : UpdateForm)
    (repo_info : Repository) (repo_api : RepoObj)
    (resolved_ph : gmap string string) (branch : string)
    (targets : list TargetFile) (st st' : FileLoopState) (w w' : W) :
  targets <> [] ->
  update_files rt h form repo_info repo_api resolved_ph branch targets st w
  = (st', w') ->
  any_file_updated_in_repo st' = false ->
  all_file_ops_successful_in_repo st' = false.
Proof.
  intros Hne H Hany. destruct targets as [|t targets]; [done|].
  simpl in H.
  destruct (update_one_file rt h form repo_info repo_api resolved_ph branch
              t st w) as [st1 w1] eqn:E.
  destruct (update_one_file_marks _ _ _ _ _ _ _ _ _ _ E) as [[Hu|Hf] _].
  - rewrite (update_files_updated_stays _ _ _ _ _ _ _ _ _ _ H Hu) in Hany.
    done.
  - by apply (update_files_failed_stays _ _ _ _ _ _ _ _ _ _ H).
Qed.

(** The answer of [create_pull_request] to "No commits between". *)
Lemma create_pull_request_no_commits (repo_full_name head_branch base_branch
    title body : string) (repo : RepoObj) (e : exn) (w w1 w2 w3 : W) :
  h_get_repo h repo_full_name w = (Ok repo, w1) ->
  h_get_pulls h repo (ro_owner_login repo +:+ ":" +:+ head_branch) base_branch
    w1 = (Ok [], w2) ->
  h_create_pull h repo title body head_branch base_branch w2 = (Raise e, w3) ->
  is_github e = true ->
  contains "No commits between" (pr_error_detail e) = true ->
  contains "and" (pr_error_detail e) = true ->
  create_pull_request h repo_full_name head_branch base_branch title body w
  = ({| pr_html_url := None;
        pr_message :=
          Some ("No new commits in '" +:+ head_branch
                +:+ "' to create a Pull Request against '" +:+ base_branch
                +:+ "'. " +:+ pr_error_detail e) |}, w3).
Proof.
  intros Hrepo Hpulls Hcreate Hg Hc1 Hc2. unfold create_pull_request.
  rewrite Hrepo, Hpulls. simpl. rewrite Hcreate.
  unfold create_pull_request_handler. by rewrite Hg, Hc1, Hc2.
Qed.

(** Without a URL from the pull-request step, Update reports a failure
    once a file was updated, and Add does so once the file was added. *)
Lemma update_finalize_without_url (form : UpdateForm)
    (repo_info : Repository) (branch : string) (st : FileLoopState)
    (batch : list ActionResult) (w w' : W) (pr : PullRequestResult) :
  any_file_updated_in_repo st = true ->
  create_pull_request h (full_name repo_info) branch (default_branch repo_info)
    (Template.process_placeholders_in_string (uf_pr_title_input form)
       (per_file_resolved_ph st))
    (Template.process_placeholders_in_string (uf_pr_body_input form)
       (per_file_resolved_ph st)) w = (pr, w') ->
  pr_html_url pr = None ->
  exists r,
    update_finalize h form repo_info branch st batch w
    = (Ok (batch ++ [r]), w')
    /\ ar_success r = false /\ ar_pr_url r = None.
Proof.
  intros Hany Hpr Hurl. unfold update_finalize. rewrite Hany. simpl.
  rewrite Hpr, Hurl. simpl.
  destruct (all_file_ops_successful_in_repo st); simpl;
    [destruct (otruthy (pr_message pr))|]; eexists; split; try reflexivity;
    done.
Qed.

Lemma add_on_branch_without_url (repo_info : Repository)
    (repo_api : RepoObj) (params : list (string * string))
    (path content branch : string) (log : list string)
    (batch : list ActionResult) (w w1 w2 : W) (added : FileUpdateResult)
    (pr : PullRequestResult) :
  update_file rt h repo_api path content
    (default "" (params_get params "commit_message")) branch None
    "Replace entire content" None None false true None false w
  = (added, w1) ->
  fu_success added = true ->
  create_pull_request h (full_name repo_info) branch (default_branch repo_info)
    (default "" (params_get params "pr_title"))
    (default "" (params_get params "pr_body")) w1 = (pr, w2) ->
  pr_html_url pr = None ->
  exists r,
    add_on_branch rt h repo_info repo_api params path content branch log
      batch w
    = (Ok (batch ++ [r]), w2)
    /\ ar_success r = false /\ ar_pr_url r = None.
Proof.
  intros Hadd Hok Hpr Hurl. unfold add_on_branch.
  rewrite Hadd, Hok. simpl. rewrite Hpr, Hurl. simpl.
  destruct (otruthy (pr_message pr)); eexists; split; try reflexivity; done.
Qed.

End WithHost.
Import Fixture Examples Batches Flaky.

(** C2, on the code.  The action runs on the default branch, so the file
    operation succeeds and the host answers the pull request with "No
    commits between main and main".  Remove reports the repository as a
    success without a URL; Update and Add report it as a failure. *)
Theorem no_commits_is_a_failure_for_update_and_add :
  create_pull_request fake_host "o/r" "main" "main" "t" "b" readme_world
  = ({| pr_html_url := None;
        pr_message :=
          Some ("No new commits in 'main' to create a Pull Request against "
                +:+ "'main'. No commits between main and main") |},
     readme_world)
  /\ report (execute_remove_file_action no_runtime fake_host [repo_r] []
               remove_on_main "20240101-000000" readme_world)
     = Ok [("r", true, None)]
  /\ report (execute_update_file_action no_runtime fake_host [repo_r] []
               update_on_main "20240101-000000" readme_world)
     = Ok [("r", false, None)]
  /\ report (execute_add_new_file_action no_runtime fake_host [repo_r] []
               (add_form "main") "20240101-000000" readme_world)
     = Ok [("r", false, None)].
Proof. repeat split; vm_compute; reflexivity. Qed.

(** The file operations of those three runs did succeed: the host holds
    the commits. *)
Example no_commits_runs_changed_the_branch :
  fw_calls (snd (execute_update_file_action no_runtime fake_host [repo_r] []
                   update_on_main "20240101-000000" readme_world))
  = ["update_file README.md on main"]
  /\ fw_calls (snd (execute_add_new_file_action no_runtime fake_host [repo_r]
                      [] (add_form "main") "20240101-000000" readme_world))
     = ["create_file NEW.md on main"]
  /\ fw_calls (snd (execute_remove_file_action no_runtime fake_host [repo_r]
                      [] remove_on_main "20240101-000000" readme_world))
     = ["delete_file README.md on main"].
Proof. repeat split; vm_compute; reflexivity. Qed.


(** C9, on the code.  The host answers 404 for the first repository of the
    batch.  Remove and Update report it as a failure and go on with the
    second; Add raises from within its handler (lines 641-644) and returns
    no list at all, though the second repository alone is processed
    well. *)
Theorem add_aborts_the_batch_on_a_missing_repository :
  report (execute_add_new_file_action no_runtime fake_host [repo_r; repo_s]
            [] (add_form "feature") "20240101-000000"
            gone_then_present_world)
  = Raise not_found
  /\ report (execute_add_new_file_action no_runtime fake_host [repo_s] []
               (add_form "feature") "20240101-000000" gone_then_present_world)
     = Ok [("s", true, Some "https://github.com/o/s/pull/1")]
  /\ report (execute_remove_file_action no_runtime fake_host [repo_r; repo_s]
               [] remove_on_main "20240101-000000" gone_then_present_world)
     = Ok [("r", false, None); ("s", true, None)]
  /\ report (execute_update_file_action no_runtime fake_host [repo_r; repo_s]
               [] update_on_main "20240101-000000" gone_then_present_world)
     = Ok [("r", false, None); ("s", false, None)].
Proof. repeat split; vm_compute; reflexivity. Qed.

(** Update leaves the batch too when the look-up of the target path in
    multi-file mode fails with an exception that is not a
    [GithubException] (lines 772-799 have no handler for it). *)
Example update_aborts_the_batch_on_a_connection_error :
  report (execute_update_file_action no_runtime (flaky_host "docs")
            [repo_r; repo_s] [] update_under_docs "20240101-000000"
            docs_world)
  = Raise (OtherException "Connection aborted.")
  /\ report (execute_update_file_action no_runtime fake_host
               [repo_r; repo_s] [] update_under_docs "20240101-000000"
               docs_world)
     = Ok [("r", true, Some "https://github.com/o/r/pull/1");
           ("s", true, Some "https://github.com/o/s/pull/2")].
Proof. repeat split; vm_compute; reflexivity. Qed.

End ExecutorFacts.

(** * Further properties of the code *)

(** ** Substitution, token by token *)

(** The 256 characters, one by one. *)
Ltac each_character c :=
  let b0 := fresh in let b1 := fresh in let b2 := fresh in
  let b3 := fresh in let b4 := fresh in let b5 := fresh in
  let b6 := fresh in let b7 := fresh in
  destruct c as [b0 b1 b2 b3 b4 b5 b6 b7];
  destruct b0, b1, b2, b3, b4, b5, b6, b7.

Module SubstitutionFacts.
Import PyStr Template StrFacts TemplateFacts MoreNotions.

Lemma match_token_not_brace (c : ascii) (s : string) :
  not_brace c = true -> match_token (String c s) = None.
Proof.
  unfold not_brace. intros H. apply negb_true_iff, Ascii.eqb_neq in H.
  unfold match_token.
  each_character c; try done.
Qed.

Lemma tokenize_literal_prefix (pre s : string) :
  all_chars not_brace pre = true ->
  tokenize (pre +:+ s) = map Lit (list_ascii_of_string pre) ++ tokenize s.
Proof.
  induction pre as [|c pre IH]; intros H; [done|].
  simpl in H. apply andb_prop in H as [Hc H].
  rewrite app_cons, tokenize_nomatch by by apply match_token_not_brace.
  simpl. by rewrite IH.
Qed.

Lemma render_literals (M : gmap string string) (pre : string) :
  render M (map Lit (list_ascii_of_string pre)) = pre.
Proof.
  unfold render. induction pre as [|c pre IH]; [done|].
  simpl. by rewrite IH.
Qed.

(** X1: a token whose name is a key is replaced by the value of the key,
    whatever white space stands inside its braces; the text before it, when
    it holds no opening brace, is copied, and the scan goes on after the
    token, so that the value itself is not scanned again. *)
Theorem known_token_is_replaced_by_its_value (pre g0 n rest v : string)
    (M : gmap string string) :
  all_chars not_brace pre = true ->
  is_token g0 n ->
  M !! n = Some v ->
  process_placeholders_in_string (pre +:+ g0 +:+ rest) M
  = pre +:+ v +:+ process_placeholders_in_string rest M.
Proof.
  intros Hpre Htok Hv. unfold process_placeholders_in_string.
  rewrite tokenize_literal_prefix by done.
  rewrite (tokenize_match (g0 +:+ rest) g0 n rest)
    by by apply match_token_is_token.
  rewrite render_app, render_literals. f_equal.
  unfold render. simpl. by rewrite Hv.
Qed.

Lemma known_token_is_replaced_by_its_value_witness :
  process_placeholders_in_string ("docs/" +:+ "{{ name }}" +:+ ".md {{x}}")
    (<["name" := "{{x}}"]> {[ "x" := "1" ]})
  = "docs/" +:+ "{{x}}"
    +:+ process_placeholders_in_string ".md {{x}}"
          (<["name" := "{{x}}"]> {[ "x" := "1" ]}).
Proof.
  apply (known_token_is_replaced_by_its_value "docs/" "{{ name }}" "name"
           ".md {{x}}" "{{x}}").
  - reflexivity.
  - exists " ", " ". repeat split; done.
  - reflexivity.
Defined.

End SubstitutionFacts.

(** ** Navigation along a dotted path *)

Module PathFacts.
Import PyStr Template Path StrFacts MoreNotions.

Lemma split_cons (sep : ascii) (s : string) :
  exists h t, split sep s = h :: t.
Proof.
  induction s as [|c s [h [t IH]]]; simpl; [by eexists _, _|].
  destruct (Ascii.eqb c sep); [by eexists _, _|].
  rewrite IH. by eexists _, _.
Qed.

(** Splitting at a separator that joins two texts. *)
Lemma split_app (sep : ascii) (p q : string) :
  split sep (p +:+ String sep q) = split sep p ++ split sep q.
Proof.
  induction p as [|c p IH].
  - rewrite app_nil_l. simpl. by rewrite Ascii.eqb_refl.
  - rewrite app_cons. simpl. destruct (Ascii.eqb c sep); [by rewrite IH|].
    rewrite IH. by destruct (split_cons sep p) as [h [t ->]].
Qed.

Lemma split_no_dot (s : string) :
  all_chars not_dot s = true -> split "." s = [s].
Proof.
  induction s as [|c s IH]; simpl; [done|].
  intros [Hc Hs]%andb_prop. unfold not_dot in Hc.
  apply negb_true_iff in Hc. rewrite Hc. by rewrite IH.
Qed.










(** *** Indices: [int(key)] reads back what [str] writes *)

Lemma all_chars_impl (p q : ascii -> bool) (s : string) :
  (forall c, p c = true -> q c = true) ->
  all_chars p s = true -> all_chars q s = true.
Proof.
  intros Hpq. induction s as [|c s IH]; simpl; [done|].
  intros [Hc Hs]%andb_prop. by rewrite (Hpq c Hc), IH.
Qed.

Lemma digit_char (x : N) :
  (x < 10)%N -> digit_of (pretty_N_char x) = Some (Z.of_N x).
Proof.
  intros H.
  assert (x = 0 ∨ x = 1 ∨ x = 2 ∨ x = 3 ∨ x = 4 ∨ x = 5 ∨ x = 6 ∨ x = 7
          ∨ x = 8 ∨ x = 9)%N as Hx by lia.
  repeat destruct Hx as [->|Hx]; try subst x; reflexivity.
Qed.

Lemma pretty_N_go_digits (x : N) (s : string) :
  all_chars is_digit s = true -> all_chars is_digit (pretty_N_go x s) = true.
Proof.
  revert s. induction (N.lt_wf_0 x) as [x _ IH]; intros s Hs.
  assert (x = 0 ∨ 0 < x)%N as [->|Hx] by lia; [by rewrite pretty_N_go_0|].
  rewrite pretty_N_go_step by done. apply IH; [by apply N.div_lt|].
  simpl. rewrite Hs, andb_true_r. unfold is_digit.
  rewrite digit_char; [done|]. by apply N.mod_lt.
Qed.

Lemma pretty_N_go_value (x : N) (s : string) (b : bool) :
  (0 < x)%N ->
  digits_go 0 b (pretty_N_go x s) = digits_go (Z.of_N x) true s.
Proof.
  revert s b. induction (N.lt_wf_0 x) as [x _ IH]; intros s b Hx.
  rewrite pretty_N_go_step by done.
  pose proof (N.Div0.div_mod x 10) as Hdm.
  destruct (N.eq_dec (x / 10) 0) as [H0|Hpos].
  - rewrite H0, pretty_N_go_0. simpl.
    rewrite digit_char by by apply N.mod_lt.
    f_equal. lia.
  - rewrite IH; [|by apply N.div_lt|by apply N.neq_0_lt_0]. simpl.
    rewrite digit_char by by apply N.mod_lt.
    f_equal. lia.
Qed.

Lemma pretty_N_digits (x : N) : all_chars is_digit (pretty x) = true.
Proof.
  unfold pretty, pretty_N. case_decide; [done|]. by apply pretty_N_go_digits.
Qed.

Lemma pretty_N_value (x : N) (b : bool) :
  digits_go 0 b (pretty x) = Some (Z.of_N x).
Proof.
  unfold pretty, pretty_N. case_decide as Hx; [by subst|].
  rewrite pretty_N_go_value by lia. done.
Qed.

Lemma digit_not_space (c : ascii) : is_digit c = true -> is_space c = false.
Proof. each_character c; done. Qed.

Lemma digit_not_dot (c : ascii) : is_digit c = true -> not_dot c = true.
Proof. each_character c; done. Qed.

Lemma rstrip_no_space (s : string) :
  all_chars (fun c => negb (is_space c)) s = true -> rstrip s = s.
Proof.
  induction s as [|c s IH]; simpl; [done|].
  intros [Hc Hs]%andb_prop. apply negb_true_iff in Hc.
  by rewrite Hc, IH.
Qed.

Lemma strip_no_space (s : string) :
  all_chars (fun c => negb (is_space c)) s = true -> strip s = s.
Proof.
  intros H. unfold strip.
  assert (lstrip s = s) as ->; [|by apply rstrip_no_space].
  destruct s as [|c s]; [done|]. simpl in *.
  apply andb_prop in H as [Hc _]. apply negb_true_iff in Hc. by rewrite Hc.
Qed.

Lemma parse_int_digits (s : string) :
  all_chars is_digit s = true -> parse_int s = digits_go 0 false s.
Proof.
  intros H. unfold parse_int. rewrite strip_no_space.
  - destruct s as [|c s]; [done|]. simpl in H.
    apply andb_prop in H as [Hc _].
    each_character c; done.
  - eapply all_chars_impl; [|exact H].
    intros c Hc. by rewrite digit_not_space.
Qed.

(** [int(str(z)) == z] *)
Lemma parse_int_str_of_Z (z : Z) : parse_int (str_of_Z z) = Some z.
Proof.
  unfold str_of_Z, pretty, pretty_Z. destruct z as [|p|p].
  - done.
  - rewrite parse_int_digits by apply pretty_N_digits.
    apply (pretty_N_value (N.pos p)).
  - unfold parse_int. rewrite strip_no_space.
    + rewrite app_cons, app_nil_l. cbv iota beta.
      change (pretty p) with (pretty (N.pos p)).
      by rewrite pretty_N_value.
    + rewrite app_cons, app_nil_l. simpl.
      eapply all_chars_impl; [|apply (pretty_N_digits (N.pos p))].
      intros c Hc. by rewrite digit_not_space.
Qed.

Lemma str_of_Z_no_dot (z : Z) : all_chars not_dot (str_of_Z z) = true.
Proof.
  unfold str_of_Z, pretty, pretty_Z. destruct z as [|p|p].
  - done.
  - eapply all_chars_impl; [exact digit_not_dot|].
    apply (pretty_N_digits (N.pos p)).
  - rewrite app_cons, app_nil_l. simpl.
    eapply all_chars_impl; [exact digit_not_dot|].
    apply (pretty_N_digits (N.pos p)).
Qed.

(** X4: in a list, the decimal text of an integer selects the element at
    that position, counted from 0; a negative integer, or one that is not
    below the length, gives the out-of-bounds error and no value: indices
    are never counted from the end. *)
Theorem decimal_index_selects_the_element (l : list pyval) (z : Z) :
  _get_value_from_path (PList l) (str_of_Z z)
  = match (if (0 <=? z)%Z then l !! Z.to_nat z else None) with
    | Some x => (x, None)
    | None =>
        (PNone,
         Some ("Index " +:+ str_of_Z z +:+ " out of bounds for key '"
               +:+ str_of_Z z +:+ "' in path '" +:+ str_of_Z z +:+ "'"))
    end.
Proof.
  unfold _get_value_from_path.
  rewrite split_no_dot by apply str_of_Z_no_dot.
  simpl. rewrite parse_int_str_of_Z.
  destruct (Z.leb_spec 0 z) as [Hz|Hz]; simpl; [|done].
  destruct (Z.ltb_spec z (Z.of_nat (List.length l))) as [Hlt|Hge].
  - by destruct (l !! Z.to_nat z).
  - rewrite (proj2 (lookup_ge_None l (Z.to_nat z))); [done|]. lia.
Qed.

End PathFacts.

(** ** The results of the utility functions *)

Module UtilityFacts.
Import PyStr GithubUtils StrFacts MoreNotions.

Section WithHost.
Context {W : Type} (rt : Runtime) (h : Host W).


(** X6: a result of [create_pull_request] that carries no URL always
    carries a message that is not empty, whatever the host answered. *)
Theorem pull_request_without_url_has_a_message (repo_full_name head_branch
    base_branch title body : string) (w : W) :
  is_Some (pr_html_url
             (create_pull_request h repo_full_name head_branch base_branch
                title body w).1)
  \/ exists m,
       pr_message
         (create_pull_request h repo_full_name head_branch base_branch
            title body w).1 = Some m
       /\ m <> "".
Proof.
  unfold create_pull_request, create_pull_request_handler, pr_api_error,
    pr_exists.
  repeat case_match; simpl in *; simplify_eq;
    first [ by left | right; eexists; split; [reflexivity | discriminate] ].
Qed.

Ltac well_formed :=
  repeat case_match; simpl in *; simplify_eq; try done;
  (split; [reflexivity | first [done | by eexists]]).

Lemma check_target_branch_wf (repo : RepoObj) (file_path branch_name : string)
    (w w' : W) (r : FileUpdateResult) :
  check_target_branch h repo file_path branch_name w = (inl r, w') ->
  well_formed_update r.
Proof.
  unfold check_target_branch, well_formed_update, update_fail. intros H.
  well_formed.
Qed.

Lemma content_for_search_replace_wf (repo : RepoObj) (file_path branch_name
    : string) (file_exists_on_branch : bool)
    (search_string replace_with_string : option string)
    (is_regex replace_all : bool) (fallback : option string) (w w' : W)
    (r : FileUpdateResult) :
  content_for_search_replace rt h repo file_path branch_name
    file_exists_on_branch search_string replace_with_string is_regex
    replace_all fallback w = (inl r, w') ->
  well_formed_update r.
Proof.
  unfold content_for_search_replace, fetch_target_content,
    fetch_fallback_content, search_replace, well_formed_update, update_fail.
  intros H. well_formed.
Qed.

Lemma force_update_retry_wf (repo : RepoObj) (file_path commit_message
    branch_name content : string) (sha : option string) (w : W) :
  well_formed_update
    (force_update_retry h repo file_path commit_message branch_name content
       sha w).1.
Proof.
  unfold force_update_retry, well_formed_update, update_fail. well_formed.
Qed.

Lemma write_file_wf (repo : RepoObj) (file_path commit_message branch_name
    content : string) (sha : option string) (update_mode : string)
    (force_update : bool) (w : W) :
  well_formed_update
    (write_file h repo file_path commit_message branch_name content sha
       update_mode force_update w).1.
Proof.
  unfold write_file.
  repeat case_match; simpl in *; simplify_eq;
    try apply force_update_retry_wf;
    unfold well_formed_update, update_fail; simpl;
    (split; [reflexivity | first [done | by eexists]]).
Qed.

(** X7: every result of [update_file] carries a message that is not empty,
    and it carries the SHA of the written file exactly when it reports
    success. *)
Theorem update_result_is_well_formed (repo : RepoObj) (file_path
    new_content_str commit_message branch_name : string)
    (current_sha_from_app : option string) (update_mode : string)
    (search_string replace_with_string : option string)
    (is_regex replace_all : bool)
    (default_branch_for_sr_fallback : option string) (force_update : bool)
    (w : W) :
  well_formed_update
    (update_file rt h repo file_path new_content_str commit_message
       branch_name current_sha_from_app update_mode search_string
       replace_with_string is_regex replace_all
       default_branch_for_sr_fallback force_update w).1.
Proof.
  unfold update_file.
  destruct (check_target_branch h repo file_path branch_name w)
    as [[r|[sha ex]] w1] eqn:Hcheck.
  { by apply check_target_branch_wf in Hcheck. }
  destruct (String.eqb update_mode "Search and replace string").
  - destruct (content_for_search_replace rt h repo file_path branch_name ex
                search_string replace_with_string is_regex replace_all
                default_branch_for_sr_fallback w1) as [[r|c] w2] eqn:Hc.
    + by apply content_for_search_replace_wf in Hc.
    + apply write_file_wf.
  - destruct (String.eqb update_mode "Replace entire content").
    + apply write_file_wf.
    + unfold well_formed_update, update_fail. simpl. by split.
Qed.

(** X8: outside the mode "Search and replace string" the flag
    [force_update] changes nothing: the result and the calls on the host
    are the same with and without it. *)
Theorem force_update_only_in_search_and_replace (repo : RepoObj) (file_path
    new_content_str commit_message branch_name : string)
    (current_sha_from_app : option string) (update_mode : string)
    (search_string replace_with_string : option string)
    (is_regex replace_all : bool)
    (default_branch_for_sr_fallback : option string) (w : W) :
  update_mode <> "Search and replace string" ->
  update_file rt h repo file_path new_content_str commit_message
    branch_name current_sha_from_app update_mode search_string
    replace_with_string is_regex replace_all default_branch_for_sr_fallback
    true w
  = update_file rt h repo file_path new_content_str commit_message
      branch_name current_sha_from_app update_mode search_string
      replace_with_string is_regex replace_all
      default_branch_for_sr_fallback false w.
Proof.
  intros Hmode. apply String.eqb_neq in Hmode.
  unfold update_file. rewrite Hmode.
  destruct (check_target_branch h repo file_path branch_name w)
    as [[r|[sha ex]] w1]; [done|].
  destruct (String.eqb update_mode "Replace entire content"); [|done].
  unfold write_file. rewrite Hmode.
  match goal with
  | |- context [let '(_, _) := ?x in _] => destruct x as [[e|r] w2]
  end; [|done].
  by rewrite !andb_false_r.
Qed.

(** X9: a result of [extract_placeholder_value] with an error has a text
    that is not empty for it and no value; so a value only comes without
    an error. *)
Theorem extraction_error_excludes_value (repo_full_name branch file_path
    extraction_method : string) (extraction_config : ExtractionConfig)
    (w : W) :
  match pe_error (extract_placeholder_value rt h repo_full_name branch
                    file_path extraction_method extraction_config w).1 with
  | Some e =>
      e <> ""
      /\ pe_value (extract_placeholder_value rt h repo_full_name branch
                     file_path extraction_method extraction_config w).1
         = None
  | None => True
  end.
Proof.
  unfold extract_placeholder_value, extraction_error.
  destruct (get_file_content h repo_full_name file_path (Some branch) w)
    as [fc w1].
  destruct (otruthy (fc_error fc)); [simpl; by split|].
  destruct (fc_content fc) as [content|]; [|simpl; by split].
  match goal with
  | |- context [let '(_, _) := ?x in _] => destruct x as [v [e|]]
  end; simpl.
  - destruct (truthy e) eqn:He; simpl; [|by destruct (Path.is_none v)].
    split; [|done]. by destruct e.
  - by destruct (Path.is_none v).
Qed.

(** *** Trimming twice is trimming once *)

Lemma rstrip_idem (s : string) : rstrip (rstrip s) = rstrip s.
Proof.
  induction s as [|c s IH]; simpl; [done|].
  destruct (is_space c && is_empty (rstrip s)) eqn:E; [done|].
  simpl. by rewrite IH, E.
Qed.

Lemma lstrip_head (s : string) :
  match lstrip s with
  | String c _ => is_space c = false
  | EmptyString => True
  end.
Proof.
  induction s as [|c s IH]; simpl; [done|].
  destruct (is_space c) eqn:E; [exact IH | exact E].
Qed.

Lemma strip_idem (s : string) : strip (strip s) = strip s.
Proof.
  unfold strip. pose proof (lstrip_head s) as H.
  destruct (lstrip s) as [|c u]; [done|].
  assert (rstrip (String c u) = String c (rstrip u)) as Hr.
  { simpl. by rewrite H. }
  rewrite Hr. simpl lstrip. rewrite H. rewrite <- Hr. apply rstrip_idem.
Qed.

(** X10: for the method "YAML Path", a configuration that holds one path
    as a text gives what the list of that one path, trimmed, gives. *)
Theorem yaml_single_path_is_a_one_element_list (repo_full_name branch
    file_path : string) (pattern : option string) (group_index : option Z)
    (jsonpath_expression : option string) (path : string) (w : W) :
  extract_placeholder_value rt h repo_full_name branch file_path "YAML Path"
    {| cfg_pattern := pattern; cfg_group_index := group_index;
       cfg_jsonpath_expression := jsonpath_expression;
       cfg_yaml_path := YPStr path |} w
  = extract_placeholder_value rt h repo_full_name branch file_path
      "YAML Path"
      {| cfg_pattern := pattern; cfg_group_index := group_index;
         cfg_jsonpath_expression := jsonpath_expression;
         cfg_yaml_path := YPList [PStr (strip path)] |} w.
Proof.
  assert (yaml_path_list (YPStr path)
          = yaml_path_list (YPList [PStr (strip path)])) as Hlist.
  { simpl. rewrite strip_idem. by destruct (truthy (strip path)). }
  unfold extract_placeholder_value.
  destruct (get_file_content h repo_full_name file_path (Some branch) w)
    as [fc w1].
  destruct (otruthy (fc_error fc)); [done|].
  destruct (fc_content fc) as [content|]; [|done].
  change (String.eqb "YAML Path" "Regex") with false.
  change (String.eqb "YAML Path" "JSON Path") with false.
  change (String.eqb "YAML Path" "YAML Path") with true.
  cbv iota. unfold extract_yaml.
  change (cfg_yaml_path {| cfg_pattern := pattern;
                           cfg_group_index := group_index;
                           cfg_jsonpath_expression := jsonpath_expression;
                           cfg_yaml_path := YPStr path |})
    with (YPStr path).
  change (cfg_yaml_path {| cfg_pattern := pattern;
                           cfg_group_index := group_index;
                           cfg_jsonpath_expression := jsonpath_expression;
                           cfg_yaml_path := YPList [PStr (strip path)] |})
    with (YPList [PStr (strip path)]).
  by rewrite Hlist.
Qed.

(** *** The files the locator hands over *)

Lemma search_loop_bound (repo : RepoObj) (target_branch : string)
    (items : list string) (count : nat) (found : list ContentFile) (w : W) :
  match (search_loop h repo target_branch items count found w).1 with
  | Ok l => (List.length l + count <= List.length found + 100)%nat
            \/ (List.length l = List.length found)
  | Raise _ => True
  end.
Proof.
  revert count found w.
  induction items as [|item items IH]; intros count found w;
    cbn -[Nat.leb].
  - by right.
  - destruct (Nat.leb_spec 100 count) as [Hc|Hc]; [by right|].
    destruct (h_get_contents h repo item target_branch w) as [[[f|d]|e] w1].
    + specialize (IH (S count) (found ++ [f]) w1).
      destruct (search_loop h repo target_branch items (S count)
                  (found ++ [f]) w1).1; [|done].
      rewrite List.length_app in IH.
      change (List.length [f]) with 1%nat in IH. left. lia.
    + specialize (IH (S count) found w1).
      destruct (search_loop h repo target_branch items (S count) found w1).1;
        [|done].
      left. lia.
    + destruct (is_github e); [|done]. apply IH.
Qed.

Lemma tree_loop_bound (repo : RepoObj) (target_branch search_dir
    filename_filter_input : string) (tree : list TreeElement)
    (found : list ContentFile) (w : W) :
  (List.length found < 200)%nat ->
  match (tree_loop rt h repo target_branch search_dir filename_filter_input
           tree found w).1 with
  | Ok l => (List.length l <= 200)%nat
  | Raise _ => True
  end.
Proof.
  revert found w.
  induction tree as [|element tree IH]; intros found w Hlen;
    cbn -[Nat.leb].
  - lia.
  - destruct (String.eqb (te_type element) "blob"); [|by apply IH].
    destruct (outside_search_dir search_dir (te_path element)); [by apply IH|].
    destruct (fnmatch rt (basename (te_path element)) filename_filter_input);
      [|by apply IH].
    destruct (h_get_contents h repo (te_path element) target_branch w)
      as [[[f|d]|e] w1].
    + destruct (Nat.leb_spec 200 (List.length (found ++ [f]))) as [Hc|Hc].
      * cbn [fst]. rewrite List.length_app.
        change (List.length [f]) with 1%nat. lia.
      * by apply IH.
    + destruct (Nat.leb_spec 200 (List.length found)) as [Hc|Hc];
        [lia | by apply IH].
    + destruct (is_github e); [by apply IH | done].
Qed.

Lemma small_is_bounded (n : nat) (b : bool) :
  (n <= 1)%nat -> (n <= if b then 100 else 200)%nat.
Proof. destruct b; lia. Qed.

Lemma files_error_bounded (msg : string) (b : bool) :
  (List.length (tf_files (files_error msg)) <= if b then 100 else 200)%nat
  /\ (tf_error (files_error msg) <> None -> tf_files (files_error msg) = []).
Proof. split; [apply small_is_bounded; simpl; lia | done]. Qed.

Lemma direct_path_probe_bound (repo : RepoObj) (repo_full_name target_branch
    target_path_input content_query_input : string) (w : W) :
  match (direct_path_probe h repo repo_full_name target_branch
           target_path_input content_query_input w).1 with
  | Ok (Some r) =>
      (List.length (tf_files r) <= 1)%nat
      /\ (tf_error r <> None -> tf_files r = [])
  | _ => True
  end.
Proof.
  unfold direct_path_probe, files_error, files_found.
  repeat case_match; simpl in *; simplify_eq; try done;
    (split; [cbn [tf_files List.length]; lia | done]).
Qed.

(** X11: whenever [find_target_files] returns, it hands over at most 100
    files when a content query is given and at most 200 otherwise, and no
    file at all together with an error. *)
Theorem located_files_are_bounded (repo_full_name target_branch
    target_path_input filename_filter_input content_query_input : string)
    (w : W) :
  match (find_target_files rt h repo_full_name target_branch
           target_path_input filename_filter_input content_query_input
           w).1 with
  | Ok r =>
      (List.length (tf_files r)
       <= if truthy content_query_input then 100 else 200)%nat
      /\ (tf_error r <> None -> tf_files r = [])
  | Raise _ => True
  end.
Proof.
  unfold find_target_files.
  destruct (h_get_repo h repo_full_name w) as [[repo|e] w1].
  2:{ destruct (is_unknown_object e); [|destruct (is_github e)];
      apply files_error_bounded. }
  assert (match (if truthy target_path_input
                    && negb (ends_with_char "/" target_path_input)
                 then direct_path_probe h repo repo_full_name target_branch
                        target_path_input content_query_input w1
                 else (Ok None, w1)).1 with
          | Ok (Some r) =>
              (List.length (tf_files r) <= 1)%nat
              /\ (tf_error r <> None -> tf_files r = [])
          | _ => True
          end) as Hprobe.
  { destruct (truthy target_path_input
              && negb (ends_with_char "/" target_path_input)); [|done].
    apply direct_path_probe_bound. }
  destruct (if truthy target_path_input
               && negb (ends_with_char "/" target_path_input)
            then direct_path_probe h repo repo_full_name target_branch
                   target_path_input content_query_input w1
            else (Ok None, w1)) as [[[r|]|e] w2]; [| |done].
  - simpl in *. destruct Hprobe as [H1 H2]. split; [|done].
    by apply small_is_bounded.
  - cbn [fst]. destruct (truthy content_query_input).
    + unfold find_by_content.
      destruct (h_search_code h _ w2) as [[results|e] w3].
      * pose proof (search_loop_bound repo target_branch results 0 [] w3) as Hb.
        destruct (search_loop h repo target_branch results 0 [] w3)
          as [[found|e] w4]; cbn [fst] in *.
        -- split; [|done]. cbn [tf_files files_found List.length] in *.
           destruct Hb as [Hb|Hb]; lia.
        -- destruct (is_github e);
             apply (files_error_bounded _ true).
      * destruct (is_github e); apply (files_error_bounded _ true).
    + destruct (truthy filename_filter_input);
        [|apply (files_error_bounded _ false)].
      unfold find_by_name.
      destruct (h_get_branch h repo target_branch w2) as [[sha|e] w3].
      2:{ destruct (is_github e); apply (files_error_bounded _ false). }
      destruct (h_get_git_tree h repo sha w3) as [[tree|e] w4].
      2:{ destruct (is_github e); apply (files_error_bounded _ false). }
      destruct tree as [|t0 tree]; [apply (files_error_bounded _ false)|].
      pose proof (tree_loop_bound repo target_branch
                    (if truthy target_path_input
                     then strip_char "/" target_path_input else "")
                    filename_filter_input (t0 :: tree) [] w4) as Hb.
      destruct (tree_loop rt h repo target_branch _ filename_filter_input
                  (t0 :: tree) [] w4) as [[found|e] w5]; cbn [fst] in *.
      * split; [|done]. apply Hb. cbn [List.length]. lia.
      * destruct (is_github e); apply (files_error_bounded _ false).
Qed.

End WithHost.

Lemma force_update_only_in_search_and_replace_witness :
  update_file Batches.no_runtime Fixture.fake_host
    {| ro_full_name := "o/r"; ro_owner_login := "o";
       ro_default_branch := Some "main" |}
    "README.md" "bye" "Update README.md" "main" None "Replace entire content"
    None None false true (Some "main") true Batches.readme_world
  = update_file Batches.no_runtime Fixture.fake_host
      {| ro_full_name := "o/r"; ro_owner_login := "o";
         ro_default_branch := Some "main" |}
      "README.md" "bye" "Update README.md" "main" None
      "Replace entire content" None None false true (Some "main") false
      Batches.readme_world.
Proof.
  apply force_update_only_in_search_and_replace. discriminate.
Defined.

End UtilityFacts.

(** ** The calls a function makes on the host *)

Module FrameFacts.
Import PyStr GithubUtils ActionProcessing Frame.

Section WithHost.
Context {W O : Type} (rt : Runtime) (h : Host W) (obs : W -> O).

Lemma keeps_eq {A : Type} (op : W -> A * W) (w w' : W) (a : A) :
  keeps obs op -> op w = (a, w') -> obs w' = obs w.
Proof. intros Hk Heq. specialize (Hk w). by rewrite Heq in Hk. Qed.

(** Turns every equation [op w = (a, w')] of the context, for an
    operation known to keep [obs], into [obs w' = obs w]. *)
Ltac kept :=
  repeat match goal with
         | H : ?op ?w = (_, ?w') |- _ =>
             apply (keeps_eq op w w') in H; [|solve [auto]]
         end.

Ltac frame := repeat case_match; simplify_eq; kept; simpl; congruence.

Section Reads.
Hypothesis get_repo_keeps : forall n, keeps obs (h_get_repo h n).
Hypothesis get_contents_keeps :
  forall r p ref, keeps obs (h_get_contents h r p ref).

Lemma get_file_content_keeps (repo_full_name file_path : string)
    (branch : option string) :
  keeps obs (get_file_content h repo_full_name file_path branch).
Proof. intros w. unfold get_file_content. frame. Qed.

Lemma extract_placeholder_value_keeps (repo_full_name branch file_path
    extraction_method : string) (extraction_config : ExtractionConfig) :
  keeps obs (extract_placeholder_value rt h repo_full_name branch file_path
               extraction_method extraction_config).
Proof.
  intros w. unfold extract_placeholder_value.
  pose proof (get_file_content_keeps repo_full_name file_path (Some branch) w)
    as Hfc.
  destruct (get_file_content h repo_full_name file_path (Some branch) w)
    as [fc w1].
  simpl in Hfc. repeat case_match; simplify_eq; simpl; congruence.
Qed.

Lemma resolve_loop_keeps (repo_info : Repository)
    (defs : list PlaceholderDefinition) (m : gmap string string)
    (log : list string) :
  keeps obs (resolve_loop rt h repo_info defs m log).
Proof.
  revert m log. induction defs as [|d defs IH]; intros m log w; [done|].
  simpl. destruct (_ || _); [apply IH|].
  pose proof (extract_placeholder_value_keeps (full_name repo_info)
                (default_branch repo_info) (ph_file_path d) (ph_method d)
                (ph_config d) w) as Hx.
  destruct (extract_placeholder_value rt h (full_name repo_info)
              (default_branch repo_info) (ph_file_path d) (ph_method d)
              (ph_config d) w) as [r w1].
  simpl in Hx. destruct (otruthy (pe_error r)); [done|].
  rewrite IH. exact Hx.
Qed.

Lemma resolve_all_keeps (repo_info : Repository)
    (defined_placeholders : list PlaceholderDefinition)
    (timestamp_str : string) :
  keeps obs (_resolve_all_placeholders_for_repo rt h repo_info
               defined_placeholders timestamp_str).
Proof. intros w. apply resolve_loop_keeps. Qed.

(** X12: resolving the placeholders of a repository only reads: it calls
    the host through [get_repo] and [get_contents] and nothing else, so
    whatever these two leave untouched, it leaves untouched. *)
Theorem resolution_only_reads (repo_info : Repository)
    (defined_placeholders : list PlaceholderDefinition)
    (timestamp_str : string) (w : W) :
  obs (_resolve_all_placeholders_for_repo rt h repo_info defined_placeholders
         timestamp_str w).2
  = obs w.
Proof. apply resolve_all_keeps. Qed.

Hypothesis get_branch_keeps : forall r b, keeps obs (h_get_branch h r b).

Section Locating.
Hypothesis search_code_keeps : forall q, keeps obs (h_search_code h q).
Hypothesis get_git_tree_keeps :
  forall r sha, keeps obs (h_get_git_tree h r sha).

Lemma search_loop_keeps (repo : RepoObj) (target_branch : string)
    (items : list string) (count : nat) (found : list ContentFile) :
  keeps obs (search_loop h repo target_branch items count found).
Proof.
  revert count found.
  induction items as [|item items IH]; intros count found w; [done|].
  cbn -[Nat.leb]. destruct (100 <=? count)%nat; [done|].
  destruct (h_get_contents h repo item target_branch w) as [o w1] eqn:Hc.
  kept. destruct o as [[f|d]|e]; [| |destruct (is_github e)];
    rewrite ?IH; simpl; congruence.
Qed.

Lemma tree_loop_keeps (repo : RepoObj) (target_branch search_dir
    filename_filter_input : string) (tree : list TreeElement)
    (found : list ContentFile) :
  keeps obs (tree_loop rt h repo target_branch search_dir
               filename_filter_input tree found).
Proof.
  revert found.
  induction tree as [|element tree IH]; intros found w; [done|].
  cbn -[Nat.leb].
  destruct (String.eqb (te_type element) "blob"); [|apply IH].
  destruct (outside_search_dir search_dir (te_path element)); [apply IH|].
  destruct (fnmatch rt (basename (te_path element)) filename_filter_input);
    [|apply IH].
  destruct (h_get_contents h repo (te_path element) target_branch w)
    as [o w1] eqn:Hc.
  kept. destruct o as [c|e].
  - destruct (200 <=? _)%nat; rewrite ?IH; simpl; congruence.
  - destruct (is_github e); rewrite ?IH; simpl; congruence.
Qed.

Lemma direct_path_probe_keeps (repo : RepoObj) (repo_full_name target_branch
    target_path_input content_query_input : string) :
  keeps obs (direct_path_probe h repo repo_full_name target_branch
               target_path_input content_query_input).
Proof.
  intros w. unfold direct_path_probe.
  destruct (h_get_contents h repo target_path_input target_branch w)
    as [o w1] eqn:Hc.
  kept. destruct o as [[f|d]|e]; [| |repeat case_match; simpl; congruence].
  - destruct (truthy content_query_input); [|simpl; congruence].
    pose proof (get_file_content_keeps repo_full_name (cf_path f)
                  (Some target_branch) w1) as Hfc.
    destruct (get_file_content h repo_full_name (cf_path f)
                (Some target_branch) w1) as [fc w2].
    simpl in Hfc. repeat case_match; simpl; congruence.
  - simpl; congruence.
Qed.

Lemma find_target_files_keeps (repo_full_name target_branch
    target_path_input filename_filter_input content_query_input : string) :
  keeps obs (find_target_files rt h repo_full_name target_branch
               target_path_input filename_filter_input content_query_input).
Proof.
  intros w. unfold find_target_files.
  destruct (h_get_repo h repo_full_name w) as [o w1] eqn:Hr. kept.
  destruct o as [repo|e]; [|repeat case_match; simpl; congruence].
  assert (obs (if truthy target_path_input
                  && negb (ends_with_char "/" target_path_input)
               then direct_path_probe h repo repo_full_name target_branch
                      target_path_input content_query_input w1
               else (Ok None, w1)).2 = obs w1) as Hp.
  { destruct (_ && _); [apply direct_path_probe_keeps | done]. }
  destruct (if truthy target_path_input
               && negb (ends_with_char "/" target_path_input)
            then direct_path_probe h repo repo_full_name target_branch
                   target_path_input content_query_input w1
            else (Ok None, w1)) as [[[r|]|e] w2]; simpl in Hp;
    [simpl; congruence| |simpl; congruence].
  destruct (truthy content_query_input).
  - unfold find_by_content.
    destruct (h_search_code h _ w2) as [o w3] eqn:Hs. kept.
    destruct o as [results|e]; [|simpl; congruence].
    pose proof (search_loop_keeps repo target_branch results 0 [] w3) as Hl.
    destruct (search_loop h repo target_branch results 0 [] w3)
      as [[found|e] w4]; simpl in *; congruence.
  - destruct (truthy filename_filter_input); [|simpl; congruence].
    unfold find_by_name.
    destruct (h_get_branch h repo target_branch w2) as [o w3] eqn:Hb. kept.
    destruct o as [sha|e]; [|simpl; congruence].
    destruct (h_get_git_tree h repo sha w3) as [o w4] eqn:Ht. kept.
    destruct o as [[|t0 tree]|e]; [simpl; congruence| |simpl; congruence].
    match goal with
    | |- context [tree_loop rt h repo target_branch ?d ?f ?t [] w4] =>
        pose proof (tree_loop_keeps repo target_branch d f t [] w4) as Hl;
        destruct (tree_loop rt h repo target_branch d f t [] w4)
          as [[found|e] w5]
    end; simpl in *; congruence.
Qed.

(** X13: looking for the target files only reads: [find_target_files]
    calls the host through [get_repo], [get_contents], [get_branch],
    [search_code] and [get_git_tree] and nothing else. *)
Theorem locating_only_reads (repo_full_name target_branch target_path_input
    filename_filter_input content_query_input : string) (w : W) :
  obs (find_target_files rt h repo_full_name target_branch target_path_input
         filename_filter_input content_query_input w).2
  = obs w.
Proof. apply find_target_files_keeps. Qed.

End Locating.

Section Branching.
Hypothesis get_git_ref_keeps :
  forall r ref, keeps obs (h_get_git_ref h r ref).
Hypothesis create_git_ref_keeps :
  forall r ref sha, keeps obs (h_create_git_ref h r ref sha).
Hypothesis get_pulls_keeps :
  forall r hd b, keeps obs (h_get_pulls h r hd b).
Hypothesis create_pull_keeps :
  forall r t b hd bs, keeps obs (h_create_pull h r t b hd bs).

Lemma create_branch_keeps (repo_full_name new_branch_name
    source_branch_name : string) :
  keeps obs (create_branch h repo_full_name new_branch_name
               source_branch_name).
Proof.
  intros w. unfold create_branch, create_branch_from_source. frame.
Qed.

Lemma create_pull_request_keeps (repo_full_name head_branch base_branch
    title body : string) :
  keeps obs (create_pull_request h repo_full_name head_branch base_branch
               title body).
Proof.
  intros w. unfold create_pull_request, create_pull_request_handler. frame.
Qed.

Lemma create_missing_branch_keeps (repo_info : Repository)
    (branch : string) (log : list string) :
  keeps obs (create_missing_branch h repo_info branch log).
Proof.
  intros w. unfold create_missing_branch.
  pose proof (create_branch_keeps (full_name repo_info) branch
                (default_branch repo_info) w) as Hb.
  by destruct (create_branch h (full_name repo_info) branch
                 (default_branch repo_info) w).
Qed.

Lemma for_each_repo_keeps
    (body : Repository -> list ActionResult -> W ->
            outcome (list ActionResult) * W)
    (repos : list Repository) (batch : list ActionResult) :
  (forall r b, keeps obs (body r b)) ->
  keeps obs (for_each_repo body repos batch).
Proof.
  intros Hbody. revert batch.
  induction repos as [|repo repos IH]; intros batch w; [done|].
  simpl. pose proof (Hbody repo batch w) as Hb.
  destruct (body repo batch w) as [[b|e] w1]; simpl in Hb; [|done].
  by rewrite IH.
Qed.

Section Deleting.
Hypothesis delete_file_keeps :
  forall r p m sha b, keeps obs (h_delete_file h r p m sha b).

Lemma delete_file_keeps_obs (repo_full_name file_path commit_message
    branch_name sha : string) :
  keeps obs (delete_file h repo_full_name file_path commit_message
               branch_name sha).
Proof. intros w. unfold delete_file. frame. Qed.

Lemma remove_on_branch_keeps (repo_info : Repository)
    (params : list (string * string)) (path branch : string)
    (log : list string) (batch : list ActionResult) :
  keeps obs (remove_on_branch h repo_info params path branch log batch).
Proof.
  intros w. unfold remove_on_branch.
  pose proof (get_file_content_keeps (full_name repo_info) path (Some branch)
                w) as Hfc.
  destruct (get_file_content h (full_name repo_info) path (Some branch) w)
    as [fc w1].
  simpl in Hfc. destruct (_ || _); [simpl; congruence|].
  match goal with
  | |- context [delete_file h ?a ?b ?c ?d ?e w1] =>
      pose proof (delete_file_keeps_obs a b c d e w1) as Hd;
      destruct (delete_file h a b c d e w1) as [ds w2]
  end.
  simpl in Hd. destruct (negb (fo_success ds)); [simpl; congruence|].
  match goal with
  | |- context [create_pull_request h ?a ?b ?c ?d ?e w2] =>
      pose proof (create_pull_request_keeps a b c d e w2) as Hp;
      destruct (create_pull_request h a b c d e w2) as [pr w3]
  end.
  simpl in *. congruence.
Qed.

Lemma remove_body_keeps (defs : list PlaceholderDefinition)
    (form : RemoveForm) (ts : string) (repo_info : Repository)
    (batch : list ActionResult) :
  keeps obs (remove_body rt h defs form ts repo_info batch).
Proof.
  intros w. unfold remove_body.
  pose proof (resolve_all_keeps repo_info defs ts w) as Hres.
  destruct (_resolve_all_placeholders_for_repo rt h repo_info defs ts w)
    as [[[resolved ph_log] ph_ok] w1].
  simpl in Hres. destruct (negb ph_ok); [simpl; congruence|].
  destruct (_process_action_params _ resolved _) as [[params plog] m].
  destruct (negb (truthy _)); [simpl; congruence|].
  match goal with
  | |- context [if ?c then (?a, ?l1) else (?b, ?l2)] =>
      destruct (if c then (a, l1) else (b, l2)) as [branch log]
  end.
  destruct (h_get_repo h (full_name repo_info) w1) as [o w2] eqn:Hr. kept.
  destruct o as [repo_api|e].
  - destruct (h_get_git_ref h repo_api ("heads/" +:+ branch) w2)
      as [o w3] eqn:Hg. kept.
    destruct o as [[]|e].
    + rewrite remove_on_branch_keeps. congruence.
    + destruct (is_unknown_object e); [|simpl; congruence].
      pose proof (create_missing_branch_keeps repo_info branch log w3) as Hc.
      destruct (create_missing_branch h repo_info branch log w3)
        as [[log' created] w4].
      simpl in Hc. destruct (negb created); [simpl; congruence|].
      rewrite remove_on_branch_keeps. congruence.
  - destruct (is_unknown_object e); [|simpl; congruence].
    pose proof (create_missing_branch_keeps repo_info branch log w2) as Hc.
    destruct (create_missing_branch h repo_info branch log w2)
      as [[log' created] w4].
    simpl in Hc. destruct (negb created); [simpl; congruence|].
    rewrite remove_on_branch_keeps. congruence.
Qed.

(** X14: the Remove executor never writes the content of a file: it calls
    the host through the reads, [create_git_ref], [delete_file] and
    [create_pull], and never through [update_file] or [create_file]. *)
Theorem remove_never_writes_content (repos : list Repository)
    (defs : list PlaceholderDefinition) (form : RemoveForm) (ts : string)
    (w : W) :
  obs (execute_remove_file_action rt h repos defs form ts w).2 = obs w.
Proof.
  unfold execute_remove_file_action. apply for_each_repo_keeps.
  intros r b. apply remove_body_keeps.
Qed.

End Deleting.

Section Writing.
Hypothesis update_file_keeps :
  forall r p m c sha b, keeps obs (h_update_file h r p m c sha b).
Hypothesis create_file_keeps :
  forall r p m c b, keeps obs (h_create_file h r p m c b).

Lemma check_target_branch_keeps (repo : RepoObj) (file_path branch_name
    : string) :
  keeps obs (check_target_branch h repo file_path branch_name).
Proof. intros w. unfold check_target_branch. frame. Qed.

Lemma content_for_search_replace_keeps (repo : RepoObj) (file_path
    branch_name : string) (file_exists_on_branch : bool)
    (search_string replace_with_string : option string)
    (is_regex replace_all : bool) (fallback : option string) :
  keeps obs (content_for_search_replace rt h repo file_path branch_name
               file_exists_on_branch search_string replace_with_string
               is_regex replace_all fallback).
Proof.
  intros w.
  unfold content_for_search_replace, fetch_target_content,
    fetch_fallback_content.
  frame.
Qed.

Lemma write_file_keeps (repo : RepoObj) (file_path commit_message branch_name
    content : string) (sha : option string) (update_mode : string) :
  keeps obs (write_file h repo file_path commit_message branch_name content
               sha update_mode false).
Proof.
  intros w. unfold write_file.
  match goal with
  | |- context [let '(_, _) := ?x in _] =>
      assert (obs x.2 = obs w) as Hw; [|destruct x as [[e|r] w1]]
  end.
  { frame. }
  - simpl in Hw. destruct (is_github e); [|simpl; congruence].
    rewrite andb_false_r. simpl. congruence.
  - simpl in *. congruence.
Qed.

Lemma update_file_unforced_keeps (repo : RepoObj) (file_path
    new_content_str commit_message branch_name : string)
    (current_sha_from_app : option string) (update_mode : string)
    (search_string replace_with_string : option string)
    (is_regex replace_all : bool)
    (default_branch_for_sr_fallback : option string) :
  keeps obs (update_file rt h repo file_path new_content_str commit_message
               branch_name current_sha_from_app update_mode search_string
               replace_with_string is_regex replace_all
               default_branch_for_sr_fallback false).
Proof.
  intros w. unfold update_file.
  pose proof (check_target_branch_keeps repo file_path branch_name w) as Hc.
  destruct (check_target_branch h repo file_path branch_name w)
    as [[r|[sha ex]] w1]; simpl in Hc; [simpl; congruence|].
  destruct (String.eqb update_mode "Search and replace string").
  - pose proof (content_for_search_replace_keeps repo file_path branch_name
                  ex search_string replace_with_string is_regex replace_all
                  default_branch_for_sr_fallback w1) as Hs.
    destruct (content_for_search_replace rt h repo file_path branch_name ex
                search_string replace_with_string is_regex replace_all
                default_branch_for_sr_fallback w1) as [[r|c] w2];
      simpl in Hs; [simpl; congruence|].
    rewrite write_file_keeps. congruence.
  - destruct (String.eqb update_mode "Replace entire content");
      [|simpl; congruence].
    rewrite write_file_keeps. congruence.
Qed.

(** X15: without [force_update], [update_file] never deletes: it calls the
    host through [get_contents], [update_file] and [create_file] and
    nothing else. *)
Theorem update_without_force_never_deletes (repo : RepoObj) (file_path
    new_content_str commit_message branch_name : string)
    (current_sha_from_app : option string) (update_mode : string)
    (search_string replace_with_string : option string)
    (is_regex replace_all : bool)
    (default_branch_for_sr_fallback : option string) (w : W) :
  obs (update_file rt h repo file_path new_content_str commit_message
         branch_name current_sha_from_app update_mode search_string
         replace_with_string is_regex replace_all
         default_branch_for_sr_fallback false w).2
  = obs w.
Proof. apply update_file_unforced_keeps. Qed.

Lemma add_on_branch_keeps (repo_info : Repository) (repo_api : RepoObj)
    (params : list (string * string)) (path content branch : string)
    (log : list string) (batch : list ActionResult) :
  keeps obs (add_on_branch rt h repo_info repo_api params path content branch
               log batch).
Proof.
  intros w. unfold add_on_branch.
  match goal with
  | |- context [update_file rt h ?a ?b ?c ?d ?e ?f ?g ?i ?j ?k ?l ?m false w]
    =>
      pose proof (update_file_unforced_keeps a b c d e f g i j k l m
                    w) as Hu;
      destruct (update_file rt h a b c d e f g i j k l m false w) as [ur w1]
  end.
  simpl in Hu. destruct (negb (fu_success ur)); [simpl; congruence|].
  match goal with
  | |- context [create_pull_request h ?a ?b ?c ?d ?e w1] =>
      pose proof (create_pull_request_keeps a b c d e w1) as Hp;
      destruct (create_pull_request h a b c d e w1) as [pr w2]
  end.
  simpl in *. congruence.
Qed.

Lemma add_body_keeps (defs : list PlaceholderDefinition) (form : AddForm)
    (ts : string) (repo_info : Repository) (batch : list ActionResult) :
  keeps obs (add_body rt h defs form ts repo_info batch).
Proof.
  intros w. unfold add_body.
  pose proof (resolve_all_keeps repo_info defs ts w) as Hres.
  destruct (_resolve_all_placeholders_for_repo rt h repo_info defs ts w)
    as [[[resolved ph_log] ph_ok] w1].
  simpl in Hres. destruct (negb ph_ok); [simpl; congruence|].
  destruct (_process_action_params _ resolved _) as [[params plog] m].
  match goal with
  | |- context [if ?c then (?a, ?l1) else (?b, ?l2)] =>
      destruct (if c then (a, l1) else (b, l2)) as [branch log]
  end.
  destruct (negb (truthy _)); [simpl; congruence|].
  destruct (h_get_repo h (full_name repo_info) w1) as [o w2] eqn:Hr. kept.
  destruct o as [repo_api|e].
  - destruct (h_get_git_ref h repo_api ("heads/" +:+ branch) w2)
      as [o w3] eqn:Hg. kept.
    destruct o as [[]|e].
    + rewrite add_on_branch_keeps. congruence.
    + destruct (is_unknown_object e); [|simpl; congruence].
      pose proof (create_missing_branch_keeps repo_info branch log w3) as Hc.
      destruct (create_missing_branch h repo_info branch log w3)
        as [[log' created] w4].
      simpl in Hc. destruct (negb created); [simpl; congruence|].
      rewrite add_on_branch_keeps. congruence.
  - destruct (is_unknown_object e); [|simpl; congruence].
    destruct (h_get_repo h (full_name repo_info) w2) as [o w3] eqn:Hr2. kept.
    destruct o as [repo_api|e']; [|simpl; congruence].
    pose proof (create_branch_keeps (full_name repo_info) branch
                  (default_branch repo_info) w3) as Hc.
    destruct (create_branch h (full_name repo_info) branch
                (default_branch repo_info) w3) as [br w4].
    simpl in Hc. destruct (negb (bo_success br)); [simpl; congruence|].
    rewrite add_on_branch_keeps. congruence.
Qed.

(** X16: the Add executor never deletes a file: it calls the host through
    the reads, [create_git_ref], [update_file], [create_file] and
    [create_pull], and never through [delete_file]. *)
Theorem add_never_deletes (repos : list Repository)
    (defs : list PlaceholderDefinition) (form : AddForm) (ts : string)
    (w : W) :
  obs (execute_add_new_file_action rt h repos defs form ts w).2 = obs w.
Proof.
  unfold execute_add_new_file_action. apply for_each_repo_keeps.
  intros r b. apply add_body_keeps.
Qed.

Section Updating.
Hypothesis search_code_keeps : forall q, keeps obs (h_search_code h q).
Hypothesis get_git_tree_keeps :
  forall r sha, keeps obs (h_get_git_tree h r sha).
Variable form : UpdateForm.
Hypothesis force_is_off : uc_force_update form = false.

Lemma update_one_file_keeps (repo_info : Repository) (repo_api : RepoObj)
    (resolved : gmap string string) (branch : string) (target : TargetFile)
    (st : FileLoopState) :
  keeps obs (update_one_file rt h form repo_info repo_api resolved branch
               target st).
Proof.
  intros w. unfold update_one_file. rewrite force_is_off.
  match goal with
  | |- context [if ?c then false else false] =>
      replace (if c then false else false) with false by by destruct c
  end.
  destruct (if String.eqb (uf_update_mode form) "Replace entire content"
            then _ else _) as [[[[c ss] rs] log]|]; [|done].
  match goal with
  | |- context [update_file rt h ?a ?b ?c ?d ?e ?f ?g ?i ?j ?k ?l ?m false w]
    =>
      pose proof (update_file_unforced_keeps a b c d e f g i j k l m
                    w) as Hu;
      destruct (update_file rt h a b c d e f g i j k l m false w) as [ur w1]
  end.
  simpl in Hu. by destruct (fu_success ur).
Qed.

Lemma update_files_keeps (repo_info : Repository) (repo_api : RepoObj)
    (resolved : gmap string string) (branch : string)
    (targets : list TargetFile) (st : FileLoopState) :
  keeps obs (update_files rt h form repo_info repo_api resolved branch
               targets st).
Proof.
  revert st. induction targets as [|t targets IH]; intros st w; [done|].
  simpl.
  pose proof (update_one_file_keeps repo_info repo_api resolved branch t st w)
    as H1.
  destruct (update_one_file rt h form repo_info repo_api resolved branch t st
              w) as [st1 w1].
  simpl in H1. rewrite IH. exact H1.
Qed.

Lemma update_finalize_keeps (repo_info : Repository) (branch : string)
    (st : FileLoopState) (batch : list ActionResult) :
  keeps obs (update_finalize h form repo_info branch st batch).
Proof.
  intros w. unfold update_finalize.
  destruct (negb (any_file_updated_in_repo st)); [done|].
  match goal with
  | |- context [create_pull_request h ?a ?b ?c ?d ?e w] =>
      pose proof (create_pull_request_keeps a b c d e w) as Hp;
      destruct (create_pull_request h a b c d e w) as [pr w1]
  end.
  simpl in Hp. by repeat case_match.
Qed.

Lemma update_on_targets_keeps (ts part : string) (repo_info : Repository)
    (repo_api : RepoObj) (resolved : gmap string string)
    (targets : list TargetFile) (log : list string)
    (batch : list ActionResult) :
  keeps obs (update_on_targets rt h form ts part repo_info repo_api resolved
               targets log batch).
Proof.
  intros w. unfold update_on_targets.
  destruct (_process_action_params _ _ _) as [[params plog] m].
  match goal with
  | |- context [if ?c then (?a, ?l1) else (?b, ?l2)] =>
      destruct (if c then (a, l1) else (b, l2)) as [branch log1]
  end.
  assert (forall l w0,
             obs (let '(st, w') :=
                    update_files rt h form repo_info repo_api resolved branch
                      targets
                      {| fl_log := l; any_file_updated_in_repo := false;
                         all_file_ops_successful_in_repo := true;
                         per_file_resolved_ph := resolved |} w0 in
                  update_finalize h form repo_info branch st batch w').2
             = obs w0) as Hgo.
  { intros l w0.
    match goal with
    | |- context [update_files rt h form ?a ?b ?c ?d ?e ?f w0] =>
        pose proof (update_files_keeps a b c d e f w0) as Hf;
        destruct (update_files rt h form a b c d e f w0) as [st w1]
    end.
    simpl in Hf. rewrite update_finalize_keeps. exact Hf. }
  destruct (h_get_git_ref h repo_api ("heads/" +:+ branch) w)
    as [o w1] eqn:Hg. kept.
  destruct o as [[]|e].
  - rewrite Hgo. exact Hg.
  - destruct (is_unknown_object e); [|simpl; congruence].
    pose proof (create_missing_branch_keeps repo_info branch log1 w1) as Hc.
    destruct (create_missing_branch h repo_info branch log1 w1)
      as [[log' created] w2].
    simpl in Hc. destruct (negb created); [simpl; congruence|].
    rewrite Hgo. congruence.
Qed.

Lemma single_file_target_keeps (repo_info : Repository)
    (resolved : gmap string string) (path : string) (log : list string) :
  keeps obs (single_file_target h repo_info resolved path log).
Proof.
  intros w. unfold single_file_target.
  destruct (negb (truthy _)); [done|].
  match goal with
  | |- context [get_file_content h ?a ?b ?c w] =>
      pose proof (get_file_content_keeps a b c w) as Hfc;
      destruct (get_file_content h a b c w) as [fc w1]
  end.
  simpl in Hfc. by repeat case_match.
Qed.

Lemma update_body_keeps (defs : list PlaceholderDefinition) (ts : string)
    (repo_info : Repository) (batch : list ActionResult) :
  keeps obs (update_body rt h defs form ts repo_info batch).
Proof.
  intros w. unfold update_body.
  destruct (h_get_repo h (full_name repo_info) w) as [o w1] eqn:Hr. kept.
  destruct o as [repo_api|e]; [|simpl; congruence].
  pose proof (resolve_all_keeps repo_info defs ts w1) as Hres.
  destruct (_resolve_all_placeholders_for_repo rt h repo_info defs ts w1)
    as [[[resolved ph_log] ph_ok] w2].
  simpl in Hres. destruct (negb ph_ok); [simpl; congruence|].
  destruct (truthy (strip (uf_file_path_input form))).
  - match goal with
    | |- context [single_file_target h ?a ?b ?c ?d w2] =>
        pose proof (single_file_target_keeps a b c d w2) as Hs;
        destruct (single_file_target h a b c d w2) as [[log [targets|]] w3]
    end; simpl in Hs; [|simpl; congruence].
    rewrite update_on_targets_keeps. congruence.
  - destruct (_ && _); [simpl; congruence|].
    match goal with
    | |- context [find_target_files rt h ?a ?b ?c ?d ?q w2] =>
        pose proof (find_target_files_keeps search_code_keeps
                      get_git_tree_keeps a b c d q w2) as Hf;
        destruct (find_target_files rt h a b c d q w2) as [[tf|ex] w3]
    end; simpl in Hf; [|simpl; congruence].
    destruct (otruthy (tf_error tf)); [simpl; congruence|].
    destruct (tf_files tf) as [|f files]; [simpl; congruence|].
    rewrite update_on_targets_keeps. congruence.
Qed.

(** X17: with the box "Force update" left unchecked, the Update executor
    never deletes a file, in either mode and however the writes fail. *)
Theorem update_never_deletes_unless_forced (repos : list Repository)
    (defs : list PlaceholderDefinition) (ts : string) (w : W) :
  obs (execute_update_file_action rt h repos defs form ts w).2 = obs w.
Proof.
  unfold execute_update_file_action. apply for_each_repo_keeps.
  intros r b. apply update_body_keeps.
Qed.

End Updating.

End Writing.

End Branching.

End Reads.

End WithHost.

(** *** The small host: its reads change nothing, and each of its
    writes records one call of its kind *)

Section SmallHost.
Import Fixture Calls.
Context {O : Type} (obs : FakeWorld -> O).

Lemma fake_get_repo_keeps (n : string) : keeps obs (fake_get_repo n).
Proof. intros w. unfold fake_get_repo. by case_match. Qed.

Lemma fake_get_git_ref_keeps (r : RepoObj) (ref : string) :
  keeps obs (fake_get_git_ref r ref).
Proof. intros w. unfold fake_get_git_ref. by repeat case_match. Qed.

Lemma fake_get_branch_keeps (r : RepoObj) (b : string) :
  keeps obs (fake_get_branch r b).
Proof. intros w. unfold fake_get_branch. by repeat case_match. Qed.

Lemma fake_get_contents_keeps (r : RepoObj) (p ref : string) :
  keeps obs (fake_get_contents r p ref).
Proof. intros w. unfold fake_get_contents. by repeat case_match. Qed.

Lemma fake_get_pulls_keeps (r : RepoObj) (hd b : string) :
  keeps obs (fake_get_pulls r hd b).
Proof. done. Qed.

Lemma fake_search_code_keeps (q : string) : keeps obs (fake_search_code q).
Proof. done. Qed.

Lemma fake_get_git_tree_keeps (r : RepoObj) (sha : string) :
  keeps obs (fake_get_git_tree r sha).
Proof. intros w. unfold fake_get_git_tree. by repeat case_match. Qed.

End SmallHost.

Section SmallHostWrites.
Import Fixture Calls.

Lemma calls_of_record (kind call : string) (bs : list FakeBranch)
    (ps : list FakePull) (w : FakeWorld) :
  String.prefix kind call = false ->
  calls_of kind (record_call call bs ps w) = calls_of kind w.
Proof.
  intros H. unfold calls_of, record_call. simpl.
  rewrite List.filter_app. simpl. rewrite H. apply List.app_nil_r.
Qed.

Ltac recorded :=
  intros w;
  unfold fake_create_git_ref, fake_delete_file, fake_update_file,
    fake_create_file, fake_create_pull;
  repeat case_match; try done;
  unfold deletions, content_writes; simpl;
  rewrite ?calls_of_record by reflexivity; reflexivity.

Lemma fake_create_git_ref_no_deletion (r : RepoObj) (ref sha : string) :
  keeps deletions (fake_create_git_ref r ref sha).
Proof. recorded. Qed.

Lemma fake_update_file_no_deletion (r : RepoObj) (p m c sha b : string) :
  keeps deletions (fake_update_file r p m c sha b).
Proof. recorded. Qed.

Lemma fake_create_file_no_deletion (r : RepoObj) (p m c b : string) :
  keeps deletions (fake_create_file r p m c b).
Proof. recorded. Qed.

Lemma fake_create_pull_no_deletion (r : RepoObj) (t b hd bs : string) :
  keeps deletions (fake_create_pull r t b hd bs).
Proof. recorded. Qed.

Lemma fake_create_git_ref_no_content (r : RepoObj) (ref sha : string) :
  keeps content_writes (fake_create_git_ref r ref sha).
Proof. recorded. Qed.

Lemma fake_delete_file_no_content (r : RepoObj) (p m sha b : string) :
  keeps content_writes (fake_delete_file r p m sha b).
Proof. recorded. Qed.

Lemma fake_create_pull_no_content (r : RepoObj) (t b hd bs : string) :
  keeps content_writes (fake_create_pull r t b hd bs).
Proof. recorded. Qed.

End SmallHostWrites.

(** *** The theorems above, on the small host *)

Section OnTheSmallHost.
Import Fixture Calls Examples Batches.

Lemma resolution_only_reads_witness :
  (_resolve_all_placeholders_for_repo version_runtime fake_host repo_r
     [ph_version "v" 1; ph_missing_file] "ts" version_world).2
  = version_world.
Proof.
  apply (resolution_only_reads version_runtime fake_host (fun w => w)
           (fake_get_repo_keeps _) (fake_get_contents_keeps _)).
Defined.

Lemma locating_only_reads_witness :
  (find_target_files no_runtime fake_host "o/r" "main" "docs" "*.md" ""
     Flaky.docs_world).2
  = Flaky.docs_world.
Proof.
  apply (locating_only_reads no_runtime fake_host (fun w => w)
           (fake_get_repo_keeps _) (fake_get_contents_keeps _)
           (fake_get_branch_keeps _) (fake_search_code_keeps _)
           (fake_get_git_tree_keeps _)).
Defined.

Lemma remove_never_writes_content_witness :
  content_writes
    (execute_remove_file_action no_runtime fake_host [repo_r] []
       remove_on_main "ts" readme_world).2
  = content_writes readme_world.
Proof.
  apply (remove_never_writes_content no_runtime fake_host content_writes
           (fake_get_repo_keeps _) (fake_get_contents_keeps _)
           (fake_get_branch_keeps _) (fake_get_git_ref_keeps _)
           fake_create_git_ref_no_content (fake_get_pulls_keeps _)
           fake_create_pull_no_content fake_delete_file_no_content).
Defined.

Lemma update_without_force_never_deletes_witness :
  deletions
    (update_file no_runtime fake_host
       {| ro_full_name := "o/r"; ro_owner_login := "o";
          ro_default_branch := Some "main" |}
       "README.md" "bye" "Update README.md" "main" None
       "Replace entire content" None None false true (Some "main") false
       readme_world).2
  = deletions readme_world.
Proof.
  apply (update_without_force_never_deletes no_runtime fake_host deletions
           (fake_get_contents_keeps _) fake_update_file_no_deletion
           fake_create_file_no_deletion).
Defined.

Lemma add_never_deletes_witness :
  deletions
    (execute_add_new_file_action no_runtime fake_host [repo_r] []
       (add_form "feature") "ts" readme_world).2
  = deletions readme_world.
Proof.
  apply (add_never_deletes no_runtime fake_host deletions
           (fake_get_repo_keeps _) (fake_get_contents_keeps _)
           (fake_get_branch_keeps _) (fake_get_git_ref_keeps _)
           fake_create_git_ref_no_deletion (fake_get_pulls_keeps _)
           fake_create_pull_no_deletion fake_update_file_no_deletion
           fake_create_file_no_deletion).
Defined.

Lemma update_never_deletes_unless_forced_witness :
  deletions
    (execute_update_file_action no_runtime fake_host [repo_r] []
       replace_absent_string "ts" readme_world).2
  = deletions readme_world.
Proof.
  apply (update_never_deletes_unless_forced no_runtime fake_host deletions
           (fake_get_repo_keeps _) (fake_get_contents_keeps _)
           (fake_get_branch_keeps _) (fake_get_git_ref_keeps _)
           fake_create_git_ref_no_deletion (fake_get_pulls_keeps _)
           fake_create_pull_no_deletion fake_update_file_no_deletion
           fake_create_file_no_deletion (fake_search_code_keeps _)
           (fake_get_git_tree_keeps _) replace_absent_string eq_refl).
Defined.

End OnTheSmallHost.

End FrameFacts.

(** ** The resolver, further *)

Module ResolverMore.
Import PyStr GithubUtils ActionProcessing Notions ResolverFacts.

Section WithHost.
Context {W : Type} (rt : Runtime) (h : Host W).

Lemma resolve_loop_valid_only (repo_info : Repository)
    (defs : list PlaceholderDefinition) (m : gmap string string)
    (log log' : list string) (w : W) :
  let r := resolve_loop rt h repo_info defs m log w in
  let r' := resolve_loop rt h repo_info (List.filter is_valid defs) m log' w in
  r.1.1.1 = r'.1.1.1 /\ r.1.2 = r'.1.2 /\ r.2 = r'.2.
Proof.
  revert m log log' w.
  induction defs as [|d defs IH]; intros m log log' w; [done|].
  cbn [List.filter]. destruct (is_valid d) eqn:Hv.
  - destruct (extract_for rt h repo_info d w) as [r w'] eqn:He.
    destruct (otruthy (pe_error r)) eqn:Herr.
    + by rewrite !(resolve_loop_error rt h _ _ _ _ _ _ _ _ Hv He Herr).
    + rewrite !(resolve_loop_store rt h _ _ _ _ _ _ _ _ Hv He Herr).
      apply IH.
  - rewrite (resolve_loop_skip rt h _ _ _ _ _ _ Hv). apply IH.
Qed.

(** X18: the definitions the resolver skips (an empty name, file path or
    method) have no effect beyond their warning in the log: the map, the
    flag and the calls on the host are what they are for the list without
    them. *)
Theorem skipped_definitions_change_nothing_but_the_log
    (repo_info : Repository) (defs : list PlaceholderDefinition)
    (ts : string) (w : W) :
  (_resolve_all_placeholders_for_repo rt h repo_info defs ts w).1.1.1
  = (_resolve_all_placeholders_for_repo rt h repo_info
       (List.filter is_valid defs) ts w).1.1.1
  /\ (_resolve_all_placeholders_for_repo rt h repo_info defs ts w).1.2
     = (_resolve_all_placeholders_for_repo rt h repo_info
          (List.filter is_valid defs) ts w).1.2
  /\ (_resolve_all_placeholders_for_repo rt h repo_info defs ts w).2
     = (_resolve_all_placeholders_for_repo rt h repo_info
          (List.filter is_valid defs) ts w).2.
Proof. apply resolve_loop_valid_only. Qed.

Lemma resolve_loop_keys (repo_info : Repository)
    (defs : list PlaceholderDefinition) (m : gmap string string)
    (log : list string) (w : W) :
  (resolve_loop rt h repo_info defs m log w).1.2 = true ->
  dom (resolve_loop rt h repo_info defs m log w).1.1.1
  = dom m ∪ list_to_set (map ph_name (List.filter is_valid defs)).
Proof.
  revert m log w.
  induction defs as [|d defs IH]; intros m log w.
  { intros _. simpl. by rewrite (right_id_L ∅ (∪)). }
  cbn [List.filter]. destruct (is_valid d) eqn:Hv.
  - destruct (extract_for rt h repo_info d w) as [r w'] eqn:He.
    destruct (otruthy (pe_error r)) eqn:Herr.
    + by rewrite (resolve_loop_error rt h _ _ _ _ _ _ _ _ Hv He Herr).
    + rewrite (resolve_loop_store rt h _ _ _ _ _ _ _ _ Hv He Herr).
      intros Hok. rewrite (IH _ _ _ Hok), dom_insert_L. simpl.
      rewrite !(assoc_L (∪)). f_equal. apply (comm_L (∪)).
  - rewrite (resolve_loop_skip rt h _ _ _ _ _ _ Hv). apply IH.
Qed.

(** X19: when the resolver succeeds, the keys of the map are the four
    built-in names and the names of the definitions that were not
    skipped, no more and no less. *)
Theorem resolved_keys_on_success (repo_info : Repository)
    (defs : list PlaceholderDefinition) (ts : string) (w : W) :
  (_resolve_all_placeholders_for_repo rt h repo_info defs ts w).1.2 = true ->
  dom (_resolve_all_placeholders_for_repo rt h repo_info defs ts w).1.1.1
  = list_to_set (reserved_keys ++ map ph_name (List.filter is_valid defs)).
Proof.
  intros Hok. unfold _resolve_all_placeholders_for_repo in *.
  rewrite (resolve_loop_keys _ _ _ _ _ Hok).
  unfold builtin_placeholders, reserved_keys.
  rewrite list_to_set_app_L. by f_equal.
Qed.

End WithHost.

Lemma resolved_keys_on_success_witness :
  dom (_resolve_all_placeholders_for_repo Examples.version_runtime
         Fixture.fake_host Examples.repo_r
         [Examples.ph_no_path; Examples.ph_version "v" 1] "ts"
         Examples.version_world).1.1.1
  = list_to_set
      (reserved_keys
       ++ map ph_name
            (List.filter is_valid
               [Examples.ph_no_path; Examples.ph_version "v" 1])).
Proof.
  apply resolved_keys_on_success. vm_compute. reflexivity.
Defined.

End ResolverMore.

(** ** The parameters of an action *)

Module ParamsFacts.
Import PyStr Template ActionProcessing.

Lemma params_set_keys (params : list (string * string)) (key value : string) :
  map fst (params_set params key value) = map fst params.
Proof.
  induction params as [|[k v] params IH]; simpl; [done|].
  destruct (String.eqb k key); simpl; [done | by rewrite IH].
Qed.

Lemma phase1_keys (M : gmap string string) (params : list (string * string))
    (log : list string) :
  map fst (phase1 M params log).1 = map fst params.
Proof.
  revert log. induction params as [|[k v] params IH]; intros log; [done|].
  simpl.
  match goal with
  | |- context [phase1 M params ?l] =>
      specialize (IH l); destruct (phase1 M params l) as [rest log']
  end.
  simpl in *. by rewrite IH.
Qed.

Lemma phase2_keys (M : gmap string string) (keys : list string)
    (params : list (string * string)) (log : list string) :
  map fst (phase2 M keys params log).1 = map fst params.
Proof.
  revert params log.
  induction keys as [|key keys IH]; intros params log; [done|].
  simpl. destruct (params_get params key); [|apply IH].
  by rewrite IH, params_set_keys.
Qed.

(** X20: processing the parameters of an action keeps their keys, in
    their order: none is added, dropped or moved. *)
Theorem processing_keeps_the_keys (params : list (string * string))
    (M : gmap string string) (keys2 : list string) :
  map fst (_process_action_params params M keys2).1.1 = map fst params.
Proof.
  unfold _process_action_params.
  pose proof (phase1_keys M params []) as H1.
  destruct (phase1 M params []) as [p1 log1]. simpl in H1.
  match goal with
  | |- context [phase2 ?m keys2 p1 ?l] =>
      pose proof (phase2_keys m keys2 p1 l) as H2;
      destruct (phase2 m keys2 p1 l) as [p2 log2]
  end.
  simpl in *. by rewrite H2.
Qed.

Lemma phase1_get (M : gmap string string) (params : list (string * string))
    (log : list string) (key : string) :
  params_get (phase1 M params log).1 key
  = (fun v => process_placeholders_in_string v M) <$> params_get params key.
Proof.
  revert log. induction params as [|[k v] params IH]; intros log; [done|].
  simpl.
  match goal with
  | |- context [phase1 M params ?l] =>
      specialize (IH l); destruct (phase1 M params l) as [rest log']
  end.
  simpl in *. by destruct (String.eqb k key).
Qed.

Lemma params_get_set (params : list (string * string))
    (key key' value : string) :
  params_get (params_set params key' value) key
  = if String.eqb key' key
    then (fun _ => value) <$> params_get params key
    else params_get params key.
Proof.
  induction params as [|[k v] params IH]; simpl.
  - by destruct (String.eqb key' key).
  - destruct (String.eqb k key') eqn:E1; simpl.
    + apply String.eqb_eq in E1. subst k.
      by destruct (String.eqb key' key).
    + destruct (String.eqb k key) eqn:E2.
      * apply String.eqb_eq in E2. subst k. by rewrite String.eqb_sym, E1.
      * exact IH.
Qed.

Lemma phase2_get (M : gmap string string) (keys : list string)
    (params : list (string * string)) (log : list string) (key : string) :
  NoDup keys ->
  params_get (phase2 M keys params log).1 key
  = if bool_decide (key ∈ keys)
    then (fun v => process_placeholders_in_string v M)
         <$> params_get params key
    else params_get params key.
Proof.
  revert params log.
  induction keys as [|k keys IH]; intros params log Hnd.
  { by rewrite bool_decide_eq_false_2 by apply not_elem_of_nil. }
  apply NoDup_cons in Hnd as [Hk Hnd]. simpl.
  destruct (params_get params k) as [v|] eqn:Hget.
  - rewrite IH by done. rewrite params_get_set.
    destruct (String.eqb k key) eqn:E.
    + apply String.eqb_eq in E. subst k.
      rewrite (bool_decide_eq_false_2 _ Hk).
      rewrite bool_decide_eq_true_2 by left. by rewrite Hget.
    + apply String.eqb_neq in E.
      destruct (decide (key ∈ keys)) as [Hin|Hin].
      * rewrite !bool_decide_eq_true_2; [done | by right | done].
      * rewrite !bool_decide_eq_false_2; [done | | done].
        intros [?|?]%elem_of_cons; done.
  - rewrite IH by done.
    destruct (decide (key = k)) as [->|Hne].
    + rewrite (bool_decide_eq_false_2 _ Hk).
      rewrite bool_decide_eq_true_2 by left. by rewrite Hget.
    + destruct (decide (key ∈ keys)) as [Hin|Hin].
      * rewrite !bool_decide_eq_true_2; [done | by right | done].
      * rewrite !bool_decide_eq_false_2; [done | | done].
        intros [?|?]%elem_of_cons; done.
Qed.

(** X21: the two phases.  Every parameter is substituted once with the
    resolved placeholders; [file_path] is then set, for the messages, to
    the substituted value of the parameter [file_path] (or
    [target_file_path], or the empty text); and the parameters named for
    the second phase are substituted once more, with that map. *)
Theorem parameters_are_processed_in_two_phases
    (params : list (string * string)) (M : gmap string string)
    (keys2 : list string) (key value : string) :
  NoDup keys2 ->
  params_get params key = Some value ->
  (_process_action_params params M keys2).2
  = <["file_path" :=
        default
          (default ""
             ((fun v => process_placeholders_in_string v M)
              <$> params_get params "target_file_path"))
          ((fun v => process_placeholders_in_string v M)
           <$> params_get params "file_path")]> M
  /\ params_get (_process_action_params params M keys2).1.1 key
     = Some (if bool_decide (key ∈ keys2)
             then process_placeholders_in_string
                    (process_placeholders_in_string value M)
                    (_process_action_params params M keys2).2
             else process_placeholders_in_string value M).
Proof.
  intros Hnd Hget. unfold _process_action_params.
  pose proof (phase1_get M params []) as H1.
  destruct (phase1 M params []) as [p1 log1]. simpl in H1.
  match goal with
  | |- context [phase2 ?m keys2 p1 ?l] =>
      pose proof (phase2_get m keys2 p1 l key Hnd) as H2;
      destruct (phase2 m keys2 p1 l) as [p2 log2]
  end.
  simpl in *. rewrite H2, !H1, Hget. simpl. split.
  - by destruct (params_get params "file_path").
  - by destruct (bool_decide (key ∈ keys2)).
Qed.

Lemma parameters_are_processed_in_two_phases_witness :
  (_process_action_params
     [("file_path", "docs/{{repo_name}}.md");
      ("commit_message", "Remove {{file_path}}")]
     {[ "repo_name" := "r" ]} ["commit_message"]).2
  = <["file_path" :=
        default
          (default ""
             ((fun v => process_placeholders_in_string v {[ "repo_name" := "r" ]})
              <$> params_get
                    [("file_path", "docs/{{repo_name}}.md");
                     ("commit_message", "Remove {{file_path}}")]
                    "target_file_path"))
          ((fun v => process_placeholders_in_string v {[ "repo_name" := "r" ]})
           <$> params_get
                 [("file_path", "docs/{{repo_name}}.md");
                  ("commit_message", "Remove {{file_path}}")]
                 "file_path")]> {[ "repo_name" := "r" ]}
  /\ params_get
       (_process_action_params
          [("file_path", "docs/{{repo_name}}.md");
           ("commit_message", "Remove {{file_path}}")]
          {[ "repo_name" := "r" ]} ["commit_message"]).1.1 "commit_message"
     = Some (if bool_decide ("commit_message" ∈ ["commit_message"])
             then process_placeholders_in_string
                    (process_placeholders_in_string "Remove {{file_path}}"
                       {[ "repo_name" := "r" ]})
                    (_process_action_params
                       [("file_path", "docs/{{repo_name}}.md");
                        ("commit_message", "Remove {{file_path}}")]
                       {[ "repo_name" := "r" ]} ["commit_message"]).2
             else process_placeholders_in_string "Remove {{file_path}}"
                    {[ "repo_name" := "r" ]}).
Proof.
  apply parameters_are_processed_in_two_phases.
  - apply NoDup_singleton.
  - reflexivity.
Defined.

(** The same parameters, evaluated. *)
Example file_path_reaches_the_commit_message :
  params_get
    (_process_action_params
       [("file_path", "docs/{{repo_name}}.md");
        ("commit_message", "Remove {{file_path}}")]
       {[ "repo_name" := "r" ]} ["commit_message"]).1.1 "commit_message"
  = Some "Remove docs/r.md".
Proof. vm_compute. reflexivity. Qed.

End ParamsFacts.

(** ** The executors, further *)

Module ExecutorMore.
Import PyStr Template GithubUtils ActionProcessing Frame MoreBatchNotions.

Section WithHost.
Context {W : Type} (rt : Runtime) (h : Host W).

Lemma appends_such_intro (P : ActionResult -> Prop)
    (batch : list ActionResult) (x : ActionResult) (w : W) :
  P x -> appends_such P batch (Ok (append_result batch x), w).
Proof. intros H. by exists x. Qed.

Lemma for_each_repo_all (P : ActionResult -> Prop)
    (body : Repository -> list ActionResult -> W ->
            outcome (list ActionResult) * W)
    (repos : list Repository) (batch : list ActionResult) (w : W) :
  (forall r b w, appends_such P b (body r b w)) ->
  Forall P batch ->
  match (for_each_repo body repos batch w).1 with
  | Ok l => Forall P l
  | Raise _ => True
  end.
Proof.
  intros Hbody. revert batch w.
  induction repos as [|repo repos IH]; intros batch w Hall; [done|].
  simpl. specialize (Hbody repo batch w). unfold appends_such in Hbody.
  destruct (body repo batch w) as [[l|e] w1]; simpl in *; [|done].
  destruct Hbody as [x [-> Hx]]. apply IH.
  apply Forall_app. split; [done|]. by apply Forall_singleton.
Qed.

Lemma add_on_branch_success (repo_info : Repository) (repo_api : RepoObj)
    (params : list (string * string)) (path content branch : string)
    (log : list string) (batch : list ActionResult) (w : W) :
  appends_such success_means_url batch
    (add_on_branch rt h repo_info repo_api params path content branch log
       batch w).
Proof.
  unfold add_on_branch.
  destruct (update_file _ _ _ _ _ _ _ _ _ _ _ _ _ _ _ w) as [ur w1].
  destruct (fu_success ur) eqn:Hs; simpl.
  - destruct (create_pull_request _ _ _ _ _ _ w1) as [pr w2].
    by apply appends_such_intro.
  - by apply appends_such_intro.
Qed.

Lemma add_body_success (defs : list PlaceholderDefinition) (form : AddForm)
    (ts : string) (repo_info : Repository) (batch : list ActionResult)
    (w : W) :
  appends_such success_means_url batch
    (add_body rt h defs form ts repo_info batch w).
Proof.
  unfold add_body.
  repeat first
    [ apply add_on_branch_success
    | by apply appends_such_intro
    | done
    | case_match ].
Qed.

(** X23: every result the Add executor returns reports success exactly
    when it carries the URL of a pull request: no success without a pull
    request, no failure with one. *)
Theorem add_success_means_pull_request (repos : list Repository)
    (defs : list PlaceholderDefinition) (form : AddForm) (ts : string)
    (w : W) :
  match (execute_add_new_file_action rt h repos defs form ts w).1 with
  | Ok results => Forall success_means_url results
  | Raise _ => True
  end.
Proof.
  unfold execute_add_new_file_action. apply for_each_repo_all; [|done].
  intros r b w0. apply add_body_success.
Qed.

End WithHost.

Section EmptyPath.
Context {W O : Type} (rt : Runtime) (h : Host W) (obs : W -> O).
Hypothesis get_repo_keeps : forall n, keeps obs (h_get_repo h n).
Hypothesis get_contents_keeps :
  forall r p ref, keeps obs (h_get_contents h r p ref).
Variable form : RemoveForm.
Hypothesis no_path : rf_file_path form = "".

Lemma remove_body_empty_path (defs : list PlaceholderDefinition)
    (ts : string) (repo_info : Repository) (batch : list ActionResult)
    (w : W) :
  exists x,
    (remove_body rt h defs form ts repo_info batch w).1 = Ok (batch ++ [x])
    /\ ar_success x = false
    /\ ar_repo x = name repo_info
    /\ obs (remove_body rt h defs form ts repo_info batch w).2 = obs w.
Proof.
  unfold remove_body. rewrite no_path.
  pose proof (FrameFacts.resolve_all_keeps rt h obs get_repo_keeps
                get_contents_keeps repo_info defs ts w) as Hres.
  destruct (_resolve_all_placeholders_for_repo rt h repo_info defs ts w)
    as [[[resolved ph_log] ph_ok] w1].
  simpl in Hres.
  destruct ph_ok; simpl; eexists; (split; [reflexivity | by repeat split]).
Qed.

(** X24: with an empty file path in the form, the Remove executor fails
    every repository, in the order of the input, after having only read:
    nothing but [get_repo] and [get_contents] is called. *)
Theorem remove_with_empty_path_only_reads (repos : list Repository)
    (defs : list PlaceholderDefinition) (ts : string) (w : W) :
  exists results,
    (execute_remove_file_action rt h repos defs form ts w).1 = Ok results
    /\ Forall (fun x => ar_success x = false) results
    /\ map ar_repo results = map name repos
    /\ obs (execute_remove_file_action rt h repos defs form ts w).2 = obs w.
Proof.
  unfold execute_remove_file_action.
  assert (forall batch w0,
             exists results,
               (for_each_repo (remove_body rt h defs form ts) repos batch
                  w0).1 = Ok (batch ++ results)
               /\ Forall (fun x => ar_success x = false) results
               /\ map ar_repo results = map name repos
               /\ obs (for_each_repo (remove_body rt h defs form ts) repos
                         batch w0).2 = obs w0) as Hloop.
  { induction repos as [|repo rest IH]; intros batch w0.
    - exists []. simpl. by rewrite app_nil_r.
    - simpl.
      destruct (remove_body_empty_path defs ts repo batch w0)
        as [x (Hrun & Hx & Hname & Hobs)].
      destruct (remove_body rt h defs form ts repo batch w0) as [o w1].
      simpl in Hrun, Hobs. subst o.
      destruct (IH (batch ++ [x]) w1) as [results (Hr & Hall & Hnames & Ho)].
      exists (x :: results). rewrite Hr, <- app_assoc. simpl.
      repeat split; [by constructor | by rewrite Hname, Hnames | congruence]. }
  destruct (Hloop [] w) as [results H]. by exists results.
Qed.

End EmptyPath.

Lemma remove_with_empty_path_only_reads_witness :
  exists results,
    (execute_remove_file_action Batches.no_runtime Fixture.fake_host
       [Examples.repo_r; Examples.repo_s] []
       {| rf_file_path := ""; rf_branch_name := "cleanup";
          rf_commit_message := "Remove {{file_path}}";
          rf_pr_title := "Remove {{file_path}}"; rf_pr_body := "" |}
       "ts" Batches.readme_world).1 = Ok results
    /\ Forall (fun x => ar_success x = false) results
    /\ map ar_repo results = map name [Examples.repo_r; Examples.repo_s]
    /\ (execute_remove_file_action Batches.no_runtime Fixture.fake_host
          [Examples.repo_r; Examples.repo_s] []
          {| rf_file_path := ""; rf_branch_name := "cleanup";
             rf_commit_message := "Remove {{file_path}}";
             rf_pr_title := "Remove {{file_path}}"; rf_pr_body := "" |}
          "ts" Batches.readme_world).2
       = Batches.readme_world.
Proof.
  apply (remove_with_empty_path_only_reads Batches.no_runtime
           Fixture.fake_host (fun w => w)
           (FrameFacts.fake_get_repo_keeps _)
           (FrameFacts.fake_get_contents_keeps _)
           {| rf_file_path := ""; rf_branch_name := "cleanup";
              rf_commit_message := "Remove {{file_path}}";
              rf_pr_title := "Remove {{file_path}}"; rf_pr_body := "" |}
           eq_refl).
Defined.

End ExecutorMore.

(** ** Listing the repositories *)

Module ListingFacts.
Import PyStr Listing.

Section WithAccount.
Context {W D : Type} (strftime : D -> string) (g : Account W D).

(** X25: [fetch_repositories] answers with the rows and no error, or
    with no rows and an error that is not the empty text, whatever the
    host raises and wherever it does. *)
Theorem listing_gives_rows_or_an_error (search_query org_name : option string)
    (w : W) :
  match (fetch_repositories strftime g search_query org_name w).1 with
  | (Some _, None) => True
  | (None, Some e) => e <> ""
  | _ => False
  end.
Proof.
  unfold fetch_repositories, fetch_handler.
  destruct (list_repos g org_name w) as [[raw|e] w1].
  - destruct (to_rows strftime (select_by_name search_query raw)) as [rows|e];
      [done|].
    destruct (is_github e); simpl; discriminate.
  - destruct (is_github e); simpl; discriminate.
Qed.

Lemma strip_truthy (s : string) : truthy (strip s) = true -> truthy s = true.
Proof. by destruct s. Qed.

Lemma lower_truthy (s : string) : truthy (lower s) = truthy s.
Proof. by destruct s. Qed.

(** X26: the search text is read without its surrounding white space and
    without regard to case: two texts that agree once trimmed and put in
    lower case give the same answer. *)
Theorem search_ignores_case_and_margins (q q' : string)
    (org_name : option string) (w : W) :
  lower (strip q) = lower (strip q') ->
  fetch_repositories strftime g (Some q) org_name w
  = fetch_repositories strftime g (Some q') org_name w.
Proof.
  intros H.
  assert (forall raw : list (RawRepo D),
             select_by_name (Some q) raw = select_by_name (Some q') raw)
    as Hsel.
  { intros raw. unfold select_by_name. simpl. rewrite H.
    assert (truthy (strip q) = truthy (strip q')) as Ht.
    { by rewrite <- (lower_truthy (strip q)), H, lower_truthy. }
    rewrite Ht.
    destruct (truthy (strip q')) eqn:E.
    - by rewrite (strip_truthy _ E), (strip_truthy _ Ht).
    - by rewrite !andb_false_r. }
  unfold fetch_repositories.
  destruct (list_repos g org_name w) as [[raw|e] w1]; [|done].
  by rewrite Hsel.
Qed.

Lemma to_rows_all_readable (items : list (RawRepo D)) :
  Forall (fun r => match raw_default_branch r with
                   | Raise e => is_github e = true
                   | Ok _ => True
                   end) items ->
  exists rows,
    to_rows strftime items = Ok rows
    /\ map name rows = map raw_name items
    /\ map default_branch rows
       = map (fun r => match raw_default_branch r with
                       | Ok b => b
                       | Raise _ => "main"
                       end) items.
Proof.
  induction items as [|item items IH]; intros Hall.
  { by exists []. }
  apply Forall_cons in Hall as [Hitem Hall].
  destruct (IH Hall) as [rows (Hrows & Hnames & Hbranches)].
  simpl. unfold to_row.
  destruct (raw_default_branch item) as [b|e].
  - rewrite Hrows. eexists. split; [reflexivity|]. simpl.
    by rewrite Hnames, Hbranches.
  - rewrite Hitem, Hrows. eexists. split; [reflexivity|]. simpl.
    by rewrite Hnames, Hbranches.
Qed.

(** X27: a repository whose default branch cannot be read (the read
    raises a [GithubException]) is not left out: it is listed, in its
    place, with the default branch [main]. *)
Theorem unreadable_default_branch_becomes_main
    (search_query org_name : option string) (w w' : W)
    (fetched : list (RawRepo D)) :
  list_repos g org_name w = (Ok fetched, w') ->
  Forall (fun r => match raw_default_branch r with
                   | Raise e => is_github e = true
                   | Ok _ => True
                   end) (select_by_name search_query fetched) ->
  exists rows,
    fetch_repositories strftime g search_query org_name w
    = ((Some rows, None), w')
    /\ map name rows = map raw_name (select_by_name search_query fetched)
    /\ map default_branch rows
       = map (fun r => match raw_default_branch r with
                       | Ok b => b
                       | Raise _ => "main"
                       end) (select_by_name search_query fetched).
Proof.
  intros Hlist Hall. unfold fetch_repositories. rewrite Hlist.
  destruct (to_rows_all_readable _ Hall) as [rows (Hrows & H1 & H2)].
  rewrite Hrows. by exists rows.
Qed.

End WithAccount.

Lemma search_ignores_case_and_margins_witness :
  fetch_repositories (fun t : string => t) ListingExamples.account
    (Some "  API ") None tt
  = fetch_repositories (fun t : string => t) ListingExamples.account
      (Some "api") None tt.
Proof.
  apply search_ignores_case_and_margins. vm_compute. reflexivity.
Defined.

Lemma unreadable_default_branch_becomes_main_witness :
  exists rows,
    fetch_repositories (fun t : string => t) ListingExamples.account
      (Some "  API ") None tt
    = ((Some rows, None), tt)
    /\ map name rows
       = map raw_name
           (select_by_name (Some "  API ")
              [ListingExamples.api_server; ListingExamples.docs])
    /\ map default_branch rows
       = map (fun r => match raw_default_branch r with
                       | Ok b => b
                       | Raise _ => "main"
                       end)
           (select_by_name (Some "  API ")
              [ListingExamples.api_server; ListingExamples.docs]).
Proof.
  apply (unreadable_default_branch_becomes_main (fun t : string => t)
           ListingExamples.account (Some "  API ") None tt tt
           [ListingExamples.api_server; ListingExamples.docs]).
  - reflexivity.
  - vm_compute. by repeat constructor.
Defined.

(** The same listing, evaluated. *)
Example listing_example :
  match (fetch_repositories (fun t : string => t) ListingExamples.account
           (Some "  API ") None tt).1.1 with
  | Some rows => map (fun r => (name r, default_branch r)) rows
  | None => []
  end
  = [("Api-Server", "main")].
Proof. vm_compute. reflexivity. Qed.

End ListingFacts.

(** ** The paths of the form *)

Module FormsFacts.
Import PyStr Template GithubUtils Forms StrFacts.

Lemma yaml_paths_trimmed (text : string) :
  Forall (fun p => strip p = p /\ truthy p = true) (yaml_paths_of_text text).
Proof.
  unfold yaml_paths_of_text.
  induction (split newline text) as [|p l IH]; simpl; [constructor|].
  destruct (truthy (strip p)) eqn:E; [|exact IH].
  constructor; [|exact IH]. split; [apply UtilityFacts.strip_idem | done].
Qed.

(** X28: the list of paths the form stores is the list the extractor
    tries: none of the stored paths is dropped or changed by the checks of
    the extractor. *)
Theorem stored_paths_are_the_paths_tried (text : string) :
  yaml_path_list (YPList (map PStr (yaml_paths_of_text text)))
  = yaml_paths_of_text text.
Proof.
  pose proof (yaml_paths_trimmed text) as H. simpl.
  induction (yaml_paths_of_text text) as [|p l IH]; [done|].
  apply Forall_cons in H as [[Hp Ht] H]. simpl.
  rewrite Hp, Ht. simpl. f_equal. exact (IH H).
Qed.

Lemma split_pieces (sep : ascii) (s : string) :
  Forall (fun p => all_chars (fun c => negb (Ascii.eqb c sep)) p = true)
         (split sep s).
Proof.
  induction s as [|c s IH]; simpl; [by constructor|].
  destruct (Ascii.eqb c sep) eqn:E; [by constructor|].
  destruct (split sep s) as [|h t]; [by constructor; [simpl; rewrite E|]|].
  apply Forall_cons in IH as [Hh Ht].
  constructor; [|done]. simpl. by rewrite E, Hh.
Qed.

Lemma split_whole (sep : ascii) (s : string) :
  all_chars (fun c => negb (Ascii.eqb c sep)) s = true -> split sep s = [s].
Proof.
  induction s as [|c s IH]; simpl; [done|].
  intros [Hc Hs]%andb_prop. apply negb_true_iff in Hc.
  by rewrite Hc, IH.
Qed.

Lemma lstrip_keeps (P : ascii -> bool) (s : string) :
  all_chars P s = true -> all_chars P (lstrip s) = true.
Proof.
  induction s as [|c s IH]; simpl; [done|].
  intros [Hc Hs]%andb_prop.
  destruct (is_space c); [by apply IH|]. simpl. by rewrite Hc, Hs.
Qed.

Lemma rstrip_keeps (P : ascii -> bool) (s : string) :
  all_chars P s = true -> all_chars P (rstrip s) = true.
Proof.
  induction s as [|c s IH]; simpl; [done|].
  intros [Hc Hs]%andb_prop.
  destruct (is_space c && is_empty (rstrip s)); [done|].
  simpl. by rewrite Hc, IH.
Qed.

Lemma yaml_paths_one_line (text : string) :
  Forall (fun p => all_chars (fun c => negb (Ascii.eqb c newline)) p = true)
         (yaml_paths_of_text text).
Proof.
  unfold yaml_paths_of_text. pose proof (split_pieces newline text) as H.
  induction (split newline text) as [|p l IH]; simpl; [constructor|].
  apply Forall_cons in H as [Hp H].
  destruct (truthy (strip p)); [|by apply IH].
  constructor; [|by apply IH].
  unfold strip. by apply rstrip_keeps, lstrip_keeps.
Qed.

Lemma split_join (l : list string) :
  l <> [] ->
  Forall (fun p => all_chars (fun c => negb (Ascii.eqb c newline)) p = true)
         l ->
  split newline (text_of_yaml_paths l) = l.
Proof.
  unfold text_of_yaml_paths.
  induction l as [|p l IH]; [done|]. intros _ [Hp Hl]%Forall_cons.
  destruct l as [|p' l]; [by apply split_whole|].
  change (join (String newline "") (p :: p' :: l))
    with (p +:+ String newline (join (String newline "") (p' :: l))).
  rewrite PathFacts.split_app, (split_whole _ _ Hp), IH; done.
Qed.

Lemma paths_of_trimmed_lines (l : list string) :
  Forall (fun p => strip p = p /\ truthy p = true) l ->
  omap (fun path => if truthy (strip path) then Some (strip path) else None) l
  = l.
Proof.
  induction l as [|p l IH]; [done|]. intros [[Hp Ht] Hl]%Forall_cons.
  simpl. rewrite Hp, Ht. simpl. f_equal. exact (IH Hl).
Qed.

(** X29: a stored list of paths survives the form: shown as text for
    editing and read again on saving, it is the same list. *)
Theorem stored_paths_survive_editing (text : string) :
  yaml_paths_of_text (text_of_yaml_paths (yaml_paths_of_text text))
  = yaml_paths_of_text text.
Proof.
  pose proof (yaml_paths_trimmed text) as Ht.
  pose proof (yaml_paths_one_line text) as Hl.
  destruct (yaml_paths_of_text text) as [|p l] eqn:E; [done|].
  unfold yaml_paths_of_text at 1.
  rewrite split_join; [|done|done]. by apply paths_of_trimmed_lines.
Qed.

End FormsFacts.
